(** * Browns dry-ice inventory: the analyzer and the stock tracker

    A shallow embedding of [app/core/analyzer.py] (class [DryIceAnalyzer]),
    [app/core/inventory_tracker.py] (class [InventoryTracker]),
    [config/constants.py] and the two sidebar handlers of [app/main.py]
    that drive the tracker; further down, [app/core/smart_alerts.py],
    [app/core/predictive_maintenance.py],
    [app/core/system_integrations.py], [app/core/data_loader.py] and
    [create_versioned_file] of [app/core/advanced_reporting.py].

    Numbers.  The analyzer works on numpy [float64] scalars: pandas'
    [sum], [mean] and [std] return them, and every arithmetic operation
    that has one of them as an operand is carried out by numpy, which
    follows IEEE 754 (a division by zero yields an infinity or NaN, and
    the module silences the warning with [warnings.filterwarnings]).
    They are modelled by [float64] below: a real number, or one of the
    three special values.  Arithmetic on the finite values is exact real
    arithmetic: rounding and overflow are not modelled, and the sign of a
    zero is not recorded (a zero divisor counts as [+0.0]).  Sums of a
    column are exact too, while pandas adds a column of whole numbers in
    64-bit integers, which wrap at 2^63.  A statement that compares two
    different computations to the last place is therefore one about the
    values the formulas denote; where the rounding decides, the same
    expressions are evaluated over the kernel's binary64 numbers
    ([Binary64] below), which round as numpy and Python do.
    The stock of the tracker and the quantities booked on it are Python
    [int]s ([initial_stock=2000] and the integer [number_input] widgets of
    [main.py]); they are modelled by [Z]. *)

From Stdlib Require Import Reals Lra Lia ZArith List String Bool.
From Stdlib Require Import DecimalString.
Import ListNotations.

Open Scope R_scope.

(* ================================================================== *)
(** * Exceptions *)

(** The only exception the modelled code can raise by itself: a true
    division of two Python numbers by zero. *)
Inductive exn : Type :=
| ZeroDivisionError.

Inductive result (A : Type) : Type :=
| Ok (a : A)
| Raise (e : exn).

Arguments Ok {A} a.
Arguments Raise {A} e.

Definition bind {A B : Type} (m : result A) (f : A -> result B) : result B :=
  match m with
  | Ok a => f a
  | Raise e => Raise e
  end.

Notation "x <- m ;; k" := (bind m (fun x => k))
  (at level 61, m at next level, right associativity).

(* ================================================================== *)
(** * float64 scalars *)

Inductive float64 : Type :=
| Fin (x : R)
| PInf
| NInf
| NaN.

Definition of_int (z : Z) : float64 := Fin (IZR z).

Definition is_finite (a : float64) : bool :=
  match a with
  | Fin _ => true
  | _ => false
  end.

(** The sign of a real, as a three-way comparison with zero. *)
Definition Rsgn (x : R) : comparison :=
  match total_order_T x 0 with
  | inleft (left _) => Lt
  | inleft (right _) => Eq
  | inright _ => Gt
  end.

(** The infinity of a given sign; a zero sign comes from [0 * inf] or
    [0 / 0], which are NaN. *)
Definition signed_inf (s : comparison) : float64 :=
  match s with
  | Gt => PInf
  | Lt => NInf
  | Eq => NaN
  end.

Definition fneg (a : float64) : float64 :=
  match a with
  | Fin x => Fin (- x)
  | PInf => NInf
  | NInf => PInf
  | NaN => NaN
  end.

Definition fadd (a b : float64) : float64 :=
  match a, b with
  | NaN, _ | _, NaN => NaN
  | Fin x, Fin y => Fin (x + y)
  | PInf, NInf | NInf, PInf => NaN
  | PInf, _ | _, PInf => PInf
  | NInf, _ | _, NInf => NInf
  end.

Definition fsub (a b : float64) : float64 := fadd a (fneg b).

Definition fmul (a b : float64) : float64 :=
  match a, b with
  | NaN, _ | _, NaN => NaN
  | Fin x, Fin y => Fin (x * y)
  | Fin x, PInf | PInf, Fin x => signed_inf (Rsgn x)
  | Fin x, NInf | NInf, Fin x => signed_inf (CompOpp (Rsgn x))
  | PInf, PInf | NInf, NInf => PInf
  | PInf, NInf | NInf, PInf => NInf
  end.

Definition fdiv (a b : float64) : float64 :=
  match a, b with
  | NaN, _ | _, NaN => NaN
  | Fin x, Fin y =>
      if Req_dec_T y 0 then signed_inf (Rsgn x) else Fin (x / y)
  | Fin _, PInf | Fin _, NInf => Fin 0
  | PInf, Fin y => if Rlt_dec y 0 then NInf else PInf
  | NInf, Fin y => if Rlt_dec y 0 then PInf else NInf
  | _, _ => NaN
  end.

(** [np.sqrt]: NaN on a negative argument. *)
Definition fsqrt (a : float64) : float64 :=
  match a with
  | Fin x => if Rlt_dec x 0 then NaN else Fin (sqrt x)
  | PInf => PInf
  | NInf => NaN
  | NaN => NaN
  end.

(** Comparisons: every comparison with NaN is false. *)
Definition fle (a b : float64) : bool :=
  match a, b with
  | NaN, _ | _, NaN => false
  | NInf, _ => true
  | _, PInf => true
  | Fin x, Fin y => if Rle_dec x y then true else false
  | _, _ => false
  end.

Definition flt (a b : float64) : bool :=
  match a, b with
  | NaN, _ | _, NaN => false
  | PInf, _ => false
  | _, NInf => false
  | Fin x, Fin y => if Rlt_dec x y then true else false
  | _, _ => true
  end.

Definition fgt (a b : float64) : bool := flt b a.

(** Python's builtin [max(a, b)]: the first argument, unless the second
    is greater. *)
Definition py_max (a b : float64) : float64 :=
  if fgt b a then b else a.

(** True division of two Python [int]s: raises on a zero divisor. *)
Definition py_truediv (a b : Z) : result float64 :=
  if (b =? 0)%Z then Raise ZeroDivisionError
  else Ok (Fin (IZR a / IZR b)).

(* ================================================================== *)
(** * pandas Series reductions *)

Definition Rsum (xs : list R) : R := fold_right Rplus 0 xs.

Definition len {A : Type} (xs : list A) : Z := Z.of_nat (List.length xs).

(** [Series.sum()], as the exact sum: a column of whole numbers is
    summed in 64-bit integers, which wrap at 2^63, and a column of floats
    with rounding; neither is modelled. *)
Definition series_sum (xs : list R) : float64 := Fin (Rsum xs).

Definition Rmean (xs : list R) : R := Rsum xs / IZR (len xs).

(** [Series.mean()]: NaN on an empty series. *)
Definition series_mean (xs : list R) : float64 :=
  match xs with
  | [] => NaN
  | _ :: _ => Fin (Rmean xs)
  end.

(** [Series.std()], the sample standard deviation ([ddof=1]): NaN when
    the series has fewer than two values. *)
Definition series_std (xs : list R) : float64 :=
  if (len xs <? 2)%Z then NaN
  else Fin (sqrt (Rsum (map (fun x => (x - Rmean xs) * (x - Rmean xs)) xs)
                  / IZR (len xs - 1))).

(* ================================================================== *)
(** * config/constants.py *)

Record InventoryParameters : Type := {
  PRICE_PER_KG : R;
  CONTAINER_SIZE : Z;
  TRANSPORT_COST : R;
  HOLDING_RATE : R;
  SUB_LOSS_RANGE : R * R;
  LEAD_TIME_DAYS : Z;
  SERVICE_LEVEL : R;
  ALERT_CHANNELS : list string;
  CONTAINER_HEALTH_INDICATORS : list string
}.

Definition INVENTORY_PARAMETERS : InventoryParameters := {|
  PRICE_PER_KG := 146.55;
  CONTAINER_SIZE := 150;
  TRANSPORT_COST := 1741.94;
  HOLDING_RATE := 0.03;
  SUB_LOSS_RANGE := (2.27, 4.54);
  LEAD_TIME_DAYS := 1;
  SERVICE_LEVEL := 0.95;
  ALERT_CHANNELS := ["email"; "sms"; "dashboard"]%string;
  CONTAINER_HEALTH_INDICATORS :=
    ["insulation_efficiency"; "seal_integrity";
     "structural_condition"; "usage_cycles"]%string
|}.

(* ================================================================== *)
(** * The order data frame *)

(** One row of [data_loader.df], with the columns the analyzer reads.
    [Date] is the calendar day, as a day number. *)
Record Order : Type := {
  Date : Z;
  Order_Quantity_kg : R;
  Containers_Used : R;
  Total_Cost : R
}.

(** The analyzer is specified on a frame with at least one row (the
    "Order Dataset (non-empty)" of its contract), so a frame is its first
    row and the rows after it. *)
Record DataFrame : Type := {
  first_row : Order;
  more_rows : list Order
}.

Definition rows (df : DataFrame) : list Order :=
  first_row df :: more_rows df.

Definition column {A : Type} (f : Order -> A) (df : DataFrame) : list A :=
  map f (rows df).

(** [df['Date'].max()] and [df['Date'].min()]. *)
Definition date_max (df : DataFrame) : Z :=
  fold_right Z.max (Date (first_row df)) (map Date (more_rows df)).

Definition date_min (df : DataFrame) : Z :=
  fold_right Z.min (Date (first_row df)) (map Date (more_rows df)).

(** [(df['Date'].max() - df['Date'].min()).days]. *)
Definition time_span_days (df : DataFrame) : Z :=
  (date_max df - date_min df)%Z.

(** [df.groupby(df['Date'].dt.date)['Order_Quantity_kg'].sum()]: one
    entry per calendar day, in increasing order of the day. *)
Fixpoint add_to_day (d : Z) (q : R) (g : list (Z * R)) : list (Z * R) :=
  match g with
  | [] => [(d, q)]
  | (d', s) :: g' =>
      if (d =? d')%Z then (d', s + q) :: g'
      else if (d <? d')%Z then (d, q) :: g
      else (d', s) :: add_to_day d q g'
  end.

Definition groupby_date_sum (df : DataFrame) : list (Z * R) :=
  fold_left (fun g r => add_to_day (Date r) (Order_Quantity_kg r) g)
            (rows df) [].

Record DataLoader : Type := {
  df : DataFrame
}.

(* ================================================================== *)
(** * app/core/analyzer.py *)

Record DryIceAnalyzer : Type := {
  data_loader : DataLoader;
  constants : InventoryParameters
}.

(** [DryIceAnalyzer.__init__]. *)
Definition DryIceAnalyzer_init (dl : DataLoader) : DryIceAnalyzer :=
  {| data_loader := dl; constants := INVENTORY_PARAMETERS |}.

Record KPIs : Type := {
  total_orders : Z;
  total_volume : float64;
  avg_order_size : float64;
  std_order_size : float64;
  avg_monthly_demand : float64;
  current_monthly_volume : float64;
  order_frequency : float64;
  container_utilization : float64;
  total_cost : float64;
  avg_cost_per_order : float64
}.

(** [DryIceAnalyzer.calculate_kpis].  The two quotients by
    [time_span_days] sit under the guard [time_span_days > 0]; the second
    one divides two Python [int]s and would raise on a zero divisor. *)
Definition calculate_kpis (self : DryIceAnalyzer) : result KPIs :=
  let d := df (data_loader self) in
  let total_volume := series_sum (column Order_Quantity_kg d) in
  let avg_order := series_mean (column Order_Quantity_kg d) in
  let std_order := series_std (column Order_Quantity_kg d) in
  let avg_monthly_demand := fmul avg_order (of_int 30) in
  let time_span_days := time_span_days d in
  let current_monthly_volume :=
    if (0 <? time_span_days)%Z
    then fmul (fdiv total_volume (of_int time_span_days)) (of_int 30)
    else avg_monthly_demand in
  order_frequency <-
    (if (0 <? time_span_days)%Z
     then (x <- py_truediv (len (rows d)) time_span_days ;;
           Ok (fmul x (of_int 30)))
     else Ok (of_int 30)) ;;
  Ok {|
    total_orders := len (rows d);
    total_volume := total_volume;
    avg_order_size := avg_order;
    std_order_size := std_order;
    avg_monthly_demand := avg_monthly_demand;
    current_monthly_volume := current_monthly_volume;
    order_frequency := order_frequency;
    container_utilization :=
      fdiv (series_sum (column Order_Quantity_kg d))
           (fmul (series_sum (column Containers_Used d))
                 (of_int (CONTAINER_SIZE (constants self))));
    total_cost := series_sum (column Total_Cost d);
    avg_cost_per_order := series_mean (column Total_Cost d)
  |}.

(** [DryIceAnalyzer.calculate_eoq]. *)
Definition calculate_eoq (self : DryIceAnalyzer) : result float64 :=
  kpis <- calculate_kpis self ;;
  let demand := avg_monthly_demand kpis in
  Ok (fsqrt
        (fdiv (fmul (fmul (of_int 2) demand)
                    (Fin (TRANSPORT_COST (constants self))))
              (fmul (Fin (HOLDING_RATE (constants self)))
                    (Fin (PRICE_PER_KG (constants self)))))).

Record CostSavings : Type := {
  current_cost : float64;
  eoq_cost : float64;
  savings : float64;
  percent_savings : float64
}.

(** [DryIceAnalyzer.calculate_cost_savings]. *)
Definition calculate_cost_savings (self : DryIceAnalyzer) (eoq : float64)
  : result CostSavings :=
  kpis <- calculate_kpis self ;;
  let transport_cost := Fin (TRANSPORT_COST (constants self)) in
  let holding_rate := Fin (HOLDING_RATE (constants self)) in
  let price_per_kg := Fin (PRICE_PER_KG (constants self)) in
  let current_order_cost :=
    fadd (fmul (fdiv (current_monthly_volume kpis) (avg_order_size kpis))
               transport_cost)
         (fdiv (fmul (fmul holding_rate price_per_kg) (avg_order_size kpis))
               (of_int 2)) in
  let eoq_order_cost :=
    fadd (fmul (fdiv (current_monthly_volume kpis) eoq) transport_cost)
         (fdiv (fmul (fmul holding_rate price_per_kg) eoq) (of_int 2)) in
  let savings := py_max (of_int 0) (fsub current_order_cost eoq_order_cost) in
  let percent_savings :=
    if fgt current_order_cost (of_int 0)
    then fmul (fdiv savings current_order_cost) (of_int 100)
    else of_int 0 in
  Ok {|
    current_cost := current_order_cost;
    eoq_cost := eoq_order_cost;
    savings := savings;
    percent_savings := percent_savings
  |}.

Section SafetyStock.

(** [scipy.stats.norm.ppf], the inverse of the standard normal
    distribution function, is a library routine outside the repository. *)
Variable norm_ppf : R -> float64.

(** [DryIceAnalyzer.calculate_safety_stock]. *)
Definition calculate_safety_stock (self : DryIceAnalyzer) : result float64 :=
  let d := df (data_loader self) in
  let daily_demand := map snd (groupby_date_sum d) in
  if (len daily_demand <? 2)%Z
  then Ok (fmul (series_mean (column Order_Quantity_kg d)) (Fin 0.5))
  else
    let daily_std := series_std daily_demand in
    let z_score := norm_ppf (SERVICE_LEVEL (constants self)) in
    let lead_time_factor :=
      fsqrt (of_int (LEAD_TIME_DAYS (constants self))) in
    Ok (fmul (fmul z_score daily_std) lead_time_factor).

End SafetyStock.

(* ================================================================== *)
(** * app/core/inventory_tracker.py *)

(** A reading of [datetime.now()]. *)
Definition datetime : Type := Z.

(** One entry of [stock_history]. *)
Record Transaction : Type := {
  timestamp : datetime;
  quantity : Z;
  type : string;
  balance : Z
}.

Inductive Priority : Type := HIGH | MEDIUM.

(** The dictionary [send_alert] returns. *)
Record Alert : Type := {
  alert_timestamp : datetime;
  message : string;
  priority : Priority
}.

Inductive Status : Type := CRITICAL | LOW | NORMAL.

Inductive Color : Type := red | orange | green.

(** The dictionary [get_stock_status] returns. *)
Record StockStatus : Type := {
  status : Status;
  color : Color
}.

Record InventoryTracker : Type := {
  current_stock : Z;
  dry_ice_analyzer : DryIceAnalyzer;
  alerts_enabled : bool;
  stock_history : list Transaction
}.

(** [InventoryTracker.__init__]. *)
Definition InventoryTracker_init (initial_stock : Z)
  (analyzer : DryIceAnalyzer) : InventoryTracker :=
  {| current_stock := initial_stock;
     dry_ice_analyzer := analyzer;
     alerts_enabled := true;
     stock_history := [] |}.

Definition set_current_stock (self : InventoryTracker) (s : Z)
  : InventoryTracker :=
  {| current_stock := s;
     dry_ice_analyzer := dry_ice_analyzer self;
     alerts_enabled := alerts_enabled self;
     stock_history := stock_history self |}.

(** [str] of a Python [int]. *)
Definition str_int (z : Z) : string := NilZero.string_of_int (Z.to_int z).

(** [InventoryTracker._log_transaction]; [now] is the reading of the
    clock the call takes. *)
Definition _log_transaction (self : InventoryTracker) (quantity : Z)
  (transaction_type : string) (now : datetime) : InventoryTracker :=
  {| current_stock := current_stock self;
     dry_ice_analyzer := dry_ice_analyzer self;
     alerts_enabled := alerts_enabled self;
     stock_history :=
       stock_history self ++
       [ {| timestamp := now;
            quantity := quantity;
            type := transaction_type;
            balance := current_stock self |} ] |}.

Section Tracker.

Variable norm_ppf : R -> float64.

(** The property [InventoryTracker.reorder_point]. *)
Definition reorder_point (self : InventoryTracker) : result float64 :=
  eoq <- calculate_eoq (dry_ice_analyzer self) ;;
  safety_stock <- calculate_safety_stock norm_ppf (dry_ice_analyzer self) ;;
  Ok (fadd eoq safety_stock).

(** The property [InventoryTracker.safety_stock]. *)
Definition safety_stock (self : InventoryTracker) : result float64 :=
  calculate_safety_stock norm_ppf (dry_ice_analyzer self).

(** [InventoryTracker.send_alert]. *)
Definition send_alert (self : InventoryTracker) (msg : string)
  (now : datetime) : result Alert :=
  ss <- safety_stock self ;;
  Ok {| alert_timestamp := now;
        message :=
          (msg ++ " - Current stock: " ++ str_int (current_stock self)
               ++ " kg")%string;
        priority :=
          if fle (of_int (current_stock self)) ss then HIGH else MEDIUM |}.

(** [InventoryTracker.check_reorder_point]. *)
Definition check_reorder_point (self : InventoryTracker) (now : datetime)
  : result (option Alert) :=
  rp <- reorder_point self ;;
  if fle (of_int (current_stock self)) rp
  then (a <- send_alert self "REORDER REQUIRED" now ;; Ok (Some a))
  else Ok None.

(** [InventoryTracker.update_stock].  The stock and the log are changed
    before the reorder check runs, so the new state is returned whatever
    the check yields. *)
Definition update_stock (self : InventoryTracker) (quantity_used : Z)
  (transaction_type : string) (now_log now_alert : datetime)
  : InventoryTracker * result (option Alert) :=
  let self1 :=
    set_current_stock self (current_stock self - quantity_used)%Z in
  let self2 := _log_transaction self1 quantity_used transaction_type now_log in
  (self2, check_reorder_point self2 now_alert).

(** [InventoryTracker.get_stock_status].  The [print] evaluates both
    properties once before the branches evaluate them again. *)
Definition get_stock_status (self : InventoryTracker) : result StockStatus :=
  _ <- safety_stock self ;;
  _ <- reorder_point self ;;
  ss <- safety_stock self ;;
  if fle (of_int (current_stock self)) ss
  then Ok {| status := CRITICAL; color := red |}
  else
    rp <- reorder_point self ;;
    if fle (of_int (current_stock self)) rp
    then Ok {| status := LOW; color := orange |}
    else Ok {| status := NORMAL; color := green |}.

(* ================================================================== *)
(** * app/main.py: the sidebar handlers *)

(** "Record Usage":
    [inventory_tracker.update_stock(usage, "Daily Consumption")]. *)
Definition record_usage (tracker : InventoryTracker) (usage : Z)
  (now_log now_alert : datetime)
  : InventoryTracker * result (option Alert) :=
  update_stock tracker usage "Daily Consumption" now_log now_alert.

(** "Record Receipt":
    [inventory_tracker.current_stock += new_stock] and then
    [inventory_tracker._log_transaction(new_stock, "Stock Receipt")]. *)
Definition record_receipt (tracker : InventoryTracker) (new_stock : Z)
  (now : datetime) : InventoryTracker :=
  _log_transaction
    (set_current_stock tracker (current_stock tracker + new_stock)%Z)
    new_stock "Stock Receipt" now.

(** A run of [update_stock] calls, each with its arguments and the two
    clock readings it takes. *)
Record UpdateCall : Type := {
  call_quantity : Z;
  call_type : string;
  call_now_log : datetime;
  call_now_alert : datetime
}.

Definition run_updates (self : InventoryTracker) (calls : list UpdateCall)
  : InventoryTracker :=
  fold_left
    (fun t c =>
       fst (update_stock t (call_quantity c) (call_type c)
                         (call_now_log c) (call_now_alert c)))
    calls self.

End Tracker.

(* ================================================================== *)
(** * app/main.py: one run of the sidebar *)

(** What the widgets of the sidebar deliver in one run of [main()]: the
    values of the three number inputs and, for each button, whether it
    reports a press. *)
Record SidebarInputs : Type := {
  stock_input : Z;
  usage_input : Z;
  usage_pressed : bool;
  receipt_input : Z;
  receipt_pressed : bool
}.

Section SidebarRun.

Variable norm_ppf : R -> float64.

(** The sidebar code of [main()]: the stock of the tracker is
    overwritten with the value of the "Current Stock" input, the status
    is read for the display, and then each handler runs if its button
    reports a press.  The clock readings are those the handlers take; the
    calls that only draw are left out. *)
Definition sidebar_run (tracker : InventoryTracker) (inputs : SidebarInputs)
  (now_log now_alert now_receipt : datetime)
  : InventoryTracker * result (StockStatus * option Alert) :=
  let tracker := set_current_stock tracker (stock_input inputs) in
  match get_stock_status norm_ppf tracker with
  | Raise e => (tracker, Raise e)
  | Ok stock_status =>
      let '(tracker, alert) :=
        if usage_pressed inputs
        then record_usage norm_ppf tracker (usage_input inputs)
                          now_log now_alert
        else (tracker, Ok None) in
      match alert with
      | Raise e => (tracker, Raise e)
      | Ok alert =>
          let tracker :=
            if receipt_pressed inputs
            then record_receipt tracker (receipt_input inputs) now_receipt
            else tracker in
          (tracker, Ok (stock_status, alert))
      end
  end.

End SidebarRun.

(** The value [main.py] gives the sidebar progress bar:
    [min(1.0, current_stock / (eoq + safety_stock * 2))], with Python's
    [min(a, b)], which is [a] unless [b < a]. *)
Definition py_min (a b : float64) : float64 :=
  if flt b a then b else a.

Definition sidebar_progress (current_stock : Z) (eoq safety_stock : float64)
  : float64 :=
  py_min (Fin 1)
         (fdiv (of_int current_stock)
               (fadd eoq (fmul safety_stock (of_int 2)))).

(* ================================================================== *)
(** * Exceptions and dictionaries of the other modules *)

(** The exceptions the modules below can raise, next to the arithmetic
    one of the analyzer. *)
Inductive py_error : Type :=
| Arithmetic (e : exn)
| KeyError (key : string)
| TypeError
| NameError (name : string)
| OSError.

Inductive outcome (A : Type) : Type :=
| Return (a : A)
| Throw (e : py_error).

Arguments Return {A} a.
Arguments Throw {A} e.

Definition obind {A B : Type} (m : outcome A) (f : A -> outcome B)
  : outcome B :=
  match m with
  | Return a => f a
  | Throw e => Throw e
  end.

Notation "x <~ m ;; k" := (obind m (fun x => k))
  (at level 61, m at next level, right associativity).

Definition of_result {A : Type} (m : result A) : outcome A :=
  match m with
  | Ok a => Return a
  | Raise e => Throw (Arithmetic e)
  end.

(** A Python [dict] with string keys, in insertion order. *)
Definition dict (V : Type) : Type := list (string * V).

Fixpoint dict_get {V : Type} (d : dict V) (k : string) : option V :=
  match d with
  | [] => None
  | (k', v) :: d' => if String.eqb k k' then Some v else dict_get d' k
  end.

(** [k in d]. *)
Definition dict_contains {V : Type} (d : dict V) (k : string) : bool :=
  match dict_get d k with
  | Some _ => true
  | None => false
  end.

(** [d[k]]: raises [KeyError] on a missing key. *)
Definition dict_item {V : Type} (d : dict V) (k : string) : outcome V :=
  match dict_get d k with
  | Some v => Return v
  | None => Throw (KeyError k)
  end.

(** [d[k] = v]: replaces the value of a key in place, or adds the key at
    the end. *)
Fixpoint dict_set {V : Type} (d : dict V) (k : string) (v : V) : dict V :=
  match d with
  | [] => [(k, v)]
  | (k', v') :: d' =>
      if String.eqb k k' then (k', v) :: d' else (k', v') :: dict_set d' k v
  end.

(* ================================================================== *)
(** * app/core/smart_alerts.py *)

(** One entry of [alert_types]. *)
Record AlertType : Type := {
  threshold : string;
  type_priority : string
}.

(** The dictionary [send_notification] builds. *)
Record Notification : Type := {
  n_timestamp : datetime;
  n_type : string;
  n_message : string;
  n_priority : string;
  n_channels : list string;
  n_status : string
}.

(** A [SmartAlerts] object.  Its [inventory_tracker] attribute is a
    reference to the tracker [main.py] keeps changing, so the functions
    that read it take the tracker's current state as an argument. *)
Record SmartAlerts : Type := {
  alerts : list Notification;
  alert_types : dict AlertType
}.

(** [SmartAlerts.__init__]. *)
Definition SmartAlerts_init : SmartAlerts :=
  {| alerts := [];
     alert_types :=
       [ ("LOW_STOCK",
          {| threshold := "safety_stock"; type_priority := "HIGH" |});
         ("REORDER_DUE",
          {| threshold := "reorder_point"; type_priority := "MEDIUM" |});
         ("UNUSUAL_DEMAND",
          {| threshold := "2_std_dev"; type_priority := "MEDIUM" |});
         ("COST_SPIKE",
          {| threshold := "10_percent"; type_priority := "LOW" |}) ]%string |}.

(** [SmartAlerts.send_notification].  The priority is looked up while
    the dictionary is built, before the alert is appended. *)
Definition send_notification (self : SmartAlerts) (alert_type : string)
  (msg : string) (channels : option (list string)) (now : datetime)
  : SmartAlerts * outcome Notification :=
  let channels :=
    match channels with
    | None => ALERT_CHANNELS INVENTORY_PARAMETERS
    | Some c => c
    end in
  match dict_item (alert_types self) alert_type with
  | Throw e => (self, Throw e)
  | Return info =>
      let alert :=
        {| n_timestamp := now;
           n_type := alert_type;
           n_message := msg;
           n_priority := type_priority info;
           n_channels := channels;
           n_status := "PENDING" |} in
      ({| alerts := alerts self ++ [alert];
          alert_types := alert_types self |},
       Return alert)
  end.

(** [SmartAlerts.get_active_alerts]. *)
Definition get_active_alerts (self : SmartAlerts) : list Notification :=
  filter (fun alert => String.eqb (n_status alert) "PENDING") (alerts self).

Definition set_status (alert : Notification) (s : string) : Notification :=
  {| n_timestamp := n_timestamp alert;
     n_type := n_type alert;
     n_message := n_message alert;
     n_priority := n_priority alert;
     n_channels := n_channels alert;
     n_status := s |}.

(** [l[i]['status'] = s] on a list of alerts. *)
Fixpoint set_status_at (l : list Notification) (i : nat) (s : string)
  : list Notification :=
  match l, i with
  | [], _ => []
  | a :: l', O => set_status a s :: l'
  | a :: l', S i' => a :: set_status_at l' i' s
  end.

(** [SmartAlerts.mark_alert_processed]. *)
Definition mark_alert_processed (self : SmartAlerts) (alert_id : Z)
  : SmartAlerts * bool :=
  if ((0 <=? alert_id) && (alert_id <? len (alerts self)))%Z
  then ({| alerts :=
             set_status_at (alerts self) (Z.to_nat alert_id) "PROCESSED";
           alert_types := alert_types self |},
        true)
  else (self, false).

(** [abs] of a float. *)
Definition fabs (a : float64) : float64 :=
  match a with
  | Fin x => Fin (Rabs x)
  | PInf | NInf => PInf
  | NaN => NaN
  end.

Section Alerts.

Variable norm_ppf : R -> float64.

(** Python's conversion of a number to text, [str(x)] and
    [format(x, '.<digits>f')], is a built-in outside the repository. *)
Variable str_number : float64 -> string.
Variable format_fixed : nat -> float64 -> string.

(** One conditional [send_notification] of [check_conditions]: the
    alert it returns is dropped. *)
Definition notify_if (cond : bool) (self : SmartAlerts) (alert_type : string)
  (msg : string) (now : datetime) : SmartAlerts * outcome unit :=
  if cond
  then
    match send_notification self alert_type msg None now with
    | (self', Return _) => (self', Return tt)
    | (self', Throw e) => (self', Throw e)
    end
  else (self, Return tt).

(** [SmartAlerts.check_conditions] on the current state [tracker] of the
    tracker; [now_stock], [now_demand] and [now_cost] are the clock
    readings of the three possible notifications. *)
Definition check_conditions (self : SmartAlerts) (tracker : InventoryTracker)
  (current_demand avg_demand std_demand current_cost avg_cost : float64)
  (now_stock now_demand now_cost : datetime)
  : SmartAlerts * outcome (list Notification) :=
  match get_stock_status norm_ppf tracker with
  | Raise e => (self, Throw (Arithmetic e))
  | Ok stock_status =>
      let stock_step :=
        match status stock_status with
        | CRITICAL =>
            notify_if true self "LOW_STOCK"
              ("CRITICAL stock level: " ++ str_int (current_stock tracker)
                 ++ " kg")%string
              now_stock
        | LOW =>
            notify_if true self "REORDER_DUE"
              ("Low stock level: " ++ str_int (current_stock tracker)
                 ++ " kg")%string
              now_stock
        | NORMAL => (self, Return tt)
        end in
      match stock_step with
      | (self1, Throw e) => (self1, Throw e)
      | (self1, Return _) =>
          match
            notify_if
              (fgt (fabs (fsub current_demand avg_demand))
                   (fmul (of_int 2) std_demand))
              self1 "UNUSUAL_DEMAND"
              ("Unusual demand detected: " ++ str_number current_demand
                 ++ " kg vs average " ++ format_fixed 1 avg_demand
                 ++ " kg")%string
              now_demand
          with
          | (self2, Throw e) => (self2, Throw e)
          | (self2, Return _) =>
              match
                notify_if
                  (fgt current_cost (fmul avg_cost (Fin 1.1)))
                  self2 "COST_SPIKE"
                  ("Cost spike detected: KSh " ++ format_fixed 2 current_cost
                     ++ " vs average KSh " ++ format_fixed 2 avg_cost)%string
                  now_cost
              with
              | (self3, Throw e) => (self3, Throw e)
              | (self3, Return _) => (self3, Return (alerts self3))
              end
          end
      end
  end.

(** The call of [main.py]: a fixed current demand of 150, the average
    and the standard deviation of the order size, and a current cost of
    1.15 times the transport cost against the transport cost. *)
Definition dashboard_alerts (alerts_system : SmartAlerts)
  (tracker : InventoryTracker) (analyzer : DryIceAnalyzer) (kpis : KPIs)
  (now_stock now_demand now_cost : datetime)
  : SmartAlerts * outcome (list Notification) :=
  check_conditions alerts_system tracker
    (of_int 150) (avg_order_size kpis) (std_order_size kpis)
    (Fin (TRANSPORT_COST (constants analyzer) * 1.15))
    (Fin (TRANSPORT_COST (constants analyzer)))
    now_stock now_demand now_cost.

End Alerts.

(* ================================================================== *)
(** * app/core/predictive_maintenance.py *)

(** The risk score is a sum of products of Python floats; here the sum
    is taken exactly, and [Binary64.predict_container_failure] below
    takes it as Python does. *)

(** A value of the [container_data] dictionary: the identifier is text,
    the health indicators are numbers. *)
Inductive pyval : Type :=
| PyStr (s : string)
| PyNum (x : float64).

Record PredictiveMaintenance : Type := {
  container_health_indicators : list string
}.

(** [PredictiveMaintenance.__init__]. *)
Definition PredictiveMaintenance_init : PredictiveMaintenance :=
  {| container_health_indicators :=
       CONTAINER_HEALTH_INDICATORS INVENTORY_PARAMETERS |}.

(** [PredictiveMaintenance.calculate_risk_factor]; comparing text with a
    number raises [TypeError]. *)
Definition calculate_risk_factor (value : pyval) : outcome R :=
  match value with
  | PyStr _ => Throw TypeError
  | PyNum v =>
      Return (if flt v (of_int 30) then 1.0
              else if flt v (of_int 60) then 0.6
              else if flt v (of_int 80) then 0.3
              else 0.1)
  end.

(** [PredictiveMaintenance.calculate_failure_probability]:
    [min(0.95, risk_score * 1.2)]. *)
Definition calculate_failure_probability (risk_score : R) : R :=
  if Rlt_dec (risk_score * 1.2) 0.95 then risk_score * 1.2 else 0.95.

(** [PredictiveMaintenance.calculate_remaining_life]. *)
Definition calculate_remaining_life (risk_score : R) : Z :=
  if Rlt_dec 0.8 risk_score then 7
  else if Rlt_dec 0.6 risk_score then 30
  else if Rlt_dec 0.4 risk_score then 90
  else 180.

(** [PredictiveMaintenance.generate_maintenance_plan]. *)
Definition generate_maintenance_plan (risk_score : R) : list string :=
  if Rlt_dec 0.8 risk_score
  then ["Immediate inspection"; "Pressure testing"; "Seal replacement"]%string
  else if Rlt_dec 0.6 risk_score
  then ["Weekly inspection"; "Thermal imaging"; "Cleaning"]%string
  else if Rlt_dec 0.4 risk_score
  then ["Monthly inspection"; "Visual check"]%string
  else ["Routine maintenance in 6 months"]%string.

(** The dictionary [weights] of [predict_container_failure]. *)
Definition weights : dict R :=
  [ ("insulation_efficiency", 0.3); ("seal_integrity", 0.25);
    ("structural_condition", 0.3); ("usage_cycles", 0.15) ]%string.

(** The loop of [predict_container_failure] over the indicators, from
    the risk score reached so far. *)
Fixpoint accumulate_risk (container_data : dict pyval)
  (indicators : list string) (risk_score : R) : outcome R :=
  match indicators with
  | [] => Return risk_score
  | indicator :: rest =>
      value <~ dict_item container_data indicator ;;
      factor <~ calculate_risk_factor value ;;
      weight <~ dict_item weights indicator ;;
      accumulate_risk container_data rest (risk_score + factor * weight)
  end.

(** The dictionary [predict_container_failure] returns. *)
Record Prediction : Type := {
  container_id : pyval;
  risk_score : R;
  failure_probability : R;
  estimated_life_remaining : Z;
  maintenance_recommendations : list string
}.

(** [PredictiveMaintenance.predict_container_failure]. *)
Definition predict_container_failure (self : PredictiveMaintenance)
  (container_data : dict pyval) : outcome Prediction :=
  risk_score <~
    accumulate_risk container_data (container_health_indicators self) 0 ;;
  id <~ dict_item container_data "id" ;;
  Return {| container_id := id;
            risk_score := risk_score;
            failure_probability := calculate_failure_probability risk_score;
            estimated_life_remaining := calculate_remaining_life risk_score;
            maintenance_recommendations :=
              generate_maintenance_plan risk_score |}.

(* ================================================================== *)
(** * app/core/system_integrations.py *)

Section Integrations.

(** The credentials are passed through and stored, never inspected. *)
Variable Credentials : Type.

(** One entry of [active_integrations]. *)
Record Integration : Type := {
  connection : string;
  credentials : Credentials;
  integration_status : string
}.

Record SystemIntegrations : Type := {
  supported_integrations : dict (list string);
  active_integrations : dict Integration
}.

(** [SystemIntegrations.__init__]. *)
Definition SystemIntegrations_init : SystemIntegrations :=
  {| supported_integrations :=
       [ ("erp_systems", ["SAP"; "Oracle"; "Microsoft Dynamics"]);
         ("accounting_software", ["QuickBooks"; "Sage"; "Xero"]);
         ("supplier_apis", ["REST"; "GraphQL"; "SOAP"]);
         ("iot_sensors", ["temperature"; "weight"; "location"]) ]%string;
     active_integrations := [] |}.

(** [SystemIntegrations.validate_credentials]. *)
Definition validate_credentials (self : SystemIntegrations)
  (system_type : string) (creds : Credentials) : bool := true.

(** [SystemIntegrations.create_connection]. *)
Definition create_connection (self : SystemIntegrations)
  (system_type : string) (creds : Credentials) : string :=
  (system_type ++ "_connection")%string.

(** [SystemIntegrations.create_data_mapping]. *)
Definition create_data_mapping (self : SystemIntegrations)
  (system_type : string) : dict string :=
  [ ("inventory", system_type ++ "_inventory_field");
    ("orders", system_type ++ "_orders_field");
    ("customers", system_type ++ "_customers_field") ]%string.

Record SyncSchedule : Type := {
  frequency : string;
  next_sync : datetime
}.

(** [SystemIntegrations.setup_sync_schedule].  The module imports
    nothing, so the name [datetime] in
    [datetime.now() + timedelta(days=1)] is not bound when the
    dictionary is built. *)
Definition setup_sync_schedule (self : SystemIntegrations)
  (system_type : string) (freq : string) : outcome SyncSchedule :=
  Throw (NameError "datetime").

(** What [setup_api_integration] returns. *)
Inductive SetupResult : Type :=
| SetupError (status message : string)
| SetupSuccess (status connection : string) (data_mapping : dict string)
               (sync_schedule : SyncSchedule).

(** [SystemIntegrations.setup_api_integration]: the integration is
    stored before the dictionary it returns is built. *)
Definition setup_api_integration (self : SystemIntegrations)
  (system_type : string) (creds : Credentials)
  : SystemIntegrations * outcome SetupResult :=
  if negb (validate_credentials self system_type creds)
  then (self, Return (SetupError "error" "Invalid credentials"))
  else
    let connection := create_connection self system_type creds in
    let self' :=
      {| supported_integrations := supported_integrations self;
         active_integrations :=
           dict_set (active_integrations self) system_type
             {| connection := connection;
                credentials := creds;
                integration_status := "ACTIVE" |} |} in
    (self',
     let data_mapping := create_data_mapping self' system_type in
     sync_schedule <~ setup_sync_schedule self' system_type "daily" ;;
     Return (SetupSuccess "success" connection data_mapping sync_schedule)).

(** What [sync_data] returns. *)
Inductive SyncResult : Type :=
| SyncError (status message : string)
| SyncSuccess (status : string) (records_synced : Z).

(** [SystemIntegrations.sync_data]. *)
Definition sync_data (self : SystemIntegrations) (system_type : string)
  : SyncResult :=
  if negb (dict_contains (active_integrations self) system_type)
  then SyncError "error" "Integration not set up"
  else SyncSuccess "success" 42.

End Integrations.

(* ================================================================== *)
(** * app/core/advanced_reporting.py: [create_versioned_file] *)

Section VersionedFile.

(** The file system calls of the function: [os.path.exists],
    [os.path.splitext], [os.path.dirname] and
    [os.makedirs(..., exist_ok=True)], which can fail. *)
Variable path_exists : string -> bool.
Variable splitext : string -> string * string.
Variable dirname : string -> string.
Variable makedirs : string -> outcome unit.

(** The file name of a version: [f"{name}_v{version}{ext}"]. *)
Definition versioned_name (name ext : string) (version : Z) : string :=
  (name ++ "_v" ++ str_int version ++ ext)%string.

(** The [while True] loop from a version on; [fuel] bounds the number of
    rounds, and [None] means the loop is still running after them. *)
Fixpoint find_free_version (fuel : nat) (name ext : string) (version : Z)
  : option string :=
  match fuel with
  | O => None
  | S fuel' =>
      let filename := versioned_name name ext version in
      if negb (path_exists filename) then Some filename
      else find_free_version fuel' name ext (version + 1)
  end.

(** [create_versioned_file]. *)
Definition create_versioned_file (fuel : nat) (base_filename : string)
  : option (outcome string) :=
  let '(name, ext) := splitext base_filename in
  match
    (if negb (path_exists base_filename) then Some base_filename
     else find_free_version fuel name ext 1)
  with
  | None => None
  | Some filename =>
      let output_dir := dirname filename in
      Some (if String.eqb output_dir ""
            then Return filename
            else (_ <~ makedirs output_dir ;; Return filename))
  end.

End VersionedFile.

(* ================================================================== *)
(** * app/core/data_loader.py *)

From Stdlib Require Import Permutation Sorted.

(** One row of the file as [pd.read_csv] and [pd.to_datetime] deliver
    it: the day, counted from 1970-01-01, and the quantity. *)
Record CsvRow : Type := {
  csv_Date : Z;
  csv_Order_Quantity_kg : R
}.

(** The two ends of the analysis window, 2024-07-01 and 2025-06-30, as
    day numbers. *)
Definition WINDOW_START : Z := 19905.
Definition WINDOW_END : Z := 20269.

(** [np.ceil]: the least integer that is not below [x]. *)
Definition np_ceil (x : R) : R :=
  if Req_dec_T (IZR (up x) - 1) x then x else IZR (up x).

(** [Series.max()]: NaN on an empty series. *)
Definition series_max (xs : list R) : float64 :=
  match xs with
  | [] => NaN
  | x :: xs' => Fin (fold_left Rmax xs' x)
  end.

(** One row of the processed frame: the four columns the analyzer reads
    and the two it does not. *)
Record LoadedRow : Type := {
  loaded_order : Order;
  Effective_Quantity : R;
  Transport_Cost : float64
}.

(** [DataLoader.load_orders] up to the sort: the rows inside the window,
    with the derived columns. *)
Definition process_orders (csv : list CsvRow) : list LoadedRow :=
  let c := INVENTORY_PARAMETERS in
  let kept :=
    filter (fun r => ((WINDOW_START <=? csv_Date r)
                      && (csv_Date r <=? WINDOW_END))%Z) csv in
  let avg_loss := (0 + fst (SUB_LOSS_RANGE c) + snd (SUB_LOSS_RANGE c))
                  / 2 / 100 in
  let containers (r : CsvRow) :=
    np_ceil (csv_Order_Quantity_kg r / IZR (CONTAINER_SIZE c)) in
  let most := series_max (map containers kept) in
  map (fun r =>
         {| loaded_order :=
              {| Date := csv_Date r;
                 Order_Quantity_kg := csv_Order_Quantity_kg r;
                 Containers_Used := containers r;
                 Total_Cost := csv_Order_Quantity_kg r * PRICE_PER_KG c |};
            Effective_Quantity := csv_Order_Quantity_kg r * (1 - avg_loss);
            Transport_Cost :=
              fmul (Fin (containers r))
                   (fdiv (Fin (TRANSPORT_COST c)) most) |})
      kept.

(** [df.sort_values('Date')] uses an unstable sort, so the frame the
    loader stores is fixed only up to the order of the rows of one day:
    [d] is a frame [load_orders] can store for the file [csv] when its
    rows are the processed rows, in increasing order of the date. *)
Definition load_orders_stores (csv : list CsvRow) (d : DataFrame) : Prop :=
  Permutation (map loaded_order (process_orders csv)) (rows d) /\
  Sorted (fun r1 r2 => (Date r1 <= Date r2)%Z) (rows d).

(* ================================================================== *)
(** * Evaluation in binary64 *)

(** The expressions whose rounding decides a statement, over the
    kernel's binary64 numbers: every operation rounds to nearest as IEEE
    754 has it, which is what numpy and Python compute.  A decimal
    literal stands for the nearest binary64 number, as in Python. *)

From Stdlib Require Floats.

Set Warnings "-inexact-float".

Module Binary64.

Import PrimFloat.
#[local] Open Scope float_scope.

(** The cost parameters of [config/constants.py]. *)
Record InventoryParameters : Type := {
  PRICE_PER_KG : float;
  TRANSPORT_COST : float;
  HOLDING_RATE : float
}.

Definition INVENTORY_PARAMETERS : InventoryParameters := {|
  PRICE_PER_KG := 146.55;
  TRANSPORT_COST := 1741.94;
  HOLDING_RATE := 0.03
|}.

(** [DryIceAnalyzer.calculate_eoq], from the KPI [avg_monthly_demand]
    on. *)
Definition calculate_eoq (constants : InventoryParameters) (demand : float)
  : float :=
  PrimFloat.sqrt
    ((2 * demand * TRANSPORT_COST constants)
     / (HOLDING_RATE constants * PRICE_PER_KG constants)).

(** A value of the [container_data] dictionary: text, or a number (a
    Python [int] below 2^53 or a [float]). *)
Inductive pyval : Type :=
| PyStr (s : string)
| PyNum (x : float).

(** [PredictiveMaintenance.calculate_risk_factor]. *)
Definition calculate_risk_factor (value : pyval) : outcome float :=
  match value with
  | PyStr _ => Throw TypeError
  | PyNum v =>
      Return (if v <? 30 then 1.0
              else if v <? 60 then 0.6
              else if v <? 80 then 0.3
              else 0.1)
  end.

(** [PredictiveMaintenance.calculate_failure_probability]:
    [min(0.95, risk_score * 1.2)]. *)
Definition calculate_failure_probability (risk_score : float) : float :=
  if risk_score * 1.2 <? 0.95 then risk_score * 1.2 else 0.95.

(** [PredictiveMaintenance.calculate_remaining_life]. *)
Definition calculate_remaining_life (risk_score : float) : Z :=
  if 0.8 <? risk_score then 7%Z
  else if 0.6 <? risk_score then 30%Z
  else if 0.4 <? risk_score then 90%Z
  else 180%Z.

(** [PredictiveMaintenance.generate_maintenance_plan]. *)
Definition generate_maintenance_plan (risk_score : float) : list string :=
  if 0.8 <? risk_score
  then ["Immediate inspection"; "Pressure testing"; "Seal replacement"]%string
  else if 0.6 <? risk_score
  then ["Weekly inspection"; "Thermal imaging"; "Cleaning"]%string
  else if 0.4 <? risk_score
  then ["Monthly inspection"; "Visual check"]%string
  else ["Routine maintenance in 6 months"]%string.

(** The dictionary [weights] of [predict_container_failure]. *)
Definition weights : dict float :=
  [ ("insulation_efficiency"%string, 0.3); ("seal_integrity"%string, 0.25);
    ("structural_condition"%string, 0.3); ("usage_cycles"%string, 0.15) ].

(** The loop of [predict_container_failure] over the indicators, from
    the risk score reached so far. *)
Fixpoint accumulate_risk (container_data : dict pyval)
  (indicators : list string) (risk_score : float) : outcome float :=
  match indicators with
  | [] => Return risk_score
  | indicator :: rest =>
      value <~ dict_item container_data indicator ;;
      factor <~ calculate_risk_factor value ;;
      weight <~ dict_item weights indicator ;;
      accumulate_risk container_data rest (risk_score + factor * weight)
  end.

(** The dictionary [predict_container_failure] returns. *)
Record Prediction : Type := {
  container_id : pyval;
  risk_score : float;
  failure_probability : float;
  estimated_life_remaining : Z;
  maintenance_recommendations : list string
}.

(** [PredictiveMaintenance.predict_container_failure]; the sum starts
    from the [int] 0, and [0 + x] is [x]. *)
Definition predict_container_failure (self : PredictiveMaintenance)
  (container_data : dict pyval) : outcome Prediction :=
  risk_score <~
    accumulate_risk container_data (container_health_indicators self) 0 ;;
  id <~ dict_item container_data "id" ;;
  Return {| container_id := id;
            risk_score := risk_score;
            failure_probability := calculate_failure_probability risk_score;
            estimated_life_remaining := calculate_remaining_life risk_score;
            maintenance_recommendations :=
              generate_maintenance_plan risk_score |}.

(** The risk factor of a numeric indicator. *)
Definition risk_factor_of (v : float) : float :=
  if v <? 30 then 1.0
  else if v <? 60 then 0.6
  else if v <? 80 then 0.3
  else 0.1.

(** ** Sample values *)

(** The cost parameters with the transport cost and the holding rate
    both multiplied by 9. *)
Definition nine_fold_parameters : InventoryParameters := {|
  PRICE_PER_KG := 146.55;
  TRANSPORT_COST := 9 * 1741.94;
  HOLDING_RATE := 9 * 0.03
|}.

(** The container of the dashboard's maintenance tab, and one in better
    condition. *)
Definition mock_container : dict pyval :=
  [ ("id", PyStr "CTN-001");
    ("insulation_efficiency", PyNum 75);
    ("seal_integrity", PyNum 65);
    ("structural_condition", PyNum 85);
    ("usage_cycles", PyNum 42) ]%string.

Definition sound_container : dict pyval :=
  [ ("id", PyStr "CTN-002");
    ("insulation_efficiency", PyNum 90);
    ("seal_integrity", PyNum 85);
    ("structural_condition", PyNum 85);
    ("usage_cycles", PyNum 80) ]%string.

End Binary64.

(* ================================================================== *)
(** * Definitions the statements use *)

(** The order frequency [calculate_kpis] reports. *)
Definition order_frequency_of (d : DataFrame) : float64 :=
  if (0 <? time_span_days d)%Z
  then Fin (IZR (len (rows d)) / IZR (time_span_days d) * 30)
  else of_int 30.

(** The monthly cost of ordering [volume] in lots of [size]: the
    expression [calculate_cost_savings] evaluates twice, at the average
    order size and at the EOQ. *)
Definition order_cost (volume size transport_cost holding : float64)
  : float64 :=
  fadd (fmul (fdiv volume size) transport_cost)
       (fdiv (fmul holding size) (of_int 2)).

(** The EOQ of the configured parameters at a monthly demand of 4500 kg,
    as a real number. *)
Definition eoq_4500 : R :=
  sqrt (2 * 4500 * 1741.94 / (0.03 * 146.55)).

(** A value agrees with a figure quoted to one decimal place when it
    rounds to that figure. *)
Definition rounds_to_1dp (x figure : R) : Prop :=
  figure - 0.05 <= x < figure + 0.05.

(** The classification by two fixed thresholds, in the words of the
    specification: CRITICAL at or below the safety stock, otherwise LOW
    at or below the reorder point, otherwise NORMAL. *)
Definition status_by_thresholds (stock : Z) (ss rp : float64) : Status :=
  if fle (of_int stock) ss then CRITICAL
  else if fle (of_int stock) rp then LOW
  else NORMAL.

Definition color_of (s : Status) : Color :=
  match s with
  | CRITICAL => red
  | LOW => orange
  | NORMAL => green
  end.

(** The order of the three states, from the emptiest stock up. *)
Definition severity_rank (s : Status) : nat :=
  match s with
  | CRITICAL => 0
  | LOW => 1
  | NORMAL => 2
  end.

(** The entries a run of [update_stock] calls writes, from the stock it
    starts at. *)
Fixpoint logged_entries (stock : Z) (calls : list UpdateCall)
  : list Transaction :=
  match calls with
  | [] => []
  | c :: cs =>
      {| timestamp := call_now_log c;
         quantity := call_quantity c;
         type := call_type c;
         balance := (stock - call_quantity c)%Z |}
      :: logged_entries (stock - call_quantity c)%Z cs
  end.

(** ** Sample frames *)

(** A frame of one order of 150 kg, and the analyzer [main.py] builds on
    it: the average order is 150 kg and the monthly demand 4500 kg. *)
Definition one_order : Order :=
  {| Date := 0; Order_Quantity_kg := 150; Containers_Used := 1;
     Total_Cost := 21982.5 |}.

Definition single_row_frame : DataFrame :=
  {| first_row := one_order; more_rows := [] |}.

Definition single_row_analyzer : DryIceAnalyzer :=
  DryIceAnalyzer_init {| df := single_row_frame |}.

(** A frame of one order of 0 kg: its average order size is 0. *)
Definition zero_order_analyzer : DryIceAnalyzer :=
  DryIceAnalyzer_init
    {| df := {| first_row :=
                  {| Date := 0; Order_Quantity_kg := 0;
                     Containers_Used := 0; Total_Cost := 0 |};
                more_rows := [] |} |}.

(** A frame of two orders on consecutive days: it spans one day. *)
Definition two_day_frame : DataFrame :=
  {| first_row :=
       {| Date := 0; Order_Quantity_kg := 100; Containers_Used := 1;
          Total_Cost := 14655 |};
     more_rows :=
       [ {| Date := 1; Order_Quantity_kg := 200; Containers_Used := 2;
            Total_Cost := 29310 |} ] |}.

Definition two_day_analyzer : DryIceAnalyzer :=
  DryIceAnalyzer_init {| df := two_day_frame |}.

(** The one-order analyzer with the transport cost and the holding rate
    both doubled. *)
Definition doubled_cost_analyzer : DryIceAnalyzer :=
  {| data_loader := data_loader single_row_analyzer;
     constants :=
       {| PRICE_PER_KG := 146.55;
          CONTAINER_SIZE := 150;
          TRANSPORT_COST := 2 * 1741.94;
          HOLDING_RATE := 2 * 0.03;
          SUB_LOSS_RANGE := (2.27, 4.54);
          LEAD_TIME_DAYS := 1;
          SERVICE_LEVEL := 0.95;
          ALERT_CHANNELS := ALERT_CHANNELS INVENTORY_PARAMETERS;
          CONTAINER_HEALTH_INDICATORS :=
            CONTAINER_HEALTH_INDICATORS INVENTORY_PARAMETERS |} |}.

(** A stand-in for [norm.ppf] to run the examples on: the 95 % quantile
    of the standard normal distribution to three decimals, at every
    argument. *)
Definition norm_ppf_table (p : R) : float64 := Fin 1.645.

(** The tracker [main.py] starts with, on the one-order analyzer. *)
Definition single_row_tracker : InventoryTracker :=
  InventoryTracker_init 2000 single_row_analyzer.

(** The same tracker on the frame of one order of 0 kg. *)
Definition zero_order_tracker : InventoryTracker :=
  InventoryTracker_init 2000 zero_order_analyzer.

(* ================================================================== *)
(** * Definitions the further statements use *)

(** The entries one run of the sidebar writes to the log. *)
Definition sidebar_entries (inputs : SidebarInputs)
  (now_log now_receipt : datetime) : list Transaction :=
  (if usage_pressed inputs
   then [ {| timestamp := now_log;
             quantity := usage_input inputs;
             type := "Daily Consumption";
             balance := (stock_input inputs - usage_input inputs)%Z |} ]
   else [])
  ++
  (if receipt_pressed inputs
   then [ {| timestamp := now_receipt;
             quantity := receipt_input inputs;
             type := "Stock Receipt";
             balance :=
               (stock_input inputs
                - (if usage_pressed inputs then usage_input inputs else 0)
                + receipt_input inputs)%Z |} ]
   else []).

(** Two states of one alert: the same alert, or the alert marked
    PROCESSED. *)
Definition same_or_processed (a a' : Notification) : Prop :=
  a' = a \/ a' = set_status a "PROCESSED".

(** Every alert of [l] is still at its index in [l'], the same or marked
    PROCESSED. *)
Definition keeps_alerts (l l' : list Notification) : Prop :=
  forall (j : nat) (a : Notification),
    nth_error l j = Some a ->
    exists a', nth_error l' j = Some a' /\ same_or_processed a a'.

(** The calls a client can make on a [SmartAlerts] object. *)
Inductive AlertsCall : Type :=
| CallSend (alert_type msg : string) (channels : option (list string))
           (now : datetime)
| CallMark (alert_id : Z)
| CallCheck (tracker : InventoryTracker)
            (current_demand avg_demand std_demand current_cost avg_cost
               : float64)
            (now_stock now_demand now_cost : datetime).

(** The alert [send_notification] builds for one of the four known
    types, with the default channels. *)
Definition pending_alert (now : datetime) (alert_type msg prio : string)
  : Notification :=
  {| n_timestamp := now;
     n_type := alert_type;
     n_message := msg;
     n_priority := prio;
     n_channels := ["email"; "sms"; "dashboard"]%string;
     n_status := "PENDING" |}.

(** The alerts one [check_conditions] call adds, rule by rule. *)
Definition stock_rule_alerts (tracker : InventoryTracker) (ss rp : float64)
  (now : datetime) : list Notification :=
  match status_by_thresholds (current_stock tracker) ss rp with
  | CRITICAL =>
      [pending_alert now "LOW_STOCK"
         ("CRITICAL stock level: " ++ str_int (current_stock tracker)
            ++ " kg")%string
         "HIGH"]
  | LOW =>
      [pending_alert now "REORDER_DUE"
         ("Low stock level: " ++ str_int (current_stock tracker)
            ++ " kg")%string
         "MEDIUM"]
  | NORMAL => []
  end.

Section AlertRules.

Variable norm_ppf : R -> float64.
Variable str_number : float64 -> string.
Variable format_fixed : nat -> float64 -> string.

Definition demand_rule_alerts (current_demand avg_demand std_demand : float64)
  (now : datetime) : list Notification :=
  if fgt (fabs (fsub current_demand avg_demand)) (fmul (of_int 2) std_demand)
  then [pending_alert now "UNUSUAL_DEMAND"
          ("Unusual demand detected: " ++ str_number current_demand
             ++ " kg vs average " ++ format_fixed 1 avg_demand
             ++ " kg")%string
          "MEDIUM"]
  else [].

Definition cost_rule_alerts (current_cost avg_cost : float64)
  (now : datetime) : list Notification :=
  if fgt current_cost (fmul avg_cost (Fin 1.1))
  then [pending_alert now "COST_SPIKE"
          ("Cost spike detected: KSh " ++ format_fixed 2 current_cost
             ++ " vs average KSh " ++ format_fixed 2 avg_cost)%string
          "LOW"]
  else [].

(** One call on the alert system; what it returns is dropped. *)
Definition alerts_call (self : SmartAlerts) (c : AlertsCall) : SmartAlerts :=
  match c with
  | CallSend alert_type msg channels now =>
      fst (send_notification self alert_type msg channels now)
  | CallMark alert_id => fst (mark_alert_processed self alert_id)
  | CallCheck tracker cd ad sd cc ac n1 n2 n3 =>
      fst (check_conditions norm_ppf str_number format_fixed self tracker
             cd ad sd cc ac n1 n2 n3)
  end.

End AlertRules.

(** [s'] has the alert types of [s] and its alerts followed by at most
    [n] new ones, all PENDING. *)
Definition appends_pending (n : nat) (s s' : SmartAlerts) : Prop :=
  alert_types s' = alert_types s /\
  exists new,
    alerts s' = alerts s ++ new /\
    (List.length new <= n)%nat /\
    Forall (fun a => n_status a = "PENDING"%string) new.

(** The risk factor of a numeric indicator. *)
Definition risk_factor_of (v : float64) : R :=
  if flt v (of_int 30) then 1.0
  else if flt v (of_int 60) then 0.6
  else if flt v (of_int 80) then 0.3
  else 0.1.

Section IntegrationRuns.

Variable Credentials : Type.

(** The integrations a run of [setup_api_integration] calls leaves. *)
Definition setup_all (self : SystemIntegrations Credentials)
  (calls : list (string * Credentials)) : SystemIntegrations Credentials :=
  fold_left
    (fun s c => fst (setup_api_integration Credentials s (fst c) (snd c)))
    calls self.

End IntegrationRuns.

(** ** Further sample values *)

(** Stand-ins for Python's [str] and fixed-point formatting of a number,
    to run the examples on. *)
Definition str_number_sample (x : float64) : string := "150".

Definition format_fixed_sample (digits : nat) (x : float64) : string :=
  "0.00".

(** The inputs of a sidebar run that records a usage of 1950 kg on a
    stock input of 2000 kg. *)
Definition large_usage_inputs : SidebarInputs :=
  {| stock_input := 2000; usage_input := 1950; usage_pressed := true;
     receipt_input := 0; receipt_pressed := false |}.

(** An alert system that has sent one alert. *)
Definition one_alert_system : SmartAlerts :=
  fst (send_notification SmartAlerts_init "LOW_STOCK"
         "CRITICAL stock level: 100 kg" None 1%Z).

(** The container of the dashboard's maintenance tab, one in better
    condition, and one whose seal was not measured. *)
Definition mock_container : dict pyval :=
  [ ("id", PyStr "CTN-001");
    ("insulation_efficiency", PyNum (of_int 75));
    ("seal_integrity", PyNum (of_int 65));
    ("structural_condition", PyNum (of_int 85));
    ("usage_cycles", PyNum (of_int 42)) ]%string.

Definition sound_container : dict pyval :=
  [ ("id", PyStr "CTN-002");
    ("insulation_efficiency", PyNum (of_int 90));
    ("seal_integrity", PyNum (of_int 85));
    ("structural_condition", PyNum (of_int 85));
    ("usage_cycles", PyNum (of_int 80)) ]%string.

Definition unsealed_container : dict pyval :=
  [ ("id", PyStr "CTN-003");
    ("insulation_efficiency", PyNum (of_int 75)) ]%string.

(** A directory in which the report and its first version exist. *)
Definition report_exists (path : string) : bool :=
  String.eqb path "reports/kpi.xlsx" || String.eqb path "reports/kpi_v1.xlsx".

Definition report_splitext (path : string) : string * string :=
  ("reports/kpi", ".xlsx")%string.

Definition report_dirname (path : string) : string := "reports".

Definition report_makedirs (path : string) : outcome unit := Return tt.

(** An order file with one row before the window and two rows inside
    it, and the frame the loader stores for it. *)
Definition sample_csv : list CsvRow :=
  [ {| csv_Date := 19800; csv_Order_Quantity_kg := 450 |};
    {| csv_Date := 19905; csv_Order_Quantity_kg := 150 |};
    {| csv_Date := 20000; csv_Order_Quantity_kg := 200 |} ].

Definition sample_loaded_frame : DataFrame :=
  {| first_row :=
       {| Date := 19905; Order_Quantity_kg := 150;
          Containers_Used := np_ceil (150 / 150);
          Total_Cost := 150 * 146.55 |};
     more_rows :=
       [ {| Date := 20000; Order_Quantity_kg := 200;
            Containers_Used := np_ceil (200 / 150);
            Total_Cost := 200 * 146.55 |} ] |}.

(* ================================================================== *)
(** * Facts about the float64 operations *)

Lemma Rsgn_pos (x : R) : 0 < x -> Rsgn x = Gt.
Proof.
  intros H. unfold Rsgn.
  destruct (total_order_T x 0) as [[Hlt | Heq] | Hgt]; [lra | lra | reflexivity].
Qed.

Lemma Rsgn_neg (x : R) : x < 0 -> Rsgn x = Lt.
Proof.
  intros H. unfold Rsgn.
  destruct (total_order_T x 0) as [[Hlt | Heq] | Hgt]; [reflexivity | lra | lra].
Qed.


Lemma Rsgn_scale (k x : R) : 0 < k -> Rsgn (k * x) = Rsgn x.
Proof.
  intros Hk.
  destruct (total_order_T x 0) as [[Hlt | Heq] | Hgt].
  - rewrite (Rsgn_neg x Hlt). apply Rsgn_neg. nra.
  - subst x. rewrite Rmult_0_r. reflexivity.
  - rewrite (Rsgn_pos x Hgt). apply Rsgn_pos. nra.
Qed.

Lemma fle_Fin (x y : R) : fle (Fin x) (Fin y) = true <-> x <= y.
Proof.
  simpl. destruct (Rle_dec x y); split; intros; try assumption;
    try reflexivity; try discriminate; contradiction.
Qed.

Lemma flt_Fin (x y : R) : flt (Fin x) (Fin y) = true <-> x < y.
Proof.
  simpl. destruct (Rlt_dec x y); split; intros; try assumption;
    try reflexivity; try discriminate; contradiction.
Qed.

Lemma fle_Fin_false (x y : R) : fle (Fin x) (Fin y) = false <-> y < x.
Proof.
  simpl. destruct (Rle_dec x y); split; intros; try reflexivity;
    try discriminate; lra.
Qed.

Lemma flt_Fin_false (x y : R) : flt (Fin x) (Fin y) = false <-> y <= x.
Proof.
  simpl. destruct (Rlt_dec x y); split; intros; try reflexivity;
    try discriminate; lra.
Qed.

(** Settles the comparisons of two finite values in the goal, each by
    linear arithmetic over the hypotheses. *)
Ltac settle_comparisons :=
  repeat match goal with
  | |- context [fle (Fin ?a) (Fin ?b)] =>
      first
        [ replace (fle (Fin a) (Fin b)) with true
            by (symmetry; apply fle_Fin; lra)
        | replace (fle (Fin a) (Fin b)) with false
            by (symmetry; apply fle_Fin_false; lra) ]
  | |- context [flt (Fin ?a) (Fin ?b)] =>
      first
        [ replace (flt (Fin a) (Fin b)) with true
            by (symmetry; apply flt_Fin; lra)
        | replace (flt (Fin a) (Fin b)) with false
            by (symmetry; apply flt_Fin_false; lra) ]
  end.

Lemma fdiv_Fin (x y : R) : y <> 0 -> fdiv (Fin x) (Fin y) = Fin (x / y).
Proof.
  intros H. simpl. destruct (Req_dec_T y 0); [contradiction | reflexivity].
Qed.

Lemma fdiv_Fin_zero (x : R) : fdiv (Fin x) (Fin 0) = signed_inf (Rsgn x).
Proof.
  simpl. destruct (Req_dec_T 0 0) as [_ | H]; [reflexivity | now elim H].
Qed.

Lemma fsqrt_Fin (x : R) : 0 <= x -> fsqrt (Fin x) = Fin (sqrt x).
Proof.
  intros H. simpl. destruct (Rlt_dec x 0); [lra | reflexivity].
Qed.

(** [max(0, x)] is never negative and never NaN. *)
Lemma py_max_zero_nonneg (x : float64) :
  fle (of_int 0) (py_max (of_int 0) x) = true.
Proof.
  unfold py_max, fgt, of_int.
  destruct (flt (Fin 0) x) eqn:E.
  - destruct x as [r | | |]; simpl in *; try discriminate; try reflexivity.
    destruct (Rlt_dec 0 r); [| discriminate].
    destruct (Rle_dec 0 r); [reflexivity | lra].
  - apply fle_Fin. lra.
Qed.

(* ================================================================== *)
(** * Facts about the data frame *)


Lemma series_mean_column (f : Order -> R) (d : DataFrame) :
  series_mean (column f d) = Fin (Rmean (column f d)).
Proof. reflexivity. Qed.

Lemma date_min_le_max (d : DataFrame) : (date_min d <= date_max d)%Z.
Proof.
  unfold date_min, date_max.
  assert (H : forall l z,
             (fold_right Z.min z l <= z <= fold_right Z.max z l)%Z).
  { induction l as [| a l IH]; intros z; simpl; [lia |].
    specialize (IH z). lia. }
  specialize (H (map Date (more_rows d)) (Date (first_row d))). lia.
Qed.

Lemma time_span_days_nonneg (d : DataFrame) : (0 <= time_span_days d)%Z.
Proof. unfold time_span_days. pose proof (date_min_le_max d). lia. Qed.

(** A frame with a single row spans zero days. *)
Lemma time_span_days_single (r : Order) :
  time_span_days {| first_row := r; more_rows := [] |} = 0%Z.
Proof. unfold time_span_days, date_max, date_min. simpl. lia. Qed.

(* ================================================================== *)
(** * The KPI computation *)

(** [calculate_kpis] raises nothing: the guard keeps the zero divisor
    away from the division of the two Python [int]s. *)
Lemma calculate_kpis_returns (self : DryIceAnalyzer) :
  exists k, calculate_kpis self = Ok k /\
    total_volume k =
      Fin (Rsum (column Order_Quantity_kg (df (data_loader self)))) /\
    avg_order_size k =
      Fin (Rmean (column Order_Quantity_kg (df (data_loader self)))) /\
    std_order_size k =
      series_std (column Order_Quantity_kg (df (data_loader self))) /\
    avg_monthly_demand k =
      Fin (Rmean (column Order_Quantity_kg (df (data_loader self))) * 30) /\
    current_monthly_volume k =
      (if (0 <? time_span_days (df (data_loader self)))%Z
       then Fin (Rsum (column Order_Quantity_kg (df (data_loader self)))
                 / IZR (time_span_days (df (data_loader self))) * 30)
       else avg_monthly_demand k) /\
    order_frequency k = order_frequency_of (df (data_loader self)).
Proof.
  unfold calculate_kpis, order_frequency_of.
  set (d := df (data_loader self)).
  destruct (0 <? time_span_days d)%Z eqn:Hspan.
  - apply Z.ltb_lt in Hspan.
    unfold py_truediv.
    destruct (time_span_days d =? 0)%Z eqn:Hz;
      [apply Z.eqb_eq in Hz; lia |].
    cbn [bind]. eexists. split; [reflexivity |].
    cbn [total_volume avg_order_size std_order_size avg_monthly_demand
         current_monthly_volume order_frequency].
    repeat split.
    unfold series_sum, of_int. rewrite fdiv_Fin.
    + reflexivity.
    + apply not_0_IZR. lia.
  - cbn [bind]. eexists. split; [reflexivity |].
    cbn [total_volume avg_order_size std_order_size avg_monthly_demand
         current_monthly_volume order_frequency].
    repeat split.
Qed.

(** C7.  The KPI computation returns on every frame, with
    [total_volume] the sum of the quantities and [avg_monthly_demand] 30
    times their mean.  When the dates span zero days or fewer (a single
    order row, say), [current_monthly_volume] is [avg_monthly_demand],
    that is 30 times the mean order, and [order_frequency] is 30; when
    they span a positive number of days, [current_monthly_volume] is
    [total_volume / time_span_days * 30] and [order_frequency] is
    [count / time_span_days * 30]. *)
Theorem kpis_time_span_guard (self : DryIceAnalyzer) :
  exists k, calculate_kpis self = Ok k /\
    total_orders k = len (rows (df (data_loader self))) /\
    total_volume k =
      Fin (Rsum (column Order_Quantity_kg (df (data_loader self)))) /\
    avg_monthly_demand k =
      Fin (Rmean (column Order_Quantity_kg (df (data_loader self))) * 30) /\
    ((time_span_days (df (data_loader self)) <= 0)%Z ->
       current_monthly_volume k = avg_monthly_demand k /\
       current_monthly_volume k =
         Fin (Rmean (column Order_Quantity_kg (df (data_loader self))) * 30) /\
       order_frequency k = of_int 30) /\
    ((0 < time_span_days (df (data_loader self)))%Z ->
       current_monthly_volume k =
         Fin (Rsum (column Order_Quantity_kg (df (data_loader self)))
              / IZR (time_span_days (df (data_loader self))) * 30) /\
       order_frequency k =
         Fin (IZR (len (rows (df (data_loader self))))
              / IZR (time_span_days (df (data_loader self))) * 30)).
Proof.
  destruct (calculate_kpis_returns self)
    as (k & Hk & Htv & _ & _ & Hamd & Hcmv & Hof).
  exists k. split; [exact Hk |]. unfold order_frequency_of in Hof.
  split.
  { unfold calculate_kpis in Hk.
    destruct (0 <? time_span_days (df (data_loader self)))%Z.
    - destruct (py_truediv _ _) as [x | e]; cbn [bind] in Hk;
        [injection Hk as <-; reflexivity | discriminate].
    - cbn [bind] in Hk. injection Hk as <-. reflexivity. }
  split; [exact Htv |]. split; [exact Hamd |].
  split; intros Hspan.
  - apply Z.ltb_ge in Hspan. rewrite Hspan in Hcmv, Hof.
    split; [exact Hcmv |]. split; [rewrite Hcmv; exact Hamd | exact Hof].
  - apply Z.ltb_lt in Hspan. rewrite Hspan in Hcmv, Hof. now split.
Qed.

Lemma Rmean_single_row :
  Rmean (column Order_Quantity_kg single_row_frame) = 150.
Proof. unfold Rmean, len. simpl. lra. Qed.

Lemma two_day_frame_figures :
  time_span_days two_day_frame = 1%Z /\
  len (rows two_day_frame) = 2%Z /\
  Rsum (column Order_Quantity_kg two_day_frame) = 300.
Proof.
  split; [vm_compute; reflexivity |]. split; [vm_compute; reflexivity |].
  unfold Rsum, column. simpl. lra.
Qed.

(** The fallback on the one-order frame, whose order is 150 kg: a
    monthly demand and a monthly volume of 4500 kg and a frequency of
    30.  The quotients on the two-day frame, with 300 kg in 2 orders over
    1 day: a volume of 9000 kg and a frequency of 60. *)
Lemma kpis_time_span_guard_witness :
  ((time_span_days (df (data_loader single_row_analyzer)) <= 0)%Z /\
   exists k, calculate_kpis single_row_analyzer = Ok k /\
     avg_monthly_demand k = Fin 4500 /\
     current_monthly_volume k = Fin 4500 /\
     order_frequency k = of_int 30) /\
  ((0 < time_span_days (df (data_loader two_day_analyzer)))%Z /\
   exists k, calculate_kpis two_day_analyzer = Ok k /\
     total_volume k = Fin 300 /\
     current_monthly_volume k = Fin 9000 /\
     order_frequency k = Fin 60).
Proof.
  assert (H1 : (time_span_days (df (data_loader single_row_analyzer)) <= 0)%Z)
    by (vm_compute; discriminate).
  assert (H2 : (0 < time_span_days (df (data_loader two_day_analyzer)))%Z)
    by (vm_compute; reflexivity).
  split; (split; [assumption |]).
  - destruct (kpis_time_span_guard single_row_analyzer)
      as (k & Hk & _ & _ & Hamd & Hz & _).
    destruct (Hz H1) as (_ & Hcmv & Hof).
    change (df (data_loader single_row_analyzer)) with single_row_frame
      in Hamd, Hcmv.
    rewrite Rmean_single_row in Hamd, Hcmv.
    replace (150 * 30) with 4500 in Hamd, Hcmv by lra.
    exists k. split; [exact Hk |]. split; [exact Hamd |].
    split; [exact Hcmv | exact Hof].
  - destruct (kpis_time_span_guard two_day_analyzer)
      as (k & Hk & _ & Htv & _ & _ & Hp).
    destruct (Hp H2) as (Hcmv & Hof).
    change (df (data_loader two_day_analyzer)) with two_day_frame
      in Htv, Hcmv, Hof.
    destruct two_day_frame_figures as (Hspan & Hlen & Hsum).
    rewrite Hsum in Htv, Hcmv. rewrite Hspan in Hcmv, Hof.
    rewrite Hlen in Hof.
    replace (300 / 1 * 30) with 9000 in Hcmv by lra.
    replace (2 / 1 * 30) with 60 in Hof by lra.
    exists k. split; [exact Hk |]. split; [exact Htv |].
    split; [exact Hcmv | exact Hof].
Defined.

(** On the two-day frame the monthly volume is 300 / 1 * 30 = 9000 kg
    and the order frequency 2 / 1 * 30 = 60. *)
Example kpis_two_day :
  exists k, calculate_kpis two_day_analyzer = Ok k /\
    current_monthly_volume k = Fin 9000 /\
    order_frequency k = Fin 60.
Proof.
  destruct (calculate_kpis_returns two_day_analyzer)
    as (k & Hk & _ & _ & _ & _ & Hcmv & Hof).
  exists k. split; [exact Hk |].
  unfold order_frequency_of in Hof.
  replace (0 <? time_span_days (df (data_loader two_day_analyzer)))%Z
    with true in Hcmv, Hof by (vm_compute; reflexivity).
  replace (time_span_days (df (data_loader two_day_analyzer)))
    with 1%Z in Hcmv, Hof by (vm_compute; reflexivity).
  rewrite Hcmv, Hof. split; f_equal.
  - unfold Rsum, column. simpl. lra.
  - unfold len. simpl. lra.
Qed.

(** On the one-order frame both fallbacks are taken. *)
Example kpis_single_row :
  exists k, calculate_kpis single_row_analyzer = Ok k /\
    avg_order_size k = Fin 150 /\
    avg_monthly_demand k = Fin 4500 /\
    current_monthly_volume k = Fin 4500 /\
    order_frequency k = of_int 30.
Proof.
  destruct (calculate_kpis_returns single_row_analyzer)
    as (k & Hk & _ & Havg & _ & Hamd & Hcmv & Hof).
  exists k. split; [exact Hk |].
  unfold single_row_analyzer, DryIceAnalyzer_init in Havg, Hamd, Hcmv, Hof.
  cbn [df data_loader] in Havg, Hamd, Hcmv, Hof.
  unfold order_frequency_of in Hof.
  rewrite Rmean_single_row in Havg, Hamd.
  replace (150 * 30) with 4500 in Hamd by lra.
  unfold single_row_frame in Hcmv, Hof.
  rewrite time_span_days_single in Hcmv, Hof.
  cbn [Z.ltb Z.compare] in Hcmv, Hof. rewrite Hcmv. auto.
Qed.

(** C8 (what the code does).  On a frame with fewer than two order
    rows the KPI computation raises no error, and [std_order_size] is
    NaN, the value pandas' sample standard deviation has there, where
    the specification asks for 0: [calculate_kpis] stores the value
    without the guard [calculate_safety_stock] has for its own standard
    deviation. *)
Theorem std_order_size_short_frame (self : DryIceAnalyzer) :
  (len (rows (df (data_loader self))) < 2)%Z ->
  exists k, calculate_kpis self = Ok k /\ std_order_size k = NaN.
Proof.
  intros Hlen.
  destruct (calculate_kpis_returns self) as (k & Hk & _ & _ & Hstd & _).
  exists k. split; [exact Hk |].
  rewrite Hstd. unfold series_std, column.
  replace (len (map Order_Quantity_kg (rows (df (data_loader self)))))
    with (len (rows (df (data_loader self))))
    by (unfold len; now rewrite length_map).
  apply Z.ltb_lt in Hlen. now rewrite Hlen.
Qed.

Lemma std_order_size_short_frame_witness :
  (len (rows (df (data_loader single_row_analyzer))) < 2)%Z /\
  exists k, calculate_kpis single_row_analyzer = Ok k /\
            std_order_size k = NaN.
Proof.
  split.
  - vm_compute. reflexivity.
  - apply (std_order_size_short_frame single_row_analyzer).
    vm_compute. reflexivity.
Defined.

(** The frame of one order of 150 kg has fewer than two rows, and its
    [std_order_size] is NaN, not 0. *)
Lemma std_order_size_single_row_not_zero :
  (len (rows (df (data_loader single_row_analyzer))) < 2)%Z /\
  exists k, calculate_kpis single_row_analyzer = Ok k /\
            std_order_size k = NaN /\
            std_order_size k <> of_int 0.
Proof.
  split; [vm_compute; reflexivity |].
  destruct (calculate_kpis_returns single_row_analyzer)
    as (k & Hk & _ & _ & Hstd & _).
  exists k. split; [exact Hk |].
  assert (Hnan : std_order_size k = NaN).
  { rewrite Hstd. unfold series_std.
    replace (len (column Order_Quantity_kg
                    (df (data_loader single_row_analyzer))) <? 2)%Z
      with true by (vm_compute; reflexivity).
    reflexivity. }
  split; [exact Hnan |]. rewrite Hnan. discriminate.
Qed.

(* ================================================================== *)
(** * The economic order quantity *)

(** [calculate_eoq] returns on every frame, with the value of the
    formula at the monthly demand of the frame. *)
Lemma calculate_eoq_returns (self : DryIceAnalyzer) :
  calculate_eoq self =
  Ok (fsqrt
        (fdiv (Fin (2 * (Rmean (column Order_Quantity_kg
                                  (df (data_loader self))) * 30)
                    * TRANSPORT_COST (constants self)))
              (Fin (HOLDING_RATE (constants self)
                    * PRICE_PER_KG (constants self))))).
Proof.
  destruct (calculate_kpis_returns self)
    as (k & Hk & _ & _ & _ & Hamd & _).
  unfold calculate_eoq. rewrite Hk. cbn [bind]. rewrite Hamd.
  reflexivity.
Qed.

(** Every real demand is the monthly demand of some frame. *)
Lemma every_demand_has_a_frame (c : InventoryParameters) (demand : R) :
  exists self k,
    constants self = c /\ calculate_kpis self = Ok k /\
    avg_monthly_demand k = Fin demand.
Proof.
  set (r := {| Date := 0; Order_Quantity_kg := demand / 30;
               Containers_Used := 1; Total_Cost := 0 |}).
  set (self := {| data_loader :=
                    {| df := {| first_row := r; more_rows := [] |} |};
                  constants := c |}).
  destruct (calculate_kpis_returns self)
    as (k & Hk & _ & _ & _ & Hamd & _).
  exists self, k. repeat split; [exact Hk |].
  rewrite Hamd. f_equal. unfold Rmean, len. simpl. field.
Qed.

(** C4 (in exact arithmetic).  Two analyzers on the same frame, the
    second with [TRANSPORT_COST] scaled by a positive [k] and with the
    holding-cost term [HOLDING_RATE * PRICE_PER_KG] scaled by the same
    [k], compute the same EOQ when the products, the quotient and the
    square root are taken exactly: the value the formula denotes does not
    depend on [k].  The binary64 results agree only up to rounding, see
    [eoq_scale_changes_last_place]. *)
Theorem eoq_scale_invariant (self scaled : DryIceAnalyzer) (k : R) :
  0 < k ->
  data_loader scaled = data_loader self ->
  TRANSPORT_COST (constants scaled) = k * TRANSPORT_COST (constants self) ->
  HOLDING_RATE (constants scaled) * PRICE_PER_KG (constants scaled) =
    k * (HOLDING_RATE (constants self) * PRICE_PER_KG (constants self)) ->
  calculate_eoq scaled = calculate_eoq self.
Proof.
  intros Hk Hdl HT HH.
  rewrite !calculate_eoq_returns. rewrite Hdl, HT, HH.
  set (m := Rmean (column Order_Quantity_kg (df (data_loader self)))).
  set (T := TRANSPORT_COST (constants self)).
  set (hp := HOLDING_RATE (constants self) * PRICE_PER_KG (constants self)).
  do 2 f_equal.
  destruct (Req_dec_T hp 0) as [Hz | Hnz].
  - rewrite Hz, Rmult_0_r, !fdiv_Fin_zero.
    replace (2 * (m * 30) * (k * T)) with (k * (2 * (m * 30) * T)) by ring.
    now rewrite Rsgn_scale.
  - rewrite !fdiv_Fin; [| exact Hnz | nra].
    f_equal. field. split; [exact Hnz | lra].
Qed.

Lemma eoq_scale_invariant_witness :
  calculate_eoq doubled_cost_analyzer = calculate_eoq single_row_analyzer.
Proof.
  apply (eoq_scale_invariant single_row_analyzer doubled_cost_analyzer 2).
  - lra.
  - reflexivity.
  - reflexivity.
  - simpl. lra.
Defined.

Section EoqBinary64.

Import PrimFloat.
#[local] Open Scope float_scope.

(** C4 as stated fails in binary64, where the scaled parameters and
    the products of the formula are rounded: at a monthly demand of 4500
    kg, with the transport cost and the holding rate both multiplied by
    9, the code returns 1888.3579106651762, and with the parameters as
    they are 1888.3579106651764. *)
Lemma eoq_scale_changes_last_place :
  Binary64.TRANSPORT_COST Binary64.nine_fold_parameters
    = 9 * Binary64.TRANSPORT_COST Binary64.INVENTORY_PARAMETERS /\
  Binary64.HOLDING_RATE Binary64.nine_fold_parameters
    = 9 * Binary64.HOLDING_RATE Binary64.INVENTORY_PARAMETERS /\
  Binary64.PRICE_PER_KG Binary64.nine_fold_parameters
    = Binary64.PRICE_PER_KG Binary64.INVENTORY_PARAMETERS /\
  Binary64.calculate_eoq Binary64.INVENTORY_PARAMETERS 4500
    = 1888.3579106651764 /\
  Binary64.calculate_eoq Binary64.nine_fold_parameters 4500
    = 1888.3579106651762 /\
  Binary64.calculate_eoq Binary64.nine_fold_parameters 4500
    <> Binary64.calculate_eoq Binary64.INVENTORY_PARAMETERS 4500.
Proof.
  repeat split; try reflexivity.
  intros H.
  apply (f_equal (fun x => x <? 1888.3579106651764)) in H.
  vm_compute in H. discriminate.
Qed.

End EoqBinary64.

Lemma eoq_4500_bounds : 1888.35 < eoq_4500 < 1888.36.
Proof.
  unfold eoq_4500. split.
  - apply Rle_lt_trans with (sqrt (1888.35 * 1888.35)).
    + rewrite sqrt_square; lra.
    + apply sqrt_lt_1_alt. lra.
  - apply Rlt_le_trans with (sqrt (1888.36 * 1888.36)).
    + apply sqrt_lt_1_alt. split; [| lra].
      apply Rlt_le, Rdiv_lt_0_compat; lra.
    + rewrite sqrt_square; lra.
Qed.

(** At a monthly demand of 4500 kg the analyzer of [main.py] returns
    that number. *)
Lemma calculate_eoq_at_4500 (dl : DataLoader) (k : KPIs) :
  calculate_kpis (DryIceAnalyzer_init dl) = Ok k ->
  avg_monthly_demand k = Fin 4500 ->
  calculate_eoq (DryIceAnalyzer_init dl) = Ok (Fin eoq_4500).
Proof.
  intros Hk Hamd.
  unfold calculate_eoq. rewrite Hk. cbn [bind]. rewrite Hamd.
  unfold DryIceAnalyzer_init, INVENTORY_PARAMETERS, of_int, eoq_4500.
  cbn [constants TRANSPORT_COST HOLDING_RATE PRICE_PER_KG fmul].
  rewrite fdiv_Fin by lra.
  rewrite fsqrt_Fin.
  - reflexivity.
  - apply Rlt_le. apply Rdiv_lt_0_compat; lra.
Qed.

(** C9 (as the code has it).  With the parameters of [constants.py] and
    a monthly demand of 4500 kg, [calculate_eoq] returns
    [sqrt (2 * 4500 * 1741.94 / (0.03 * 146.55))]; that number lies
    between 1888.35 and 1888.36, so it is 1888.4 kg to one decimal
    place. *)
Theorem eoq_at_demand_4500 (dl : DataLoader) (k : KPIs) :
  calculate_kpis (DryIceAnalyzer_init dl) = Ok k ->
  avg_monthly_demand k = Fin 4500 ->
  calculate_eoq (DryIceAnalyzer_init dl) =
    Ok (Fin (sqrt (2 * 4500 * 1741.94 / (0.03 * 146.55)))) /\
  1888.35 < sqrt (2 * 4500 * 1741.94 / (0.03 * 146.55)) < 1888.36 /\
  rounds_to_1dp (sqrt (2 * 4500 * 1741.94 / (0.03 * 146.55))) 1888.4.
Proof.
  intros Hk Hamd.
  pose proof eoq_4500_bounds as Hb. unfold eoq_4500 in Hb.
  split; [| split; [exact Hb | unfold rounds_to_1dp; lra]].
  exact (calculate_eoq_at_4500 dl k Hk Hamd).
Qed.

Lemma eoq_at_demand_4500_witness :
  exists k,
    calculate_kpis (DryIceAnalyzer_init {| df := single_row_frame |}) = Ok k /\
    avg_monthly_demand k = Fin 4500 /\
    calculate_eoq (DryIceAnalyzer_init {| df := single_row_frame |}) =
      Ok (Fin (sqrt (2 * 4500 * 1741.94 / (0.03 * 146.55)))) /\
    1888.35 < sqrt (2 * 4500 * 1741.94 / (0.03 * 146.55)) < 1888.36 /\
    rounds_to_1dp (sqrt (2 * 4500 * 1741.94 / (0.03 * 146.55))) 1888.4.
Proof.
  destruct kpis_single_row as (k & Hk & _ & Hamd & _).
  exists k. split; [exact Hk |]. split; [exact Hamd |].
  exact (eoq_at_demand_4500 {| df := single_row_frame |} k Hk Hamd).
Defined.

(** C9 as stated fails in its figure: on the one-order frame, whose
    monthly demand is 4500 kg, the EOQ is below 1888.36 kg, which does
    not round to 1891.9 kg. *)
Lemma eoq_at_demand_4500_not_1891_9 :
  exists k e,
    calculate_kpis single_row_analyzer = Ok k /\
    avg_monthly_demand k = Fin 4500 /\
    calculate_eoq single_row_analyzer = Ok (Fin e) /\
    e = sqrt (2 * 4500 * 1741.94 / (0.03 * 146.55)) /\
    e < 1888.36 /\
    3.5 < 1891.9 - e /\
    ~ rounds_to_1dp e 1891.9.
Proof.
  destruct kpis_single_row as (k & Hk & _ & Hamd & _).
  exists k, eoq_4500.
  pose proof eoq_4500_bounds as Hb.
  split; [exact Hk |]. split; [exact Hamd |].
  split; [exact (calculate_eoq_at_4500 {| df := single_row_frame |} k Hk Hamd) |].
  split; [reflexivity |].
  split; [lra |]. split; [lra |].
  unfold rounds_to_1dp. lra.
Qed.

(* ================================================================== *)
(** * The cost comparison *)

Lemma calculate_cost_savings_unfold (self : DryIceAnalyzer) (eoq : float64) :
  calculate_cost_savings self eoq =
  (k <- calculate_kpis self ;;
   let T := Fin (TRANSPORT_COST (constants self)) in
   let hp := fmul (Fin (HOLDING_RATE (constants self)))
                  (Fin (PRICE_PER_KG (constants self))) in
   let cur := order_cost (current_monthly_volume k) (avg_order_size k) T hp in
   let opt := order_cost (current_monthly_volume k) eoq T hp in
   Ok {| current_cost := cur;
         eoq_cost := opt;
         savings := py_max (of_int 0) (fsub cur opt);
         percent_savings :=
           if fgt cur (of_int 0)
           then fmul (fdiv (py_max (of_int 0) (fsub cur opt)) cur) (of_int 100)
           else of_int 0 |}).
Proof. reflexivity. Qed.

Lemma order_cost_Fin (v s T hp : R) :
  s <> 0 ->
  order_cost (Fin v) (Fin s) (Fin T) (Fin hp) = Fin (v / s * T + hp * s / 2).
Proof.
  intros Hs. unfold order_cost, of_int.
  rewrite fdiv_Fin by exact Hs. cbn [fmul].
  rewrite fdiv_Fin by lra. reflexivity.
Qed.













(** The cost comparison on the one-order frame: the current cost is
    52587.9375 whatever the EOQ argument is. *)
Lemma cost_savings_single_row (eoq : float64) :
  calculate_cost_savings single_row_analyzer eoq =
  Ok {| current_cost := Fin 52587.9375;
        eoq_cost :=
          order_cost (Fin 4500) eoq (Fin 1741.94) (Fin (0.03 * 146.55));
        savings :=
          py_max (of_int 0)
            (fsub (Fin 52587.9375)
               (order_cost (Fin 4500) eoq (Fin 1741.94)
                           (Fin (0.03 * 146.55))));
        percent_savings :=
          fmul (fdiv
                  (py_max (of_int 0)
                     (fsub (Fin 52587.9375)
                        (order_cost (Fin 4500) eoq (Fin 1741.94)
                                    (Fin (0.03 * 146.55)))))
                  (Fin 52587.9375))
               (of_int 100) |}.
Proof.
  destruct kpis_single_row as (k & Hk & Havg & _ & Hcmv & _).
  rewrite calculate_cost_savings_unfold, Hk. cbn [bind].
  rewrite Havg, Hcmv.
  unfold single_row_analyzer, DryIceAnalyzer_init, INVENTORY_PARAMETERS.
  cbn [constants TRANSPORT_COST HOLDING_RATE PRICE_PER_KG fmul].
  rewrite order_cost_Fin by lra.
  replace (4500 / 150 * 1741.94 + 0.03 * 146.55 * 150 / 2)
    with 52587.9375 by lra.
  replace (fgt (Fin 52587.9375) (of_int 0)) with true
    by (symmetry; apply flt_Fin; lra).
  reflexivity.
Qed.







Lemma fgt_zero_not_negative (a : float64) :
  fgt a (of_int 0) = true -> flt a (of_int 0) = false.
Proof.
  unfold fgt, of_int. destruct a as [x | | |]; intros H;
    try discriminate; try reflexivity.
  apply flt_Fin in H. apply flt_Fin_false. lra.
Qed.


(** Whatever the EOQ argument, the comparison returns, [savings] is
    not negative, and without a positive current cost [percent_savings]
    is 0. *)
Lemma cost_savings_always (self : DryIceAnalyzer) (eoq : float64) :
  exists r,
    calculate_cost_savings self eoq = Ok r /\
    fle (of_int 0) (savings r) = true /\
    (fgt (current_cost r) (of_int 0) = false ->
     percent_savings r = of_int 0) /\
    (current_cost r = of_int 0 -> percent_savings r = of_int 0).
Proof.
  destruct (calculate_kpis_returns self) as (k & Hk & _).
  rewrite calculate_cost_savings_unfold, Hk. cbn [bind].
  eexists. split; [reflexivity |].
  cbn [current_cost eoq_cost savings percent_savings].
  split; [apply py_max_zero_nonneg |]. split.
  - intros H. rewrite H. reflexivity.
  - intros H. rewrite H.
    replace (fgt (of_int 0) (of_int 0)) with false; [reflexivity |].
    symmetry. apply flt_Fin_false. lra.
Qed.



(** The current cost is 0 only on data that balances the two terms of
    the cost: one (negative) order of [- 60 * 1741.94 / (0.03 * 146.55)]
    kg, for one.  There [percent_savings] is 0. *)
Example cost_savings_zero_cost :
  exists r,
    calculate_cost_savings
      (DryIceAnalyzer_init
         {| df := {| first_row :=
                       {| Date := 0;
                          Order_Quantity_kg :=
                            - (60 * 1741.94) / (0.03 * 146.55);
                          Containers_Used := 0; Total_Cost := 0 |};
                     more_rows := [] |} |})
      (Fin 1888) = Ok r /\
    current_cost r = of_int 0 /\
    percent_savings r = of_int 0.
Proof.
  set (q := - (60 * 1741.94) / (0.03 * 146.55)).
  set (self := DryIceAnalyzer_init _).
  assert (Hq : q < 0).
  { unfold q. unfold Rdiv.
    assert (0 < / (0.03 * 146.55)) by (apply Rinv_0_lt_compat; lra). nra. }
  destruct (calculate_kpis_returns self)
    as (k & Hk & _ & Havg & _ & Hamd & Hcmv & _).
  assert (Hmean : Rmean (column Order_Quantity_kg (df (data_loader self)))
                  = q).
  { unfold Rmean, len. simpl. fold q. lra. }
  rewrite Hmean in Havg, Hamd.
  replace (0 <? time_span_days (df (data_loader self)))%Z with false in Hcmv
    by (symmetry; vm_compute; reflexivity).
  rewrite Hamd in Hcmv.
  destruct (cost_savings_always self (Fin 1888)) as (r & Hr & _ & _ & Hzero).
  exists r. split; [exact Hr |].
  assert (Hcur : current_cost r = of_int 0).
  { rewrite calculate_cost_savings_unfold, Hk in Hr. cbn [bind] in Hr.
    injection Hr as <-. cbn [current_cost]. rewrite Havg, Hcmv.
    unfold self, DryIceAnalyzer_init, INVENTORY_PARAMETERS.
    cbn [constants TRANSPORT_COST HOLDING_RATE PRICE_PER_KG fmul].
    rewrite order_cost_Fin by lra. unfold of_int. f_equal.
    unfold q. field. lra. }
  split; [exact Hcur | exact (Hzero Hcur)].
Qed.

(** Outside these arguments the upper bound is lost: a negative EOQ
    argument, which no caller passes, makes the EOQ cost negative, and
    on the one-order frame with an argument of -1 [percent_savings] is
    above 100. *)
Lemma cost_savings_negative_eoq_above_100 :
  exists r p,
    calculate_cost_savings single_row_analyzer (Fin (-1)) = Ok r /\
    current_cost r = Fin 52587.9375 /\
    fgt (current_cost r) (of_int 0) = true /\
    eoq_cost r = Fin (-7838732.19825) /\
    savings r = Fin 7891320.13575 /\
    percent_savings r = Fin p /\
    15000 < p /\
    flt (percent_savings r) (of_int 100) = false.
Proof.
  assert (Hopt : order_cost (Fin 4500) (Fin (-1)) (Fin 1741.94)
                            (Fin (0.03 * 146.55)) = Fin (-7838732.19825)).
  { rewrite order_cost_Fin by lra. f_equal. lra. }
  assert (Hsav : py_max (of_int 0)
                   (fsub (Fin 52587.9375) (Fin (-7838732.19825)))
                 = Fin 7891320.13575).
  { cbn [fsub fneg fadd]. unfold py_max, fgt.
    replace (flt (of_int 0) (Fin (52587.9375 + - -7838732.19825)))
      with true by (symmetry; apply flt_Fin; lra).
    f_equal. lra. }
  eexists. exists (7891320.13575 / 52587.9375 * 100).
  split; [apply cost_savings_single_row |].
  cbn [current_cost eoq_cost savings percent_savings].
  rewrite Hopt, Hsav.
  split; [reflexivity |].
  split; [apply flt_Fin; lra |].
  split; [reflexivity |].
  split; [reflexivity |].
  split; [unfold of_int; rewrite fdiv_Fin by lra; reflexivity |].
  split; [lra |].
  unfold of_int. rewrite fdiv_Fin by lra. cbn [fmul].
  apply flt_Fin_false. lra.
Qed.

(* ================================================================== *)
(** * The stock tracker *)

Lemma fle_of_int_mono (s1 s2 : Z) (x : float64) :
  (s1 <= s2)%Z -> fle (of_int s2) x = true -> fle (of_int s1) x = true.
Proof.
  intros Hle H. destruct x as [y | | |]; try exact H.
  unfold of_int in *. apply fle_Fin in H. apply fle_Fin.
  apply IZR_le in Hle. lra.
Qed.

Lemma fle_of_int_trans (s : Z) (a b : float64) :
  fle (of_int s) a = true -> fle a b = true -> fle (of_int s) b = true.
Proof.
  unfold of_int. intros H1 H2.
  destruct a as [x | | |]; destruct b as [y | | |];
    try discriminate; try reflexivity.
  apply fle_Fin in H1. apply fle_Fin in H2. apply fle_Fin. lra.
Qed.

(** With the reorder point at least 1 kg above the safety stock, some
    whole number of kg lies in the LOW band, above every CRITICAL stock
    and below every NORMAL one. *)
Lemma low_band_has_a_stock (ss rp : float64) (high low : Z) :
  fle (fadd ss (of_int 1)) rp = true ->
  status_by_thresholds high ss rp = NORMAL ->
  status_by_thresholds low ss rp = CRITICAL ->
  exists mid : Z,
    (low < mid < high)%Z /\ status_by_thresholds mid ss rp = LOW.
Proof.
  unfold status_by_thresholds, of_int. intros Hband Hn Hc.
  destruct (fle (Fin (IZR high)) ss) eqn:Hhs; [discriminate |].
  destruct (fle (Fin (IZR high)) rp) eqn:Hhr; [discriminate |].
  destruct (fle (Fin (IZR low)) ss) eqn:Hls;
    [| destruct (fle (Fin (IZR low)) rp); discriminate].
  destruct ss as [c | | |]; destruct rp as [r | | |];
    cbn [fadd fle] in Hband, Hhs, Hhr, Hls; try discriminate.
  apply fle_Fin in Hband. apply fle_Fin_false in Hhr.
  apply fle_Fin in Hls.
  destruct (archimed c) as (Hup1 & Hup2).
  exists (up c). split.
  - split; apply lt_IZR; lra.
  - replace (fle (Fin (IZR (up c))) (Fin c)) with false
      by (symmetry; apply fle_Fin_false; lra).
    replace (fle (Fin (IZR (up c))) (Fin r)) with true
      by (symmetry; apply fle_Fin; lra).
    reflexivity.
Qed.

(** With the reorder point at or below the safety stock the LOW band is
    empty. *)
Lemma low_band_empty (ss rp : float64) (s : Z) :
  fle rp ss = true -> status_by_thresholds s ss rp <> LOW.
Proof.
  unfold status_by_thresholds. intros Hband.
  destruct (fle (of_int s) ss) eqn:Hs; [discriminate |].
  destruct (fle (of_int s) rp) eqn:Hr; [| discriminate].
  rewrite (fle_of_int_trans s rp ss Hr Hband) in Hs. discriminate.
Qed.

Lemma status_by_thresholds_mono (ss rp : float64) (s1 s2 : Z) :
  (s1 <= s2)%Z ->
  (severity_rank (status_by_thresholds s1 ss rp) <=
   severity_rank (status_by_thresholds s2 ss rp))%nat.
Proof.
  intros Hle. unfold status_by_thresholds.
  destruct (fle (of_int s2) ss) eqn:E2.
  - rewrite (fle_of_int_mono s1 s2 ss Hle E2). apply le_n.
  - destruct (fle (of_int s1) ss); [simpl; lia |].
    destruct (fle (of_int s2) rp) eqn:R2.
    + rewrite (fle_of_int_mono s1 s2 rp Hle R2). apply le_n.
    + destruct (fle (of_int s1) rp); simpl; lia.
Qed.

Section TrackerFacts.

Variable norm_ppf : R -> float64.

Lemma calculate_safety_stock_returns (self : DryIceAnalyzer) :
  exists s, calculate_safety_stock norm_ppf self = Ok s.
Proof.
  unfold calculate_safety_stock.
  destruct (len (map snd (groupby_date_sum (df (data_loader self)))) <? 2)%Z;
    eexists; reflexivity.
Qed.

(** C1.  Whenever the analyzer's EOQ and safety-stock computations
    return, the tracker's reorder point is their sum.  It is read
    from the analyzer alone: every tracker on the same analyzer has the
    same reorder point, whatever its stock, its log and its flag. *)
Theorem reorder_point_is_eoq_plus_safety_stock
  (self : InventoryTracker) (eoq ss : float64) :
  calculate_eoq (dry_ice_analyzer self) = Ok eoq ->
  calculate_safety_stock norm_ppf (dry_ice_analyzer self) = Ok ss ->
  reorder_point norm_ppf self = Ok (fadd eoq ss) /\
  forall other : InventoryTracker,
    dry_ice_analyzer other = dry_ice_analyzer self ->
    reorder_point norm_ppf other = Ok (fadd eoq ss).
Proof.
  intros He Hs.
  assert (H : forall t, dry_ice_analyzer t = dry_ice_analyzer self ->
                        reorder_point norm_ppf t = Ok (fadd eoq ss)).
  { intros t Ht. unfold reorder_point. rewrite Ht, He. cbn [bind].
    rewrite Hs. reflexivity. }
  split; [apply H; reflexivity | exact H].
Qed.

(** The reorder point is defined on every tracker. *)
Lemma reorder_point_returns (self : InventoryTracker) :
  exists eoq ss,
    calculate_eoq (dry_ice_analyzer self) = Ok eoq /\
    calculate_safety_stock norm_ppf (dry_ice_analyzer self) = Ok ss /\
    reorder_point norm_ppf self = Ok (fadd eoq ss).
Proof.
  destruct (calculate_safety_stock_returns (dry_ice_analyzer self))
    as (ss & Hs).
  eexists. exists ss. split; [apply calculate_eoq_returns |].
  split; [exact Hs |].
  unfold reorder_point. rewrite calculate_eoq_returns. cbn [bind].
  rewrite Hs. reflexivity.
Qed.

(** C5.  A consumption of [q] followed by a receipt of [q] leaves
    [current_stock] at the value it had before the consumption, and the
    log is the log before the consumption followed by exactly two
    entries, the one of the consumption and the one of the receipt. *)
Theorem consume_then_receive_restores_stock
  (self : InventoryTracker) (q : Z) (transaction_type : string)
  (now_log now_alert now_receipt : datetime) :
  let after :=
    record_receipt
      (fst (update_stock norm_ppf self q transaction_type now_log now_alert))
      q now_receipt in
  current_stock after = current_stock self /\
  stock_history after =
    stock_history self ++
    [ {| timestamp := now_log; quantity := q; type := transaction_type;
         balance := (current_stock self - q)%Z |};
      {| timestamp := now_receipt; quantity := q; type := "Stock Receipt";
         balance := current_stock self |} ] /\
  List.length (stock_history after) =
    (List.length (stock_history self) + 2)%nat.
Proof.
  cbv zeta. unfold record_receipt, update_stock, _log_transaction,
    set_current_stock.
  cbn [fst current_stock stock_history dry_ice_analyzer alerts_enabled].
  assert (Hq : (current_stock self - q + q)%Z = current_stock self) by lia.
  rewrite Hq. split; [reflexivity |].
  rewrite <- app_assoc. cbn [app]. split; [reflexivity |].
  rewrite length_app. reflexivity.
Qed.

(** [get_stock_status] reads nothing of the tracker but its stock and
    the two thresholds of its analyzer. *)
Lemma get_stock_status_by_thresholds
  (self : InventoryTracker) (ss rp : float64) :
  safety_stock norm_ppf self = Ok ss ->
  reorder_point norm_ppf self = Ok rp ->
  get_stock_status norm_ppf self =
  Ok {| status := status_by_thresholds (current_stock self) ss rp;
        color := color_of (status_by_thresholds (current_stock self) ss rp) |}.
Proof.
  intros Hs Hr. unfold get_stock_status, status_by_thresholds.
  rewrite Hs, Hr. cbn [bind].
  destruct (fle (of_int (current_stock self)) ss); [reflexivity |].
  destruct (fle (of_int (current_stock self)) rp); reflexivity.
Qed.

Lemma thresholds_of_set_current_stock (self : InventoryTracker) (s : Z) :
  safety_stock norm_ppf (set_current_stock self s) =
    safety_stock norm_ppf self /\
  reorder_point norm_ppf (set_current_stock self s) =
    reorder_point norm_ppf self.
Proof. split; reflexivity. Qed.

(** C6 (as the code has it).  With the safety stock [ss] and the
    reorder point [rp] of the analyzer fixed, [get_stock_status] at a
    stock [s] returns CRITICAL when [s <= ss], otherwise LOW when
    [s <= rp], otherwise NORMAL.  The status is monotonic in the stock: a
    lower stock never has a higher state, so a NORMAL stock lies
    strictly above a CRITICAL one and every stock that reads LOW lies
    strictly between the two.  When the reorder point is at least 1 kg
    above the safety stock, no state is skipped on the way down: between
    a NORMAL stock and a lower CRITICAL one there is a stock that reads
    LOW, and a step of 1 kg down from a NORMAL stock is never CRITICAL.
    When the reorder point is at or below the safety stock, no stock
    reads LOW. *)
Theorem stock_status_classification_monotone
  (self : InventoryTracker) (ss rp : float64) :
  safety_stock norm_ppf self = Ok ss ->
  reorder_point norm_ppf self = Ok rp ->
  (forall s : Z,
     get_stock_status norm_ppf (set_current_stock self s) =
     Ok {| status := status_by_thresholds s ss rp;
           color := color_of (status_by_thresholds s ss rp) |} /\
     status_by_thresholds s ss rp =
       (if fle (of_int s) ss then CRITICAL
        else if fle (of_int s) rp then LOW else NORMAL)) /\
  (forall lower higher : Z,
     (lower <= higher)%Z ->
     (severity_rank (status_by_thresholds lower ss rp) <=
      severity_rank (status_by_thresholds higher ss rp))%nat) /\
  (forall high low : Z,
     status_by_thresholds high ss rp = NORMAL ->
     status_by_thresholds low ss rp = CRITICAL ->
     (low < high)%Z /\
     forall mid : Z,
       status_by_thresholds mid ss rp = LOW -> (low < mid < high)%Z) /\
  (fle (fadd ss (of_int 1)) rp = true ->
   (forall high low : Z,
      status_by_thresholds high ss rp = NORMAL ->
      status_by_thresholds low ss rp = CRITICAL ->
      exists mid : Z,
        (low < mid < high)%Z /\ status_by_thresholds mid ss rp = LOW) /\
   (forall s : Z,
      status_by_thresholds (s + 1) ss rp = NORMAL ->
      status_by_thresholds s ss rp <> CRITICAL)) /\
  (fle rp ss = true ->
   forall s : Z, status_by_thresholds s ss rp <> LOW).
Proof.
  intros Hs Hr. split; [| split; [| split; [| split]]].
  - intros s. split; [| reflexivity].
    destruct (thresholds_of_set_current_stock self s) as (Hs' & Hr').
    rewrite (get_stock_status_by_thresholds (set_current_stock self s) ss rp);
      [reflexivity | rewrite Hs'; exact Hs | rewrite Hr'; exact Hr].
  - intros lower higher. apply status_by_thresholds_mono.
  - intros high low Hn Hc.
    assert (Hstrict : forall a b,
              (severity_rank (status_by_thresholds a ss rp) <
               severity_rank (status_by_thresholds b ss rp))%nat ->
              (a < b)%Z).
    { intros a b Hlt. destruct (Z_lt_le_dec a b) as [H | H]; [exact H |].
      pose proof (status_by_thresholds_mono ss rp b a H). lia. }
    split.
    + apply Hstrict. rewrite Hn, Hc. simpl. lia.
    + intros mid Hm. split; apply Hstrict.
      * rewrite Hc, Hm. simpl. lia.
      * rewrite Hm, Hn. simpl. lia.
  - intros Hband. split.
    + intros high low. apply low_band_has_a_stock. exact Hband.
    + intros s Hn Hc.
      destruct (low_band_has_a_stock ss rp (s + 1) s Hband Hn Hc)
        as (mid & Hmid & _).
      lia.
  - intros Hband s. apply low_band_empty. exact Hband.
Qed.

Lemma run_updates_cons (self : InventoryTracker) (c : UpdateCall)
  (cs : list UpdateCall) :
  run_updates norm_ppf self (c :: cs) =
  run_updates norm_ppf
    (fst (update_stock norm_ppf self (call_quantity c) (call_type c)
                       (call_now_log c) (call_now_alert c)))
    cs.
Proof. reflexivity. Qed.

Lemma update_stock_state (self : InventoryTracker) (c : UpdateCall) :
  let next :=
    fst (update_stock norm_ppf self (call_quantity c) (call_type c)
                      (call_now_log c) (call_now_alert c)) in
  current_stock next = (current_stock self - call_quantity c)%Z /\
  stock_history next =
    stock_history self ++
    [ {| timestamp := call_now_log c;
         quantity := call_quantity c;
         type := call_type c;
         balance := current_stock next |} ].
Proof. cbv zeta. split; reflexivity. Qed.

(** The log after a run of calls is the log before it followed by the
    entries of the calls, in order. *)
Lemma run_updates_history (calls : list UpdateCall) :
  forall self : InventoryTracker,
    stock_history (run_updates norm_ppf self calls) =
    stock_history self ++ logged_entries (current_stock self) calls.
Proof.
  induction calls as [| c cs IH]; intros self.
  - simpl. now rewrite app_nil_r.
  - rewrite run_updates_cons, IH.
    destruct (update_stock_state self c) as (Hstock & Hhist).
    cbv zeta in Hstock, Hhist. rewrite Hhist, Hstock.
    rewrite <- app_assoc. reflexivity.
Qed.

Lemma logged_entries_length (calls : list UpdateCall) (stock : Z) :
  List.length (logged_entries stock calls) = List.length calls.
Proof.
  revert stock. induction calls as [| c cs IH]; intros stock; simpl;
    [reflexivity | now rewrite IH].
Qed.

Lemma logged_entries_firstn (calls : list UpdateCall) :
  forall (stock : Z) (n : nat),
    logged_entries stock (firstn n calls) =
    firstn n (logged_entries stock calls).
Proof.
  induction calls as [| c cs IH]; intros stock n.
  - now rewrite !firstn_nil.
  - destruct n as [| n]; [reflexivity |].
    simpl. now rewrite IH.
Qed.

(** The balance of the [i]-th logged entry is the stock after the
    first [i + 1] calls. *)
Lemma logged_entries_nth (calls : list UpdateCall) :
  forall (self : InventoryTracker) (i : nat) (c : UpdateCall),
    nth_error calls i = Some c ->
    exists e,
      nth_error (logged_entries (current_stock self) calls) i = Some e /\
      balance e =
        current_stock (run_updates norm_ppf self (firstn (S i) calls)) /\
      quantity e = call_quantity c /\
      type e = call_type c /\
      timestamp e = call_now_log c.
Proof.
  induction calls as [| c0 cs IH]; intros self i c Hi.
  - destruct i; discriminate.
  - destruct i as [| i].
    + injection Hi as <-. eexists. split; [reflexivity |].
      repeat split.
    + simpl in Hi.
      destruct (IH (fst (update_stock norm_ppf self (call_quantity c0)
                           (call_type c0) (call_now_log c0)
                           (call_now_alert c0))) i c Hi)
        as (e & He & Hb & Hrest).
      exists e. split; [exact He |]. split; [| exact Hrest].
      rewrite Hb. reflexivity.
Qed.

(** C10.  A run of [update_stock] calls leaves the log it started from
    in place and appends one entry per call, in order: after the first
    [n] calls the log is the old log followed by the first [n] of the
    new entries.  The entry of each call carries the call's quantity and
    type, and its balance is the stock right after that call. *)
Theorem update_stock_log_append_only
  (self : InventoryTracker) (calls : list UpdateCall) :
  exists new : list Transaction,
    stock_history (run_updates norm_ppf self calls) =
      stock_history self ++ new /\
    List.length new = List.length calls /\
    (forall n : nat,
       stock_history (run_updates norm_ppf self (firstn n calls)) =
         stock_history self ++ firstn n new) /\
    (forall (i : nat) (c : UpdateCall),
       nth_error calls i = Some c ->
       exists e,
         nth_error new i = Some e /\
         balance e =
           current_stock (run_updates norm_ppf self (firstn (S i) calls)) /\
         quantity e = call_quantity c /\
         type e = call_type c /\
         timestamp e = call_now_log c).
Proof.
  exists (logged_entries (current_stock self) calls).
  split; [apply run_updates_history |].
  split; [apply logged_entries_length |].
  split.
  - intros n. rewrite run_updates_history. now rewrite logged_entries_firstn.
  - intros i c Hi. apply logged_entries_nth. exact Hi.
Qed.

End TrackerFacts.

(* ================================================================== *)
(** * The tracker on the one-order frame *)

Lemma calculate_eoq_single_row :
  calculate_eoq single_row_analyzer = Ok (Fin eoq_4500).
Proof.
  destruct kpis_single_row as (k & Hk & _ & Hamd & _).
  exact (calculate_eoq_at_4500 {| df := single_row_frame |} k Hk Hamd).
Qed.

(** One day of demand only: the fallback of half the average order. *)
Lemma calculate_safety_stock_single_row (norm_ppf : R -> float64) :
  calculate_safety_stock norm_ppf single_row_analyzer = Ok (Fin 75).
Proof.
  unfold calculate_safety_stock.
  replace (len (map snd (groupby_date_sum
                           (df (data_loader single_row_analyzer)))) <? 2)%Z
    with true by (vm_compute; reflexivity).
  rewrite series_mean_column.
  replace (df (data_loader single_row_analyzer)) with single_row_frame
    by reflexivity.
  rewrite Rmean_single_row. cbn [fmul]. do 2 f_equal. lra.
Qed.

Lemma reorder_point_is_eoq_plus_safety_stock_witness :
  calculate_eoq (dry_ice_analyzer single_row_tracker) = Ok (Fin eoq_4500) /\
  calculate_safety_stock norm_ppf_table (dry_ice_analyzer single_row_tracker)
    = Ok (Fin 75) /\
  reorder_point norm_ppf_table single_row_tracker
    = Ok (fadd (Fin eoq_4500) (Fin 75)) /\
  forall other : InventoryTracker,
    dry_ice_analyzer other = dry_ice_analyzer single_row_tracker ->
    reorder_point norm_ppf_table other = Ok (fadd (Fin eoq_4500) (Fin 75)).
Proof.
  split; [exact calculate_eoq_single_row |].
  split; [exact (calculate_safety_stock_single_row norm_ppf_table) |].
  exact (reorder_point_is_eoq_plus_safety_stock norm_ppf_table
           single_row_tracker (Fin eoq_4500) (Fin 75)
           calculate_eoq_single_row
           (calculate_safety_stock_single_row norm_ppf_table)).
Defined.

Lemma reorder_point_single_row :
  reorder_point norm_ppf_table single_row_tracker = Ok (Fin (eoq_4500 + 75)).
Proof.
  unfold reorder_point.
  replace (dry_ice_analyzer single_row_tracker) with single_row_analyzer
    by reflexivity.
  rewrite calculate_eoq_single_row. cbn [bind].
  rewrite calculate_safety_stock_single_row. reflexivity.
Qed.

Lemma single_row_low_band :
  fle (fadd (Fin 75) (of_int 1)) (Fin (eoq_4500 + 75)) = true.
Proof.
  pose proof eoq_4500_bounds. unfold of_int. cbn [fadd].
  apply fle_Fin. lra.
Qed.

(** On the one-order frame the safety stock is 75 kg and the reorder
    point lies between 1963 and 1964 kg: from a NORMAL stock down to a
    CRITICAL one the status passes through LOW. *)
Lemma stock_status_classification_monotone_witness :
  safety_stock norm_ppf_table single_row_tracker = Ok (Fin 75) /\
  reorder_point norm_ppf_table single_row_tracker
    = Ok (Fin (eoq_4500 + 75)) /\
  fle (fadd (Fin 75) (of_int 1)) (Fin (eoq_4500 + 75)) = true /\
  (forall high low : Z,
     status_by_thresholds high (Fin 75) (Fin (eoq_4500 + 75)) = NORMAL ->
     status_by_thresholds low (Fin 75) (Fin (eoq_4500 + 75)) = CRITICAL ->
     exists mid : Z,
       (low < mid < high)%Z /\
       status_by_thresholds mid (Fin 75) (Fin (eoq_4500 + 75)) = LOW) /\
  (forall s : Z,
     status_by_thresholds (s + 1) (Fin 75) (Fin (eoq_4500 + 75)) = NORMAL ->
     status_by_thresholds s (Fin 75) (Fin (eoq_4500 + 75)) <> CRITICAL).
Proof.
  split; [exact (calculate_safety_stock_single_row norm_ppf_table) |].
  split; [exact reorder_point_single_row |].
  split; [exact single_row_low_band |].
  exact (proj1 (proj2 (proj2 (proj2
           (stock_status_classification_monotone norm_ppf_table
              single_row_tracker (Fin 75) (Fin (eoq_4500 + 75))
              (calculate_safety_stock_single_row norm_ppf_table)
              reorder_point_single_row))))
           single_row_low_band).
Defined.

(** The thresholds on the frame of one order of 0 kg: both are 0. *)
Lemma thresholds_zero_order (norm_ppf : R -> float64) :
  safety_stock norm_ppf zero_order_tracker = Ok (Fin 0) /\
  reorder_point norm_ppf zero_order_tracker = Ok (Fin 0).
Proof.
  assert (Hmean : Rmean (column Order_Quantity_kg
                           (df (data_loader zero_order_analyzer))) = 0)
    by (unfold Rmean, len; simpl; lra).
  assert (Hss : calculate_safety_stock norm_ppf zero_order_analyzer
                = Ok (Fin 0)).
  { unfold calculate_safety_stock.
    replace (len (map snd (groupby_date_sum
                             (df (data_loader zero_order_analyzer)))) <? 2)%Z
      with true by (vm_compute; reflexivity).
    rewrite series_mean_column, Hmean. cbn [fmul]. do 2 f_equal. lra. }
  split; [exact Hss |].
  unfold reorder_point.
  change (dry_ice_analyzer zero_order_tracker) with zero_order_analyzer.
  rewrite calculate_eoq_returns, Hmean, Hss. cbn [bind].
  unfold zero_order_analyzer, DryIceAnalyzer_init, INVENTORY_PARAMETERS.
  cbn [constants TRANSPORT_COST HOLDING_RATE PRICE_PER_KG].
  rewrite fdiv_Fin by lra.
  replace (2 * (0 * 30) * 1741.94 / (0.03 * 146.55)) with 0
    by (unfold Rdiv; ring).
  rewrite fsqrt_Fin by lra. rewrite sqrt_0. cbn [fadd].
  do 2 f_equal. lra.
Qed.

(** C6 as stated fails where the LOW band is empty: on the frame of one
    order of 0 kg both thresholds are 0, a stock of 1 kg reads NORMAL, a
    stock of 0 kg reads CRITICAL, and no stock reads LOW, so the status
    goes from NORMAL to CRITICAL without passing through LOW. *)
Lemma stock_status_skips_low :
  (exists st,
     get_stock_status norm_ppf_table (set_current_stock zero_order_tracker 1)
       = Ok st /\ status st = NORMAL) /\
  (exists st,
     get_stock_status norm_ppf_table (set_current_stock zero_order_tracker 0)
       = Ok st /\ status st = CRITICAL) /\
  (forall (s : Z) (st : StockStatus),
     get_stock_status norm_ppf_table (set_current_stock zero_order_tracker s)
       = Ok st -> status st <> LOW).
Proof.
  destruct (thresholds_zero_order norm_ppf_table) as (Hs & Hr).
  assert (Hget : forall s,
            get_stock_status norm_ppf_table
              (set_current_stock zero_order_tracker s) =
            Ok {| status := status_by_thresholds s (Fin 0) (Fin 0);
                  color := color_of (status_by_thresholds s (Fin 0)
                                       (Fin 0)) |}).
  { intros s. apply get_stock_status_by_thresholds; assumption. }
  split; [| split].
  - eexists. split; [apply Hget |]. cbn [status].
    unfold status_by_thresholds, of_int. settle_comparisons. reflexivity.
  - eexists. split; [apply Hget |]. cbn [status].
    unfold status_by_thresholds, of_int. settle_comparisons. reflexivity.
  - intros s st H. rewrite Hget in H. injection H as <-. cbn [status].
    apply low_band_empty. apply fle_Fin. lra.
Qed.

(** With a reorder point well above the safety stock a single large
    consumption still skips LOW: on the one-order frame a consumption of
    1950 kg takes the stock from 2000 kg, which reads NORMAL, to 50 kg,
    which reads CRITICAL. *)
Example large_consumption_skips_low :
  status_by_thresholds 2000 (Fin 75) (Fin (eoq_4500 + 75)) = NORMAL /\
  current_stock
    (fst (update_stock norm_ppf_table single_row_tracker 1950
            "Daily Consumption" 1%Z 2%Z)) = 50%Z /\
  status_by_thresholds 50 (Fin 75) (Fin (eoq_4500 + 75)) = CRITICAL.
Proof.
  pose proof eoq_4500_bounds as Hb.
  split; [| split; [reflexivity |]];
    unfold status_by_thresholds, of_int; settle_comparisons; reflexivity.
Qed.

(** The three states on the one-order frame, whose safety stock is 75 kg
    and whose reorder point lies between 1963 and 1964 kg. *)
Example stock_status_single_row :
  status_by_thresholds 2000 (Fin 75) (Fin (eoq_4500 + 75)) = NORMAL /\
  status_by_thresholds 1150 (Fin 75) (Fin (eoq_4500 + 75)) = LOW /\
  status_by_thresholds 75 (Fin 75) (Fin (eoq_4500 + 75)) = CRITICAL.
Proof.
  pose proof eoq_4500_bounds as Hb.
  unfold status_by_thresholds, of_int.
  repeat split; settle_comparisons; reflexivity.
Qed.

(** A consumption of 850 kg from the initial 2000 kg and a receipt of
    850 kg: the two entries of the log and the stock. *)
Example consume_then_receive_2000 :
  let used :=
    fst (update_stock norm_ppf_table single_row_tracker 850%Z
                      "Daily Consumption" 1%Z 2%Z) in
  let after := record_receipt used 850%Z 3%Z in
  current_stock used = 1150%Z /\
  current_stock after = 2000%Z /\
  stock_history after =
    [ {| timestamp := 1%Z; quantity := 850%Z; type := "Daily Consumption";
         balance := 1150%Z |};
      {| timestamp := 3%Z; quantity := 850%Z; type := "Stock Receipt";
         balance := 2000%Z |} ].
Proof. cbv zeta. repeat split. Qed.

(** The alert of that consumption: 1150 kg is at or below the reorder
    point and above the safety stock of 75 kg. *)
Example consume_850_alert :
  snd (update_stock norm_ppf_table single_row_tracker 850%Z
                    "Daily Consumption" 1%Z 2%Z) =
  Ok (Some {| alert_timestamp := 2%Z;
              message := "REORDER REQUIRED - Current stock: 1150 kg";
              priority := MEDIUM |}).
Proof.
  pose proof eoq_4500_bounds as Hb.
  unfold update_stock. cbn [snd]. unfold check_reorder_point.
  replace (reorder_point norm_ppf_table _) with (Ok (Fin (eoq_4500 + 75)))
    by (symmetry; apply reorder_point_single_row).
  cbn [bind]. unfold send_alert, safety_stock.
  replace (calculate_safety_stock norm_ppf_table _) with (Ok (Fin 75))
    by (symmetry; apply calculate_safety_stock_single_row).
  cbn [bind _log_transaction set_current_stock current_stock].
  replace (current_stock single_row_tracker - 850)%Z with 1150%Z
    by reflexivity.
  unfold of_int. settle_comparisons. reflexivity.
Qed.

(** Two days of demand, 100 kg and 200 kg: the safety stock is the
    quantile times their sample standard deviation, the square root of
    5000, times the square root of the lead time of one day. *)
Example safety_stock_two_day :
  calculate_safety_stock norm_ppf_table two_day_analyzer =
  Ok (Fin (1.645 * sqrt 5000 * sqrt 1)).
Proof.
  unfold calculate_safety_stock.
  replace (map snd (groupby_date_sum (df (data_loader two_day_analyzer))))
    with [100; 200] by reflexivity.
  replace (len [100; 200] <? 2)%Z with false by reflexivity.
  unfold series_std.
  replace (len [100; 200] <? 2)%Z with false by reflexivity.
  replace (Rsum (map (fun x => (x - Rmean [100; 200]) * (x - Rmean [100; 200]))
                     [100; 200]) / IZR (len [100; 200] - 1))
    with 5000 by (unfold Rmean, Rsum, len; simpl; lra).
  unfold norm_ppf_table, of_int.
  replace (LEAD_TIME_DAYS (constants two_day_analyzer)) with 1%Z
    by reflexivity.
  rewrite fsqrt_Fin by lra. reflexivity.
Qed.

(* ================================================================== *)
(** * More on the stock tracker *)

Section TrackerAlerts.

Variable norm_ppf : R -> float64.

(** What [update_stock] returns, by the stock it leaves. *)
Lemma update_stock_alert
  (self : InventoryTracker) (q : Z) (transaction_type : string)
  (now_log now_alert : datetime) (ss rp : float64) :
  safety_stock norm_ppf self = Ok ss ->
  reorder_point norm_ppf self = Ok rp ->
  snd (update_stock norm_ppf self q transaction_type now_log now_alert) =
  if fle (of_int (current_stock self - q)) rp
  then Ok (Some {| alert_timestamp := now_alert;
                   message :=
                     ("REORDER REQUIRED - Current stock: "
                        ++ str_int (current_stock self - q) ++ " kg")%string;
                   priority :=
                     if fle (of_int (current_stock self - q)) ss
                     then HIGH else MEDIUM |})
  else Ok None.
Proof.
  intros Hs Hr. unfold update_stock. cbn [snd].
  unfold check_reorder_point.
  change (reorder_point norm_ppf
            (_log_transaction
               (set_current_stock self (current_stock self - q)) q
               transaction_type now_log))
    with (reorder_point norm_ppf self).
  rewrite Hr. cbn [bind].
  cbn [_log_transaction set_current_stock current_stock].
  destruct (fle (of_int (current_stock self - q)) rp); [| reflexivity].
  unfold send_alert.
  change (safety_stock norm_ppf
            (_log_transaction
               (set_current_stock self (current_stock self - q)) q
               transaction_type now_log))
    with (safety_stock norm_ppf self).
  rewrite Hs. reflexivity.
Qed.

(** X2.  When the safety stock is at or below the reorder point,
    the alert [update_stock] returns agrees with the status the tracker
    shows afterwards: no alert exactly when the status is NORMAL, an
    alert of priority MEDIUM when it is LOW and one of priority HIGH
    when it is CRITICAL; the alert carries the new stock in its
    message. *)
Theorem update_stock_alert_matches_status
  (self : InventoryTracker) (q : Z) (transaction_type : string)
  (now_log now_alert : datetime) (ss rp : float64) :
  safety_stock norm_ppf self = Ok ss ->
  reorder_point norm_ppf self = Ok rp ->
  fle ss rp = true ->
  exists st,
    get_stock_status norm_ppf
      (fst (update_stock norm_ppf self q transaction_type now_log now_alert))
      = Ok st /\
    match status st with
    | NORMAL =>
        snd (update_stock norm_ppf self q transaction_type now_log now_alert)
          = Ok None
    | LOW =>
        snd (update_stock norm_ppf self q transaction_type now_log now_alert)
          = Ok (Some {| alert_timestamp := now_alert;
                        message :=
                          ("REORDER REQUIRED - Current stock: "
                             ++ str_int (current_stock self - q)
                             ++ " kg")%string;
                        priority := MEDIUM |})
    | CRITICAL =>
        snd (update_stock norm_ppf self q transaction_type now_log now_alert)
          = Ok (Some {| alert_timestamp := now_alert;
                        message :=
                          ("REORDER REQUIRED - Current stock: "
                             ++ str_int (current_stock self - q)
                             ++ " kg")%string;
                        priority := HIGH |})
    end.
Proof.
  intros Hs Hr Hle.
  rewrite (update_stock_alert self q transaction_type now_log now_alert
             ss rp Hs Hr).
  rewrite (get_stock_status_by_thresholds norm_ppf _ ss rp);
    [| exact Hs | exact Hr].
  eexists. split; [reflexivity |].
  cbn [status update_stock fst _log_transaction set_current_stock
       current_stock].
  unfold status_by_thresholds.
  destruct (fle (of_int (current_stock self - q)) ss) eqn:Ess.
  - rewrite (fle_of_int_trans _ ss rp Ess Hle). reflexivity.
  - destruct (fle (of_int (current_stock self - q)) rp); reflexivity.
Qed.

(** X1.  One run of the sidebar code of [main.py] overwrites the stock
    of the tracker with the "Current Stock" input before anything else:
    the stock after the run is the input minus the usage, if "Record
    Usage" reports a press, plus the receipt, if "Record Receipt" does,
    whatever stock the tracker held before.  The log grows by one entry
    per press, each with the stock right after it as balance, and the
    status given to the display is that of the input, read before the
    handlers run. *)
Theorem sidebar_run_stock_from_input
  (tracker : InventoryTracker) (inputs : SidebarInputs)
  (now_log now_alert now_receipt : datetime) :
  exists ss rp,
    safety_stock norm_ppf tracker = Ok ss /\
    reorder_point norm_ppf tracker = Ok rp /\
    current_stock
      (fst (sidebar_run norm_ppf tracker inputs now_log now_alert
              now_receipt)) =
      (stock_input inputs
       - (if usage_pressed inputs then usage_input inputs else 0)
       + (if receipt_pressed inputs then receipt_input inputs else 0))%Z /\
    dry_ice_analyzer
      (fst (sidebar_run norm_ppf tracker inputs now_log now_alert
              now_receipt)) = dry_ice_analyzer tracker /\
    stock_history
      (fst (sidebar_run norm_ppf tracker inputs now_log now_alert
              now_receipt)) =
      stock_history tracker ++ sidebar_entries inputs now_log now_receipt /\
    exists alert,
      snd (sidebar_run norm_ppf tracker inputs now_log now_alert now_receipt)
      = Ok ({| status := status_by_thresholds (stock_input inputs) ss rp;
               color := color_of (status_by_thresholds (stock_input inputs)
                                    ss rp) |},
            alert).
Proof.
  destruct (reorder_point_returns norm_ppf tracker)
    as (eoq & ss & _ & Hss & Hrp).
  exists ss, (fadd eoq ss).
  split; [exact Hss |]. split; [exact Hrp |].
  unfold sidebar_run, sidebar_entries.
  set (t0 := set_current_stock tracker (stock_input inputs)).
  assert (Hs0 : safety_stock norm_ppf t0 = Ok ss) by exact Hss.
  assert (Hr0 : reorder_point norm_ppf t0 = Ok (fadd eoq ss)) by exact Hrp.
  rewrite (get_stock_status_by_thresholds norm_ppf t0 ss (fadd eoq ss)
             Hs0 Hr0).
  change (current_stock t0) with (stock_input inputs).
  destruct (usage_pressed inputs).
  - unfold record_usage.
    pose proof (update_stock_alert t0 (usage_input inputs)
                  "Daily Consumption" now_log now_alert ss (fadd eoq ss)
                  Hs0 Hr0) as Halert.
    destruct (update_stock norm_ppf t0 (usage_input inputs)
                "Daily Consumption" now_log now_alert)
      as [t1 alert] eqn:Hup.
    cbn [snd] in Halert.
    assert (Ht1 : t1 = fst (update_stock norm_ppf t0 (usage_input inputs)
                              "Daily Consumption" now_log now_alert))
      by (rewrite Hup; reflexivity).
    unfold update_stock in Ht1. cbn [fst] in Ht1.
    assert (Hok : exists a, alert = Ok a).
    { rewrite Halert.
      destruct (fle _ (fadd eoq ss)); eexists; reflexivity. }
    destruct Hok as (a & ->).
    destruct (receipt_pressed inputs); cbn [fst snd]; subst t1;
      (split; [cbn; lia |]); (split; [reflexivity |]);
      (split; [| eexists; reflexivity]);
      cbn [record_receipt _log_transaction set_current_stock stock_history
           current_stock t0];
      unfold t0; cbn [set_current_stock stock_history current_stock];
      rewrite <- ?app_assoc; cbn [app]; repeat f_equal; lia.
  - destruct (receipt_pressed inputs); cbn [fst snd];
      (split; [cbn; lia |]); (split; [reflexivity |]);
      (split; [| eexists; reflexivity]);
      cbn [record_receipt _log_transaction set_current_stock stock_history
           current_stock];
      unfold t0; cbn [set_current_stock stock_history current_stock app];
      rewrite ?app_nil_r; repeat f_equal; lia.
Qed.

End TrackerAlerts.

(** The status on display can be behind the stock: with an input of
    2000 kg and a usage of 1950 kg recorded in the same run, the run
    shows NORMAL and leaves the tracker at 50 kg, which reads
    CRITICAL. *)
Lemma sidebar_run_stock_from_input_witness :
  (exists alert,
     snd (sidebar_run norm_ppf_table single_row_tracker large_usage_inputs
            1%Z 2%Z 3%Z)
     = Ok ({| status := NORMAL; color := green |}, alert)) /\
  current_stock
    (fst (sidebar_run norm_ppf_table single_row_tracker large_usage_inputs
            1%Z 2%Z 3%Z))
    = 50%Z /\
  status_by_thresholds 50 (Fin 75) (Fin (eoq_4500 + 75)) = CRITICAL.
Proof.
  destruct (sidebar_run_stock_from_input norm_ppf_table single_row_tracker
              large_usage_inputs 1%Z 2%Z 3%Z)
    as (ss & rp & Hss & Hrp & Hstock & _ & _ & alert & Hout).
  rewrite (calculate_safety_stock_single_row norm_ppf_table : 
             safety_stock norm_ppf_table single_row_tracker = Ok (Fin 75))
    in Hss.
  rewrite reorder_point_single_row in Hrp.
  injection Hss as <-. injection Hrp as <-.
  pose proof eoq_4500_bounds as Hb.
  split; [| split].
  - exists alert. rewrite Hout. cbn [stock_input large_usage_inputs].
    replace (status_by_thresholds 2000 (Fin 75) (Fin (eoq_4500 + 75)))
      with NORMAL; [reflexivity |].
    unfold status_by_thresholds, of_int. settle_comparisons. reflexivity.
  - rewrite Hstock. reflexivity.
  - unfold status_by_thresholds, of_int. settle_comparisons. reflexivity.
Defined.

Lemma thresholds_single_row_ordered :
  fle (Fin 75) (Fin (eoq_4500 + 75)) = true.
Proof. pose proof eoq_4500_bounds. apply fle_Fin. lra. Qed.

Lemma update_stock_alert_matches_status_witness :
  exists st,
    get_stock_status norm_ppf_table
      (fst (update_stock norm_ppf_table single_row_tracker 850%Z
              "Daily Consumption" 1%Z 2%Z)) = Ok st /\
    match status st with
    | NORMAL =>
        snd (update_stock norm_ppf_table single_row_tracker 850%Z
               "Daily Consumption" 1%Z 2%Z) = Ok None
    | LOW =>
        snd (update_stock norm_ppf_table single_row_tracker 850%Z
               "Daily Consumption" 1%Z 2%Z)
          = Ok (Some {| alert_timestamp := 2%Z;
                        message :=
                          ("REORDER REQUIRED - Current stock: "
                             ++ str_int (current_stock single_row_tracker - 850%Z)
                             ++ " kg")%string;
                        priority := MEDIUM |})
    | CRITICAL =>
        snd (update_stock norm_ppf_table single_row_tracker 850%Z
               "Daily Consumption" 1%Z 2%Z)
          = Ok (Some {| alert_timestamp := 2%Z;
                        message :=
                          ("REORDER REQUIRED - Current stock: "
                             ++ str_int (current_stock single_row_tracker - 850%Z)
                             ++ " kg")%string;
                        priority := HIGH |})
    end.
Proof.
  exact (update_stock_alert_matches_status norm_ppf_table single_row_tracker
           850%Z "Daily Consumption" 1%Z 2%Z (Fin 75) (Fin (eoq_4500 + 75))
           (calculate_safety_stock_single_row norm_ppf_table)
           reorder_point_single_row
           thresholds_single_row_ordered).
Defined.

(* ================================================================== *)
(** * More on the analyzer *)

Lemma add_to_day_keys (d : Z) (q : R) (g : list (Z * R)) (k : Z) :
  In k (map fst (add_to_day d q g)) <-> k = d \/ In k (map fst g).
Proof.
  induction g as [| [d' s] g IH]; simpl.
  - intuition.
  - destruct (d =? d')%Z eqn:E.
    + apply Z.eqb_eq in E. subst d'. simpl. intuition.
    + destruct (d <? d')%Z; simpl; [intuition |].
      rewrite IH. intuition.
Qed.

Lemma fold_add_to_day_keys (rs : list Order) (g : list (Z * R)) (k : Z) :
  In k (map fst
          (fold_left (fun g r => add_to_day (Date r) (Order_Quantity_kg r) g)
                     rs g))
  <-> In k (map Date rs) \/ In k (map fst g).
Proof.
  revert g. induction rs as [| r rs IH]; intros g; simpl.
  - intuition.
  - rewrite IH, add_to_day_keys. intuition.
Qed.

Lemma fold_add_to_day_one_day (day : Z) (rs : list Order) :
  (forall r, In r rs -> Date r = day) ->
  forall s, exists s',
    fold_left (fun g r => add_to_day (Date r) (Order_Quantity_kg r) g)
              rs [(day, s)] = [(day, s')].
Proof.
  induction rs as [| r rs IH]; intros Hall s; simpl.
  - now exists s.
  - rewrite (Hall r (or_introl eq_refl)). rewrite Z.eqb_refl.
    apply IH. intros r' Hr'. apply Hall. now right.
Qed.

Lemma two_keys_two_entries {A : Type} (l : list A) (a b : A) :
  In a l -> In b l -> a <> b -> (2 <= List.length l)%nat.
Proof.
  intros Ha Hb Hab. destruct l as [| x [| y l]]; simpl in *.
  - contradiction.
  - destruct Ha as [<- | []]. destruct Hb as [<- | []]. now elim Hab.
  - lia.
Qed.

(** The number of days with demand: one when all orders share a day, at
    least two otherwise. *)
Lemma groupby_date_sum_days (d : DataFrame) :
  ((forall r, In r (rows d) -> Date r = Date (first_row d)) ->
   len (map snd (groupby_date_sum d)) = 1%Z) /\
  ((exists r, In r (rows d) /\ Date r <> Date (first_row d)) ->
   (2 <= len (map snd (groupby_date_sum d)))%Z).
Proof.
  unfold groupby_date_sum, rows. cbn [fold_left add_to_day]. split.
  - intros Hall.
    destruct (fold_add_to_day_one_day (Date (first_row d)) (more_rows d))
      with (s := Order_Quantity_kg (first_row d)) as (s' & Hs').
    + intros r Hr. apply Hall. now right.
    + rewrite Hs'. reflexivity.
  - intros (r & Hin & Hne).
    set (g := fold_left _ (more_rows d) _).
    assert (H1 : In (Date (first_row d)) (map fst g)).
    { apply fold_add_to_day_keys. right. now left. }
    assert (H2 : In (Date r) (map fst g)).
    { apply fold_add_to_day_keys. left. destruct Hin as [<- | Hin].
      - now elim Hne.
      - now apply in_map. }
    pose proof (two_keys_two_entries _ _ _ H2 H1 Hne) as Hlen.
    unfold len. rewrite !length_map in *. lia.
Qed.

Section AnalyzerFacts.

Variable norm_ppf : R -> float64.

(** X3.  The safety stock falls back to half the average order size
    exactly when all orders of the frame share one calendar day, however
    many rows there are; as soon as two orders differ in their day it is
    the quantile times the sample standard deviation of the daily demand
    times the square root of the lead time, and that standard deviation
    is a number (not NaN). *)
Theorem safety_stock_fallback_is_by_days (self : DryIceAnalyzer) :
  ((forall r, In r (rows (df (data_loader self))) ->
              Date r = Date (first_row (df (data_loader self)))) ->
   calculate_safety_stock norm_ppf self =
     Ok (Fin (Rmean (column Order_Quantity_kg (df (data_loader self)))
              * 0.5))) /\
  ((exists r, In r (rows (df (data_loader self))) /\
              Date r <> Date (first_row (df (data_loader self)))) ->
   exists daily_std,
     series_std (map snd (groupby_date_sum (df (data_loader self))))
       = Fin daily_std /\
     0 <= daily_std /\
     calculate_safety_stock norm_ppf self =
       Ok (fmul (fmul (norm_ppf (SERVICE_LEVEL (constants self)))
                      (Fin daily_std))
                (fsqrt (of_int (LEAD_TIME_DAYS (constants self)))))).
Proof.
  destruct (groupby_date_sum_days (df (data_loader self))) as (Hone & Htwo).
  unfold calculate_safety_stock. split.
  - intros Hall. rewrite (Hone Hall). cbn [Z.ltb Z.compare].
    rewrite series_mean_column. reflexivity.
  - intros Hex. specialize (Htwo Hex).
    assert (Hlt : (len (map snd (groupby_date_sum (df (data_loader self))))
                   <? 2)%Z = false) by (apply Z.ltb_ge; exact Htwo).
    rewrite Hlt. unfold series_std. rewrite Hlt.
    eexists. split; [reflexivity |]. split; [apply sqrt_pos | reflexivity].
Qed.

(** The safety stock is a finite number as soon as the quantile is. *)
Lemma safety_stock_finite (self : DryIceAnalyzer) :
  is_finite (norm_ppf (SERVICE_LEVEL (constants self))) = true ->
  (0 <= LEAD_TIME_DAYS (constants self))%Z ->
  exists s, calculate_safety_stock norm_ppf self = Ok (Fin s).
Proof.
  intros Hz HL. unfold calculate_safety_stock.
  destruct (len (map snd (groupby_date_sum (df (data_loader self)))) <? 2)%Z
    eqn:Hlt.
  - rewrite series_mean_column. eexists. reflexivity.
  - unfold series_std. rewrite Hlt.
    destruct (norm_ppf (SERVICE_LEVEL (constants self))) as [z | | |];
      try discriminate.
    unfold of_int. rewrite fsqrt_Fin by (apply IZR_le in HL; lra).
    eexists. reflexivity.
Qed.

(** X4.  With the configured parameters, on every frame whose average
    order size is not negative and with a finite quantile from
    [norm.ppf], the EOQ, the safety stock and the reorder point are
    finite numbers and the reorder point is at or above the safety
    stock: the LOW band of the tracker is well formed. *)
Theorem reorder_point_at_least_safety_stock
  (self : InventoryTracker) (dl : DataLoader) (k : KPIs) :
  dry_ice_analyzer self = DryIceAnalyzer_init dl ->
  is_finite (norm_ppf (SERVICE_LEVEL INVENTORY_PARAMETERS)) = true ->
  calculate_kpis (DryIceAnalyzer_init dl) = Ok k ->
  fle (of_int 0) (avg_order_size k) = true ->
  exists eoq ss,
    calculate_eoq (dry_ice_analyzer self) = Ok (Fin eoq) /\
    safety_stock norm_ppf self = Ok (Fin ss) /\
    reorder_point norm_ppf self = Ok (Fin (eoq + ss)) /\
    0 <= eoq /\
    fle (Fin ss) (Fin (eoq + ss)) = true.
Proof.
  intros Ha Hz Hk Havg.
  destruct (calculate_kpis_returns (DryIceAnalyzer_init dl))
    as (k' & Hk' & _ & Hmean & _).
  rewrite Hk in Hk'. injection Hk' as <-.
  rewrite Hmean in Havg. apply fle_Fin in Havg.
  destruct (safety_stock_finite (DryIceAnalyzer_init dl)) as (ss & Hss);
    [exact Hz | simpl; lia |].
  set (x := 2 * (Rmean (column Order_Quantity_kg
                          (df (data_loader (DryIceAnalyzer_init dl)))) * 30)
            * 1741.94 / (0.03 * 146.55)).
  assert (Hx : 0 <= x).
  { unfold x. apply Rmult_le_pos;
      [| apply Rlt_le, Rinv_0_lt_compat; lra]. lra. }
  assert (He : calculate_eoq (DryIceAnalyzer_init dl) = Ok (Fin (sqrt x))).
  { rewrite calculate_eoq_returns.
    unfold DryIceAnalyzer_init at 2 3 4, INVENTORY_PARAMETERS.
    cbn [constants TRANSPORT_COST HOLDING_RATE PRICE_PER_KG].
    rewrite fdiv_Fin by lra. fold x. now rewrite fsqrt_Fin. }
  exists (sqrt x), ss. rewrite Ha.
  split; [exact He |].
  unfold safety_stock, reorder_point. rewrite Ha, He, Hss.
  split; [reflexivity |]. split; [reflexivity |].
  pose proof (sqrt_pos x). split; [assumption |].
  apply fle_Fin. lra.
Qed.

End AnalyzerFacts.

Lemma safety_stock_fallback_is_by_days_witness :
  calculate_safety_stock norm_ppf_table single_row_analyzer =
    Ok (Fin (Rmean (column Order_Quantity_kg
                      (df (data_loader single_row_analyzer))) * 0.5)) /\
  exists daily_std,
    series_std (map snd (groupby_date_sum (df (data_loader two_day_analyzer))))
      = Fin daily_std /\
    0 <= daily_std /\
    calculate_safety_stock norm_ppf_table two_day_analyzer =
      Ok (fmul (fmul (norm_ppf_table (SERVICE_LEVEL (constants two_day_analyzer)))
                     (Fin daily_std))
               (fsqrt (of_int (LEAD_TIME_DAYS (constants two_day_analyzer))))).
Proof.
  split.
  - apply (proj1 (safety_stock_fallback_is_by_days norm_ppf_table
                    single_row_analyzer)).
    intros r [<- | []]. reflexivity.
  - apply (proj2 (safety_stock_fallback_is_by_days norm_ppf_table
                    two_day_analyzer)).
    eexists. split; [right; left; reflexivity |]. simpl. lia.
Defined.

Lemma reorder_point_at_least_safety_stock_witness :
  exists eoq ss,
    calculate_eoq (dry_ice_analyzer single_row_tracker) = Ok (Fin eoq) /\
    safety_stock norm_ppf_table single_row_tracker = Ok (Fin ss) /\
    reorder_point norm_ppf_table single_row_tracker = Ok (Fin (eoq + ss)) /\
    0 <= eoq /\
    fle (Fin ss) (Fin (eoq + ss)) = true.
Proof.
  destruct kpis_single_row as (k & Hk & Havg & _).
  apply (reorder_point_at_least_safety_stock norm_ppf_table
           single_row_tracker {| df := single_row_frame |} k).
  - reflexivity.
  - reflexivity.
  - exact Hk.
  - rewrite Havg. apply fle_Fin. lra.
Defined.

(* ================================================================== *)
(** * The sidebar progress bar *)

(** X6.  The value given to the sidebar progress bar is never NaN and
    never above 1, whatever the stock and the thresholds; it is at
    least 0, that is inside the range the progress bar accepts, when the
    stock is not negative and [eoq + safety_stock * 2] is not
    negative. *)
Theorem sidebar_progress_range (current_stock : Z) (eoq ss : float64) :
  fle (sidebar_progress current_stock eoq ss) (Fin 1) = true /\
  ((0 <= current_stock)%Z ->
   flt (fadd eoq (fmul ss (of_int 2))) (of_int 0) = false ->
   fle (of_int 0) (sidebar_progress current_stock eoq ss) = true).
Proof.
  unfold sidebar_progress, py_min.
  set (den := fadd eoq (fmul ss (of_int 2))).
  set (x := fdiv (of_int current_stock) den).
  split.
  - destruct (flt x (Fin 1)) eqn:E.
    + destruct x as [r | | |]; try discriminate; [| reflexivity].
      apply flt_Fin in E. apply fle_Fin. lra.
    + apply fle_Fin. lra.
  - intros Hstock Hden. apply IZR_le in Hstock.
    destruct (flt x (Fin 1)) eqn:E; [| apply fle_Fin; lra].
    unfold x, of_int in *. destruct den as [d | | |]; cbn [fdiv] in *.
    + destruct (Req_dec_T d 0) as [Hz | Hnz].
      * destruct (Rsgn (IZR current_stock)) eqn:S; cbn [signed_inf] in *;
          try discriminate.
        unfold Rsgn in S.
        destruct (total_order_T (IZR current_stock) 0) as [[H | H] | H];
          try discriminate. lra.
      * apply flt_Fin_false in Hden. apply fle_Fin.
        apply Rmult_le_pos; [exact Hstock |].
        apply Rlt_le, Rinv_0_lt_compat. lra.
    + apply fle_Fin. lra.
    + discriminate.
    + discriminate.
Qed.

Lemma sidebar_progress_range_witness :
  fle (sidebar_progress 2000 (Fin eoq_4500) (Fin 75)) (Fin 1) = true /\
  fle (of_int 0) (sidebar_progress 2000 (Fin eoq_4500) (Fin 75)) = true.
Proof.
  pose proof eoq_4500_bounds as Hb.
  destruct (sidebar_progress_range 2000 (Fin eoq_4500) (Fin 75)) as (H1 & H2).
  split; [exact H1 |]. apply H2; [lia |].
  apply flt_Fin_false. lra.
Defined.

(* ================================================================== *)
(** * The alert list *)

Lemma same_or_processed_trans (a b c : Notification) :
  same_or_processed a b -> same_or_processed b c -> same_or_processed a c.
Proof.
  unfold same_or_processed. intros [-> | ->] [-> | ->]; auto.
Qed.

Lemma keeps_alerts_refl (l : list Notification) : keeps_alerts l l.
Proof. intros j a H. exists a. split; [exact H | now left]. Qed.

Lemma keeps_alerts_trans (l1 l2 l3 : list Notification) :
  keeps_alerts l1 l2 -> keeps_alerts l2 l3 -> keeps_alerts l1 l3.
Proof.
  intros H12 H23 j a Ha.
  destruct (H12 j a Ha) as (b & Hb & Hab).
  destruct (H23 j b Hb) as (c & Hc & Hbc).
  exists c. split; [exact Hc | exact (same_or_processed_trans _ _ _ Hab Hbc)].
Qed.

Lemma keeps_alerts_app (l new : list Notification) :
  keeps_alerts l (l ++ new).
Proof.
  intros j a Ha. exists a. split; [| now left].
  rewrite nth_error_app1; [exact Ha |].
  apply nth_error_Some. rewrite Ha. discriminate.
Qed.

Lemma set_status_at_nth (l : list Notification) (i : nat) (s : string) :
  forall j,
    nth_error (set_status_at l i s) j =
    if Nat.eqb j i then option_map (fun a => set_status a s) (nth_error l j)
    else nth_error l j.
Proof.
  revert i. induction l as [| a l IH]; intros i j.
  - destruct i, j; simpl; try reflexivity; now destruct (Nat.eqb j i).
  - destruct i as [| i], j as [| j]; simpl; try reflexivity.
    apply IH.
Qed.

Lemma set_status_at_length (l : list Notification) (i : nat) (s : string) :
  List.length (set_status_at l i s) = List.length l.
Proof.
  revert i. induction l as [| a l IH]; intros [| i]; simpl; auto.
Qed.

(** X7.  [mark_alert_processed] with an index inside the list returns
    [True] and changes the status of that one alert to PROCESSED: the
    list keeps its length, every other alert and every other field stay
    as they were.  With any other index, a negative one included, it
    returns [False] and changes nothing. *)
Theorem mark_alert_processed_changes_one
  (self : SmartAlerts) (alert_id : Z) :
  ((0 <= alert_id < len (alerts self))%Z ->
   snd (mark_alert_processed self alert_id) = true /\
   alert_types (fst (mark_alert_processed self alert_id))
     = alert_types self /\
   List.length (alerts (fst (mark_alert_processed self alert_id)))
     = List.length (alerts self) /\
   forall (j : nat) (a : Notification),
     nth_error (alerts self) j = Some a ->
     nth_error (alerts (fst (mark_alert_processed self alert_id))) j =
     Some (if Nat.eqb j (Z.to_nat alert_id)
           then set_status a "PROCESSED" else a)) /\
  (~ (0 <= alert_id < len (alerts self))%Z ->
   mark_alert_processed self alert_id = (self, false)).
Proof.
  unfold mark_alert_processed. split; intros H.
  - replace ((0 <=? alert_id) && (alert_id <? len (alerts self)))%Z
      with true by (symmetry; apply andb_true_iff; split;
                    [apply Z.leb_le | apply Z.ltb_lt]; lia).
    cbn [fst snd alerts alert_types].
    split; [reflexivity |]. split; [reflexivity |].
    split; [apply set_status_at_length |].
    intros j a Ha. rewrite set_status_at_nth, Ha.
    destruct (Nat.eqb j (Z.to_nat alert_id)); reflexivity.
  - replace ((0 <=? alert_id) && (alert_id <? len (alerts self)))%Z
      with false; [reflexivity |].
    symmetry. apply andb_false_iff.
    destruct (Z_le_dec 0 alert_id) as [H0 | H0].
    + right. apply Z.ltb_ge. lia.
    + left. apply Z.leb_gt. lia.
Qed.

Lemma mark_alert_processed_changes_one_witness :
  snd (mark_alert_processed one_alert_system 0) = true /\
  alert_types (fst (mark_alert_processed one_alert_system 0))
    = alert_types one_alert_system /\
  List.length (alerts (fst (mark_alert_processed one_alert_system 0)))
    = List.length (alerts one_alert_system) /\
  forall (j : nat) (a : Notification),
    nth_error (alerts one_alert_system) j = Some a ->
    nth_error (alerts (fst (mark_alert_processed one_alert_system 0))) j =
    Some (if Nat.eqb j (Z.to_nat 0)
          then set_status a "PROCESSED" else a).
Proof.
  apply (proj1 (mark_alert_processed_changes_one one_alert_system 0)).
  vm_compute. split; [discriminate | reflexivity].
Defined.

Lemma send_notification_known (self : SmartAlerts) (alert_type msg : string)
  (info : AlertType) (now : datetime) :
  dict_get (alert_types self) alert_type = Some info ->
  send_notification self alert_type msg None now =
  ({| alerts := alerts self
                  ++ [pending_alert now alert_type msg (type_priority info)];
      alert_types := alert_types self |},
   Return (pending_alert now alert_type msg (type_priority info))).
Proof.
  intros H. unfold send_notification, dict_item. rewrite H. reflexivity.
Qed.

Lemma send_notification_keeps (self : SmartAlerts) (alert_type msg : string)
  (channels : option (list string)) (now : datetime) :
  alert_types (fst (send_notification self alert_type msg channels now))
    = alert_types self /\
  exists new,
    alerts (fst (send_notification self alert_type msg channels now))
      = alerts self ++ new /\
    (List.length new <= 1)%nat /\
    Forall (fun a => n_status a = "PENDING"%string) new.
Proof.
  unfold send_notification.
  destruct (dict_item (alert_types self) alert_type) as [info | e];
    cbn [fst alerts alert_types].
  - split; [reflexivity |]. eexists. split; [reflexivity |].
    split; [simpl; lia |]. repeat constructor.
  - split; [reflexivity |]. exists []. rewrite app_nil_r.
    split; [reflexivity |]. split; [simpl; lia | constructor].
Qed.

Lemma filter_set_status_at (l : list Notification) :
  forall (i : nat) (a : Notification),
    nth_error l i = Some a ->
    List.length
      (filter (fun alert => String.eqb (n_status alert) "PENDING")
              (set_status_at l i "PROCESSED")) =
    (List.length
       (filter (fun alert => String.eqb (n_status alert) "PENDING") l)
     - (if String.eqb (n_status a) "PENDING" then 1 else 0))%nat /\
    ~ In (set_status a "PROCESSED")
         (filter (fun alert => String.eqb (n_status alert) "PENDING")
                 (set_status_at l i "PROCESSED")).
Proof.
  assert (Hnot : forall (a : Notification) l',
            ~ In (set_status a "PROCESSED")
                 (filter (fun alert => String.eqb (n_status alert) "PENDING")
                         l')).
  { intros a l' Hin. apply filter_In in Hin. destruct Hin as (_ & H).
    cbn in H. discriminate. }
  induction l as [| b l IH]; intros [| i] a Ha; cbn in Ha; try discriminate.
  - injection Ha as ->. split; [| apply Hnot].
    cbn [set_status_at filter set_status n_status].
    change (String.eqb "PROCESSED" "PENDING") with false. cbn iota.
    destruct (String.eqb (n_status a) "PENDING"); cbn [List.length]; lia.
  - split; [| apply Hnot].
    destruct (IH i a Ha) as (IHlen & _).
    cbn [set_status_at filter].
    destruct (String.eqb (n_status b) "PENDING"); cbn [List.length].
    + rewrite IHlen.
      destruct (String.eqb (n_status a) "PENDING") eqn:Ea; [| lia].
      assert (0 < List.length
                    (filter (fun alert => String.eqb (n_status alert) "PENDING")
                            l))%nat; [| lia].
      apply nth_error_In in Ha.
      assert (Hin : In a (filter (fun alert =>
                                    String.eqb (n_status alert) "PENDING") l))
        by (apply filter_In; split; assumption).
      destruct (filter _ l); [contradiction | cbn; lia].
    + exact IHlen.
Qed.

Lemma set_status_at_twice (l : list Notification) (s : string) :
  forall i, set_status_at (set_status_at l i s) i s = set_status_at l i s.
Proof.
  induction l as [| b l IH]; intros [| i]; cbn; try reflexivity.
  now rewrite IH.
Qed.

(** X8.  Marking an alert as processed takes it out of the list
    [get_active_alerts] returns: the list is shorter by one when the
    alert was PENDING and as long as before otherwise, the marked alert
    is not on it, and marking the same alert again succeeds and changes
    nothing. *)
Theorem mark_alert_processed_leaves_active_list
  (self : SmartAlerts) (alert_id : Z) (a : Notification) :
  (0 <= alert_id)%Z ->
  nth_error (alerts self) (Z.to_nat alert_id) = Some a ->
  let self' := fst (mark_alert_processed self alert_id) in
  List.length (get_active_alerts self') =
    (List.length (get_active_alerts self)
     - (if String.eqb (n_status a) "PENDING" then 1 else 0))%nat /\
  nth_error (alerts self') (Z.to_nat alert_id)
    = Some (set_status a "PROCESSED") /\
  ~ In (set_status a "PROCESSED") (get_active_alerts self') /\
  mark_alert_processed self' alert_id = (self', true).
Proof.
  intros Hpos Ha. cbv zeta.
  assert (Hlt : (Z.to_nat alert_id < List.length (alerts self))%nat)
    by (apply nth_error_Some; rewrite Ha; discriminate).
  assert (Hin : ((0 <=? alert_id) && (alert_id <? len (alerts self)))%Z
                = true).
  { apply andb_true_iff. split; [apply Z.leb_le; lia |].
    apply Z.ltb_lt. unfold len. lia. }
  unfold mark_alert_processed at 1 2 3 4 5. rewrite Hin.
  cbn [fst alerts]. unfold get_active_alerts. cbn [alerts].
  destruct (filter_set_status_at (alerts self) (Z.to_nat alert_id) a Ha)
    as (Hlen & Hnot).
  split; [exact Hlen |].
  split; [rewrite set_status_at_nth, Nat.eqb_refl, Ha; reflexivity |].
  split; [exact Hnot |].
  unfold mark_alert_processed. cbn [alerts alert_types].
  unfold len in *. rewrite set_status_at_length, Hin, set_status_at_twice.
  reflexivity.
Qed.

Lemma mark_alert_processed_leaves_active_list_witness :
  List.length
    (get_active_alerts (fst (mark_alert_processed one_alert_system 0))) = 0%nat.
Proof.
  exact (proj1 (mark_alert_processed_leaves_active_list one_alert_system 0
                  (pending_alert 1%Z "LOW_STOCK"
                     "CRITICAL stock level: 100 kg" "HIGH")
                  (Z.le_refl 0) eq_refl)).
Defined.

(** X9.  [send_notification] with one of the alert types of the
    object appends one PENDING alert with the priority of its type and
    returns it, and the alert is the last of the active alerts; with
    any other type it raises [KeyError] and appends nothing. *)
Theorem send_notification_active_or_key_error
  (self : SmartAlerts) (alert_type msg : string)
  (channels : option (list string)) (now : datetime) :
  (forall info : AlertType,
     dict_get (alert_types self) alert_type = Some info ->
     exists alert,
       snd (send_notification self alert_type msg channels now)
         = Return alert /\
       n_status alert = "PENDING"%string /\
       n_priority alert = type_priority info /\
       alerts (fst (send_notification self alert_type msg channels now))
         = alerts self ++ [alert] /\
       get_active_alerts
         (fst (send_notification self alert_type msg channels now))
         = get_active_alerts self ++ [alert]) /\
  (dict_get (alert_types self) alert_type = None ->
   send_notification self alert_type msg channels now
     = (self, Throw (KeyError alert_type))).
Proof.
  unfold send_notification, dict_item. split.
  - intros info H. rewrite H. cbn [fst snd alerts].
    eexists. split; [reflexivity |]. cbn [n_status n_priority].
    split; [reflexivity |]. split; [reflexivity |].
    split; [reflexivity |].
    unfold get_active_alerts. cbn [alerts].
    rewrite filter_app. reflexivity.
  - intros H. rewrite H. reflexivity.
Qed.

Lemma send_notification_active_or_key_error_witness :
  send_notification SmartAlerts_init "STOCKOUT" "No stock" None 1%Z
    = (SmartAlerts_init, Throw (KeyError "STOCKOUT")).
Proof.
  exact (proj2 (send_notification_active_or_key_error SmartAlerts_init
                  "STOCKOUT" "No stock" None 1%Z) eq_refl).
Defined.

Section AlertFacts.

Variable norm_ppf : R -> float64.
Variable str_number : float64 -> string.
Variable format_fixed : nat -> float64 -> string.

Lemma notify_if_known (cond : bool) (self : SmartAlerts)
  (alert_type msg : string) (info : AlertType) (now : datetime) :
  dict_get (alert_types self) alert_type = Some info ->
  notify_if cond self alert_type msg now =
  ({| alerts :=
        alerts self
          ++ (if cond
              then [pending_alert now alert_type msg (type_priority info)]
              else []);
      alert_types := alert_types self |},
   Return tt).
Proof.
  intros H. unfold notify_if. destruct cond.
  - rewrite (send_notification_known self alert_type msg info now H).
    reflexivity.
  - rewrite app_nil_r. destruct self. reflexivity.
Qed.

Lemma notify_if_keeps (cond : bool) (self : SmartAlerts)
  (alert_type msg : string) (now : datetime) :
  alert_types (fst (notify_if cond self alert_type msg now))
    = alert_types self /\
  exists new,
    alerts (fst (notify_if cond self alert_type msg now))
      = alerts self ++ new /\
    (List.length new <= 1)%nat /\
    Forall (fun a => n_status a = "PENDING"%string) new.
Proof.
  unfold notify_if. destruct cond.
  - destruct (send_notification_keeps self alert_type msg None now)
      as (Ht & new & Ha & Hl & Hp).
    destruct (send_notification self alert_type msg None now) as [s' [x | e]];
      cbn [fst] in *; (split; [exact Ht |]); exists new; auto.
  - cbn [fst]. split; [reflexivity |]. exists []. rewrite app_nil_r.
    split; [reflexivity |]. split; [simpl; lia | constructor].
Qed.

(** What one [check_conditions] call does on the alert types of the
    constructor. *)
Lemma check_conditions_by_rule
  (self : SmartAlerts) (tracker : InventoryTracker)
  (current_demand avg_demand std_demand current_cost avg_cost : float64)
  (now_stock now_demand now_cost : datetime) (ss rp : float64) :
  alert_types self = alert_types SmartAlerts_init ->
  safety_stock norm_ppf tracker = Ok ss ->
  reorder_point norm_ppf tracker = Ok rp ->
  let after :=
    {| alerts :=
         alerts self
           ++ stock_rule_alerts tracker ss rp now_stock
           ++ demand_rule_alerts str_number format_fixed current_demand avg_demand std_demand
                now_demand
           ++ cost_rule_alerts format_fixed current_cost avg_cost now_cost;
       alert_types := alert_types self |} in
  check_conditions norm_ppf str_number format_fixed self tracker
    current_demand avg_demand std_demand current_cost avg_cost
    now_stock now_demand now_cost
  = (after, Return (alerts after)).
Proof.
  intros Htypes Hs Hr. cbv zeta. unfold check_conditions.
  rewrite (get_stock_status_by_thresholds norm_ppf tracker ss rp Hs Hr).
  cbn [status]. unfold stock_rule_alerts, demand_rule_alerts,
    cost_rule_alerts.
  destruct (status_by_thresholds (current_stock tracker) ss rp).
  - rewrite (notify_if_known true self "LOW_STOCK" _
               {| threshold := "safety_stock"; type_priority := "HIGH" |});
      [| rewrite Htypes; reflexivity].
    rewrite (notify_if_known _ _ "UNUSUAL_DEMAND" _
               {| threshold := "2_std_dev"; type_priority := "MEDIUM" |});
      [| cbn [alert_types]; rewrite Htypes; reflexivity].
    rewrite (notify_if_known _ _ "COST_SPIKE" _
               {| threshold := "10_percent"; type_priority := "LOW" |});
      [| cbn [alert_types]; rewrite Htypes; reflexivity].
    cbn [alerts alert_types type_priority]. rewrite <- !app_assoc.
    reflexivity.
  - rewrite (notify_if_known true self "REORDER_DUE" _
               {| threshold := "reorder_point"; type_priority := "MEDIUM" |});
      [| rewrite Htypes; reflexivity].
    rewrite (notify_if_known _ _ "UNUSUAL_DEMAND" _
               {| threshold := "2_std_dev"; type_priority := "MEDIUM" |});
      [| cbn [alert_types]; rewrite Htypes; reflexivity].
    rewrite (notify_if_known _ _ "COST_SPIKE" _
               {| threshold := "10_percent"; type_priority := "LOW" |});
      [| cbn [alert_types]; rewrite Htypes; reflexivity].
    cbn [alerts alert_types type_priority]. rewrite <- !app_assoc.
    reflexivity.
  - rewrite (notify_if_known _ self "UNUSUAL_DEMAND" _
               {| threshold := "2_std_dev"; type_priority := "MEDIUM" |});
      [| rewrite Htypes; reflexivity].
    rewrite (notify_if_known _ _ "COST_SPIKE" _
               {| threshold := "10_percent"; type_priority := "LOW" |});
      [| cbn [alert_types]; rewrite Htypes; reflexivity].
    cbn [alerts alert_types type_priority app]. rewrite <- !app_assoc.
    reflexivity.
Qed.

(** X10.  On an alert system with the four alert types of its
    constructor, [check_conditions] raises nothing, keeps every alert
    it had and appends, in this order: one LOW_STOCK alert of priority
    HIGH when the tracker is CRITICAL or one REORDER_DUE alert of
    priority MEDIUM when it is LOW; one UNUSUAL_DEMAND alert when the
    demand is more than two standard deviations off the average; one
    COST_SPIKE alert when the cost exceeds 1.1 times the average.  All
    new alerts are PENDING, and the list it returns is the whole list. *)
Theorem check_conditions_appends_by_rule
  (self : SmartAlerts) (tracker : InventoryTracker)
  (current_demand avg_demand std_demand current_cost avg_cost : float64)
  (now_stock now_demand now_cost : datetime) (ss rp : float64) :
  alert_types self = alert_types SmartAlerts_init ->
  safety_stock norm_ppf tracker = Ok ss ->
  reorder_point norm_ppf tracker = Ok rp ->
  let after :=
    {| alerts :=
         alerts self
           ++ stock_rule_alerts tracker ss rp now_stock
           ++ demand_rule_alerts str_number format_fixed current_demand avg_demand std_demand
                now_demand
           ++ cost_rule_alerts format_fixed current_cost avg_cost now_cost;
       alert_types := alert_types self |} in
  check_conditions norm_ppf str_number format_fixed self tracker
    current_demand avg_demand std_demand current_cost avg_cost
    now_stock now_demand now_cost
  = (after, Return (alerts after)).
Proof.
  intros Htypes Hs Hr.
  exact (check_conditions_by_rule self tracker current_demand avg_demand
           std_demand current_cost avg_cost now_stock now_demand now_cost
           ss rp Htypes Hs Hr).
Qed.

Lemma appends_pending_refl (s : SmartAlerts) : appends_pending 0 s s.
Proof.
  split; [reflexivity |]. exists []. rewrite app_nil_r.
  split; [reflexivity |]. split; [simpl; lia | constructor].
Qed.

Lemma appends_pending_trans (n m : nat) (s1 s2 s3 : SmartAlerts) :
  appends_pending n s1 s2 -> appends_pending m s2 s3 ->
  appends_pending (n + m) s1 s3.
Proof.
  intros (Ht1 & new1 & Ha1 & Hl1 & Hp1) (Ht2 & new2 & Ha2 & Hl2 & Hp2).
  split; [congruence |]. exists (new1 ++ new2).
  split; [rewrite Ha2, Ha1, app_assoc; reflexivity |].
  split; [rewrite length_app; lia | apply Forall_app; now split].
Qed.

Lemma appends_pending_weaken (n m : nat) (s s' : SmartAlerts) :
  (n <= m)%nat -> appends_pending n s s' -> appends_pending m s s'.
Proof.
  intros Hnm (Ht & new & Ha & Hl & Hp). split; [exact Ht |].
  exists new. split; [exact Ha |]. split; [lia | exact Hp].
Qed.

Lemma notify_if_appends (cond : bool) (self : SmartAlerts)
  (alert_type msg : string) (now : datetime) :
  appends_pending 1 self (fst (notify_if cond self alert_type msg now)).
Proof. exact (notify_if_keeps cond self alert_type msg now). Qed.

(** Whatever it returns or raises, [check_conditions] leaves the alert
    types alone and appends at most three alerts, all PENDING. *)
Lemma check_conditions_appends
  (self : SmartAlerts) (tracker : InventoryTracker)
  (current_demand avg_demand std_demand current_cost avg_cost : float64)
  (now_stock now_demand now_cost : datetime) :
  appends_pending 3 self
    (fst (check_conditions norm_ppf str_number format_fixed self tracker
            current_demand avg_demand std_demand current_cost avg_cost
            now_stock now_demand now_cost)).
Proof.
  unfold check_conditions.
  destruct (get_stock_status norm_ppf tracker) as [st | e];
    [| apply (appends_pending_weaken 0); [lia | apply appends_pending_refl]].
  match goal with
  | |- context [match ?step with (_, _) => _ end] => set (step1 := step)
  end.
  assert (H1 : appends_pending 1 self (fst step1)).
  { unfold step1. destruct (status st).
    - apply notify_if_appends.
    - apply notify_if_appends.
    - apply (appends_pending_weaken 0); [lia | apply appends_pending_refl]. }
  destruct step1 as [self1 [u1 | e1]]; cbn [fst] in *;
    [| apply (appends_pending_weaken 1); [lia | exact H1]].
  match goal with
  | |- context [match ?step with (_, _) => _ end] => set (step2 := step)
  end.
  assert (H2 : appends_pending 1 self1 (fst step2))
    by (unfold step2; apply notify_if_appends).
  destruct step2 as [self2 [u2 | e2]]; cbn [fst] in *;
    [| apply (appends_pending_weaken 2); [lia |];
       exact (appends_pending_trans 1 1 _ _ _ H1 H2)].
  match goal with
  | |- context [match ?step with (_, _) => _ end] => set (step3 := step)
  end.
  assert (H3 : appends_pending 1 self2 (fst step3))
    by (unfold step3; apply notify_if_appends).
  pose proof (appends_pending_trans 2 1 _ _ _
                (appends_pending_trans 1 1 _ _ _ H1 H2) H3) as H.
  destruct step3 as [self3 [u3 | e3]]; cbn [fst] in *; exact H.
Qed.

Lemma keeps_alerts_mark (self : SmartAlerts) (alert_id : Z) :
  keeps_alerts (alerts self)
               (alerts (fst (mark_alert_processed self alert_id))).
Proof.
  unfold mark_alert_processed.
  destruct ((0 <=? alert_id) && (alert_id <? len (alerts self)))%Z;
    cbn [fst alerts]; [| apply keeps_alerts_refl].
  intros j a Ha. rewrite set_status_at_nth, Ha.
  destruct (Nat.eqb j (Z.to_nat alert_id)); eexists;
    (split; [reflexivity |]); [now right | now left].
Qed.

Lemma alerts_call_keeps (self : SmartAlerts) (c : AlertsCall) :
  keeps_alerts (alerts self) (alerts (alerts_call norm_ppf str_number format_fixed self c)) /\
  alert_types (alerts_call norm_ppf str_number format_fixed self c) = alert_types self.
Proof.
  destruct c as [ty msg ch now | i | tr cd ad sd cc ac n1 n2 n3];
    cbn [alerts_call].
  - destruct (send_notification_keeps self ty msg ch now)
      as (Ht & new & Ha & _).
    split; [rewrite Ha; apply keeps_alerts_app | exact Ht].
  - split; [apply keeps_alerts_mark |].
    unfold mark_alert_processed.
    destruct ((0 <=? i) && (i <? len (alerts self)))%Z; reflexivity.
  - destruct (check_conditions_appends self tr cd ad sd cc ac n1 n2 n3)
      as (Ht & new & Ha & _).
    split; [rewrite Ha; apply keeps_alerts_app | exact Ht].
Qed.

(** X11.  Through any sequence of [send_notification],
    [mark_alert_processed] and [check_conditions] calls, no alert is
    removed or moved: the alert at an index stays at that index with its
    timestamp, type, message, priority and channels, and its status can
    change only from PENDING to PROCESSED.  An alert that is PROCESSED
    stays as it is, and the alert types never change. *)
Theorem alert_indices_are_stable (calls : list AlertsCall) :
  forall self : SmartAlerts,
    alert_types (fold_left (alerts_call norm_ppf str_number format_fixed) calls self) = alert_types self /\
    forall (j : nat) (a : Notification),
      nth_error (alerts self) j = Some a ->
      exists a',
        nth_error (alerts (fold_left (alerts_call norm_ppf str_number format_fixed) calls self)) j = Some a' /\
        n_timestamp a' = n_timestamp a /\ n_type a' = n_type a /\
        n_message a' = n_message a /\ n_priority a' = n_priority a /\
        n_channels a' = n_channels a /\
        (n_status a' = n_status a \/ n_status a' = "PROCESSED"%string) /\
        (n_status a = "PROCESSED"%string -> a' = a).
Proof.
  assert (Hk : forall self,
            keeps_alerts (alerts self)
                         (alerts (fold_left (alerts_call norm_ppf str_number format_fixed) calls self)) /\
            alert_types (fold_left (alerts_call norm_ppf str_number format_fixed) calls self)
              = alert_types self).
  { induction calls as [| c cs IH]; intros self; cbn [fold_left].
    - split; [apply keeps_alerts_refl | reflexivity].
    - destruct (alerts_call_keeps self c) as (Hc & Ht).
      destruct (IH (alerts_call norm_ppf str_number format_fixed self c)) as (Hcs & Hts).
      split; [exact (keeps_alerts_trans _ _ _ Hc Hcs) | congruence]. }
  intros self. destruct (Hk self) as (Hkeep & Ht).
  split; [exact Ht |]. intros j a Ha.
  destruct (Hkeep j a Ha) as (a' & Ha' & [-> | ->]).
  - exists a. repeat split; auto.
  - eexists. split; [exact Ha' |]. cbn.
    repeat split; auto.
    intros Hp. destruct a. cbn in *. now rewrite Hp.
Qed.

(** X12.  With a positive transport cost, every [check_conditions]
    call of [main.py] ends by appending a COST_SPIKE alert, because the
    call passes 1.15 times the transport cost against 1.1 times the same
    figure: the list it returns is longer than the list before the call,
    so it is never empty. *)
Theorem dashboard_always_reports_cost_spike
  (alerts_system : SmartAlerts) (tracker : InventoryTracker)
  (analyzer : DryIceAnalyzer) (kpis : KPIs)
  (now_stock now_demand now_cost : datetime) (ss rp : float64) :
  alert_types alerts_system = alert_types SmartAlerts_init ->
  safety_stock norm_ppf tracker = Ok ss ->
  reorder_point norm_ppf tracker = Ok rp ->
  0 < TRANSPORT_COST (constants analyzer) ->
  exists after earlier,
    dashboard_alerts norm_ppf str_number format_fixed alerts_system tracker
      analyzer kpis now_stock now_demand now_cost
    = (after, Return (alerts after)) /\
    alerts after =
      alerts alerts_system ++ earlier ++
      [pending_alert now_cost "COST_SPIKE"
         ("Cost spike detected: KSh "
            ++ format_fixed 2
                 (Fin (TRANSPORT_COST (constants analyzer) * 1.15))
            ++ " vs average KSh "
            ++ format_fixed 2 (Fin (TRANSPORT_COST (constants analyzer))))%string
         "LOW"] /\
    (List.length (alerts alerts_system) < List.length (alerts after))%nat.
Proof.
  intros Htypes Hs Hr HT. unfold dashboard_alerts.
  rewrite (check_conditions_by_rule alerts_system tracker _ _ _ _ _
             now_stock now_demand now_cost ss rp Htypes Hs Hr).
  cbv zeta. eexists.
  exists (stock_rule_alerts tracker ss rp now_stock
            ++ demand_rule_alerts str_number format_fixed (of_int 150) (avg_order_size kpis)
                 (std_order_size kpis) now_demand).
  split; [reflexivity |]. cbn [alerts].
  unfold cost_rule_alerts. cbn [fmul].
  replace (fgt (Fin (TRANSPORT_COST (constants analyzer) * 1.15))
               (Fin (TRANSPORT_COST (constants analyzer) * 1.1)))
    with true by (symmetry; apply flt_Fin; lra).
  split; [now rewrite <- !app_assoc |].
  rewrite !length_app. simpl. lia.
Qed.

(** X13.  A standard deviation of NaN switches the demand rule off:
    on a frame with fewer than two order rows, whose [std_order_size] is
    NaN, the [check_conditions] call of [main.py] appends no
    UNUSUAL_DEMAND alert, however far the demand of 150 kg is from the
    average order. *)
Theorem dashboard_demand_rule_off_on_short_frame
  (alerts_system : SmartAlerts) (tracker : InventoryTracker)
  (analyzer : DryIceAnalyzer) (kpis : KPIs)
  (now_stock now_demand now_cost : datetime) (ss rp : float64) :
  alert_types alerts_system = alert_types SmartAlerts_init ->
  safety_stock norm_ppf tracker = Ok ss ->
  reorder_point norm_ppf tracker = Ok rp ->
  calculate_kpis analyzer = Ok kpis ->
  (len (rows (df (data_loader analyzer))) < 2)%Z ->
  exists after,
    dashboard_alerts norm_ppf str_number format_fixed alerts_system tracker
      analyzer kpis now_stock now_demand now_cost
    = (after, Return (alerts after)) /\
    alerts after =
      alerts alerts_system
        ++ stock_rule_alerts tracker ss rp now_stock
        ++ cost_rule_alerts format_fixed
             (Fin (TRANSPORT_COST (constants analyzer) * 1.15))
             (Fin (TRANSPORT_COST (constants analyzer))) now_cost /\
    forall a, In a (alerts after) -> ~ In a (alerts alerts_system) ->
              n_type a <> "UNUSUAL_DEMAND"%string.
Proof.
  intros Htypes Hs Hr Hk Hlen. unfold dashboard_alerts.
  rewrite (check_conditions_by_rule alerts_system tracker _ _ _ _ _
             now_stock now_demand now_cost ss rp Htypes Hs Hr).
  cbv zeta. eexists. split; [reflexivity |]. cbn [alerts].
  assert (Hstd : std_order_size kpis = NaN).
  { destruct (calculate_kpis_returns analyzer) as (k & Hk' & _ & _ & Hstd & _).
    rewrite Hk in Hk'. injection Hk' as <-. rewrite Hstd.
    unfold series_std, column.
    replace (len (map Order_Quantity_kg (rows (df (data_loader analyzer)))))
      with (len (rows (df (data_loader analyzer))))
      by (unfold len; now rewrite length_map).
    apply Z.ltb_lt in Hlen. now rewrite Hlen. }
  assert (Hd : demand_rule_alerts str_number format_fixed (of_int 150) (avg_order_size kpis)
                 (std_order_size kpis) now_demand = []).
  { unfold demand_rule_alerts. rewrite Hstd. cbn [fmul of_int].
    unfold fgt. cbn [flt]. reflexivity. }
  rewrite Hd. cbn [app]. split; [reflexivity |].
  intros a Hin Hold.
  apply in_app_or in Hin. destruct Hin as [Hin | Hin]; [contradiction |].
  apply in_app_or in Hin. destruct Hin as [Hin | Hin].
  - unfold stock_rule_alerts in Hin.
    destruct (status_by_thresholds (current_stock tracker) ss rp);
      cbn [In] in Hin; try contradiction;
      (destruct Hin as [<- | Hin]; [discriminate | contradiction]).
  - unfold cost_rule_alerts in Hin.
    destruct (fgt (Fin (TRANSPORT_COST (constants analyzer) * 1.15)) _);
      cbn [In] in Hin; [| contradiction].
    destruct Hin as [<- | Hin]; [discriminate | contradiction].
Qed.

End AlertFacts.

Lemma single_row_transport_cost_positive :
  0 < TRANSPORT_COST (constants single_row_analyzer).
Proof. cbn. lra. Qed.

Lemma single_row_frame_short :
  (len (rows (df (data_loader single_row_analyzer))) < 2)%Z.
Proof. vm_compute. reflexivity. Qed.

Lemma check_conditions_appends_by_rule_witness :
  let after :=
    {| alerts :=
         alerts one_alert_system
           ++ stock_rule_alerts single_row_tracker (Fin 75)
                (Fin (eoq_4500 + 75)) 2%Z
           ++ demand_rule_alerts str_number_sample format_fixed_sample
                (of_int 150) (Fin 150) NaN 3%Z
           ++ cost_rule_alerts format_fixed_sample
                (Fin 2003.231) (Fin 1741.94) 4%Z;
       alert_types := alert_types one_alert_system |} in
  check_conditions norm_ppf_table str_number_sample format_fixed_sample
    one_alert_system single_row_tracker
    (of_int 150) (Fin 150) NaN (Fin 2003.231) (Fin 1741.94) 2%Z 3%Z 4%Z
  = (after, Return (alerts after)).
Proof.
  exact (check_conditions_appends_by_rule norm_ppf_table str_number_sample
           format_fixed_sample one_alert_system single_row_tracker
           (of_int 150) (Fin 150) NaN (Fin 2003.231) (Fin 1741.94)
           2%Z 3%Z 4%Z (Fin 75) (Fin (eoq_4500 + 75))
           eq_refl
           (calculate_safety_stock_single_row norm_ppf_table)
           reorder_point_single_row).
Defined.

Lemma dashboard_always_reports_cost_spike_witness :
  exists kpis after earlier,
    calculate_kpis single_row_analyzer = Ok kpis /\
    dashboard_alerts norm_ppf_table str_number_sample format_fixed_sample
      one_alert_system single_row_tracker single_row_analyzer kpis
      2%Z 3%Z 4%Z
    = (after, Return (alerts after)) /\
    alerts after =
      alerts one_alert_system ++ earlier ++
      [pending_alert 4%Z "COST_SPIKE"
         ("Cost spike detected: KSh "
            ++ format_fixed_sample 2
                 (Fin (TRANSPORT_COST (constants single_row_analyzer) * 1.15))
            ++ " vs average KSh "
            ++ format_fixed_sample 2
                 (Fin (TRANSPORT_COST (constants single_row_analyzer))))%string
         "LOW"] /\
    (List.length (alerts one_alert_system) < List.length (alerts after))%nat.
Proof.
  destruct (calculate_kpis_returns single_row_analyzer) as (kpis & Hk & _).
  destruct (dashboard_always_reports_cost_spike norm_ppf_table
              str_number_sample format_fixed_sample one_alert_system
              single_row_tracker single_row_analyzer kpis 2%Z 3%Z 4%Z
              (Fin 75) (Fin (eoq_4500 + 75))
              eq_refl
              (calculate_safety_stock_single_row norm_ppf_table)
              reorder_point_single_row
              single_row_transport_cost_positive)
    as (after & earlier & H).
  exists kpis, after, earlier. split; [exact Hk | exact H].
Defined.

Lemma dashboard_demand_rule_off_on_short_frame_witness :
  exists kpis after,
    calculate_kpis single_row_analyzer = Ok kpis /\
    dashboard_alerts norm_ppf_table str_number_sample format_fixed_sample
      one_alert_system single_row_tracker single_row_analyzer kpis
      2%Z 3%Z 4%Z
    = (after, Return (alerts after)) /\
    alerts after =
      alerts one_alert_system
        ++ stock_rule_alerts single_row_tracker (Fin 75)
             (Fin (eoq_4500 + 75)) 2%Z
        ++ cost_rule_alerts format_fixed_sample
             (Fin (TRANSPORT_COST (constants single_row_analyzer) * 1.15))
             (Fin (TRANSPORT_COST (constants single_row_analyzer))) 4%Z /\
    forall a, In a (alerts after) -> ~ In a (alerts one_alert_system) ->
              n_type a <> "UNUSUAL_DEMAND"%string.
Proof.
  destruct (calculate_kpis_returns single_row_analyzer) as (kpis & Hk & _).
  destruct (dashboard_demand_rule_off_on_short_frame norm_ppf_table
              str_number_sample format_fixed_sample one_alert_system
              single_row_tracker single_row_analyzer kpis 2%Z 3%Z 4%Z
              (Fin 75) (Fin (eoq_4500 + 75))
              eq_refl
              (calculate_safety_stock_single_row norm_ppf_table)
              reorder_point_single_row
              Hk
              single_row_frame_short)
    as (after & H).
  exists kpis, after. split; [exact Hk | exact H].
Defined.

(* ================================================================== *)
(** * Container maintenance *)

Lemma flt_fle_trans (a b : float64) (z : Z) :
  fle a b = true -> flt b (of_int z) = true -> flt a (of_int z) = true.
Proof.
  unfold of_int. intros H1 H2.
  destruct a as [x | | |]; destruct b as [y | | |];
    try discriminate; try reflexivity.
  apply fle_Fin in H1. apply flt_Fin in H2. apply flt_Fin. lra.
Qed.

(** A higher indicator never has a higher risk factor. *)
Lemma risk_factor_of_antitone (v v' : float64) :
  fle v v' = true -> risk_factor_of v' <= risk_factor_of v.
Proof.
  intros Hle. unfold risk_factor_of.
  destruct (flt v' (of_int 30)) eqn:E30.
  - rewrite (flt_fle_trans v v' 30 Hle E30). lra.
  - destruct (flt v (of_int 30)); [destruct (flt v' (of_int 60));
      [| destruct (flt v' (of_int 80))]; lra |].
    destruct (flt v' (of_int 60)) eqn:E60.
    + rewrite (flt_fle_trans v v' 60 Hle E60). lra.
    + destruct (flt v (of_int 60)); [destruct (flt v' (of_int 80)); lra |].
      destruct (flt v' (of_int 80)) eqn:E80.
      * rewrite (flt_fle_trans v v' 80 Hle E80). lra.
      * destruct (flt v (of_int 80)); lra.
Qed.

(** The prediction on a container with its four indicators and its
    identifier. *)
Lemma predict_container_failure_complete
  (container_data : dict pyval) (v1 v2 v3 v4 : float64) (id : pyval) :
  dict_get container_data "insulation_efficiency" = Some (PyNum v1) ->
  dict_get container_data "seal_integrity" = Some (PyNum v2) ->
  dict_get container_data "structural_condition" = Some (PyNum v3) ->
  dict_get container_data "usage_cycles" = Some (PyNum v4) ->
  dict_get container_data "id" = Some id ->
  let risk := 0 + risk_factor_of v1 * 0.3 + risk_factor_of v2 * 0.25
              + risk_factor_of v3 * 0.3 + risk_factor_of v4 * 0.15 in
  predict_container_failure PredictiveMaintenance_init container_data =
  Return {| container_id := id;
            risk_score := risk;
            failure_probability := calculate_failure_probability risk;
            estimated_life_remaining := calculate_remaining_life risk;
            maintenance_recommendations := generate_maintenance_plan risk |}.
Proof.
  intros H1 H2 H3 H4 Hid. cbv zeta.
  unfold predict_container_failure, PredictiveMaintenance_init,
    INVENTORY_PARAMETERS.
  cbn [container_health_indicators CONTAINER_HEALTH_INDICATORS
       accumulate_risk].
  unfold dict_item at 1. rewrite H1. cbn [obind calculate_risk_factor].
  unfold dict_item at 1. cbn [weights dict_get String.eqb Ascii.eqb Bool.eqb
                              obind].
  unfold dict_item at 1. rewrite H2. cbn [obind calculate_risk_factor].
  unfold dict_item at 1. cbn [weights dict_get String.eqb Ascii.eqb Bool.eqb
                              obind].
  unfold dict_item at 1. rewrite H3. cbn [obind calculate_risk_factor].
  unfold dict_item at 1. cbn [weights dict_get String.eqb Ascii.eqb Bool.eqb
                              obind].
  unfold dict_item at 1. rewrite H4. cbn [obind calculate_risk_factor].
  unfold dict_item at 1. cbn [weights dict_get String.eqb Ascii.eqb Bool.eqb
                              obind].
  unfold dict_item. rewrite Hid. reflexivity.
Qed.

Lemma failure_probability_monotone (r r' : R) :
  r <= r' ->
  calculate_failure_probability r <= calculate_failure_probability r'.
Proof.
  intros H. unfold calculate_failure_probability.
  destruct (Rlt_dec (r * 1.2) 0.95), (Rlt_dec (r' * 1.2) 0.95); lra.
Qed.

Lemma remaining_life_antitone (r r' : R) :
  r <= r' -> (calculate_remaining_life r' <= calculate_remaining_life r)%Z.
Proof.
  intros H. unfold calculate_remaining_life.
  destruct (Rlt_dec 0.8 r), (Rlt_dec 0.8 r'), (Rlt_dec 0.6 r),
    (Rlt_dec 0.6 r'), (Rlt_dec 0.4 r), (Rlt_dec 0.4 r');
    try lia; exfalso; lra.
Qed.

(** X14.  The remaining life and the maintenance plan always name the
    same tier of the risk score: 7 days with the immediate plan above
    0.8, 30 days with the weekly plan above 0.6, 90 days with the
    monthly plan above 0.4, and 180 days with routine maintenance
    otherwise. *)
Theorem life_and_plan_agree (risk : R) :
  (0.8 < risk /\
   calculate_remaining_life risk = 7%Z /\
   generate_maintenance_plan risk =
     ["Immediate inspection"; "Pressure testing"; "Seal replacement"]%string)
  \/
  (0.6 < risk <= 0.8 /\
   calculate_remaining_life risk = 30%Z /\
   generate_maintenance_plan risk =
     ["Weekly inspection"; "Thermal imaging"; "Cleaning"]%string)
  \/
  (0.4 < risk <= 0.6 /\
   calculate_remaining_life risk = 90%Z /\
   generate_maintenance_plan risk =
     ["Monthly inspection"; "Visual check"]%string)
  \/
  (risk <= 0.4 /\
   calculate_remaining_life risk = 180%Z /\
   generate_maintenance_plan risk =
     ["Routine maintenance in 6 months"]%string).
Proof.
  unfold calculate_remaining_life, generate_maintenance_plan.
  destruct (Rlt_dec 0.8 risk); [left; auto |].
  destruct (Rlt_dec 0.6 risk); [right; left; repeat split; auto; lra |].
  destruct (Rlt_dec 0.4 risk);
    [right; right; left; repeat split; auto; lra |].
  right; right; right. repeat split; auto. lra.
Qed.

Section MaintenanceBinary64.

Import PrimFloat.
#[local] Open Scope float_scope.

Lemma risk_factor_of_cases (v : float) :
  Binary64.risk_factor_of v = 1.0 \/ Binary64.risk_factor_of v = 0.6 \/
  Binary64.risk_factor_of v = 0.3 \/ Binary64.risk_factor_of v = 0.1.
Proof.
  unfold Binary64.risk_factor_of.
  destruct (v <? 30); [now left |].
  destruct (v <? 60); [now right; left |].
  destruct (v <? 80); [now right; right; left | now right; right; right].
Qed.

(** The prediction in binary64 on a container with its four indicators
    and its identifier: the weighted factors are added from 0 in the
    order of the configuration. *)
Lemma predict_container_failure_binary64
  (container_data : dict Binary64.pyval) (v1 v2 v3 v4 : float)
  (id : Binary64.pyval) :
  dict_get container_data "insulation_efficiency"
    = Some (Binary64.PyNum v1) ->
  dict_get container_data "seal_integrity" = Some (Binary64.PyNum v2) ->
  dict_get container_data "structural_condition"
    = Some (Binary64.PyNum v3) ->
  dict_get container_data "usage_cycles" = Some (Binary64.PyNum v4) ->
  dict_get container_data "id" = Some id ->
  let risk := 0 + Binary64.risk_factor_of v1 * 0.3
              + Binary64.risk_factor_of v2 * 0.25
              + Binary64.risk_factor_of v3 * 0.3
              + Binary64.risk_factor_of v4 * 0.15 in
  Binary64.predict_container_failure PredictiveMaintenance_init
    container_data =
  Return {| Binary64.container_id := id;
            Binary64.risk_score := risk;
            Binary64.failure_probability :=
              Binary64.calculate_failure_probability risk;
            Binary64.estimated_life_remaining :=
              Binary64.calculate_remaining_life risk;
            Binary64.maintenance_recommendations :=
              Binary64.generate_maintenance_plan risk |}.
Proof.
  intros H1 H2 H3 H4 Hid. cbv zeta.
  unfold Binary64.predict_container_failure, PredictiveMaintenance_init,
    INVENTORY_PARAMETERS.
  cbn [container_health_indicators CONTAINER_HEALTH_INDICATORS
       Binary64.accumulate_risk].
  unfold dict_item at 1. rewrite H1.
  cbn [obind Binary64.calculate_risk_factor].
  unfold dict_item at 1.
  cbn [Binary64.weights dict_get String.eqb Ascii.eqb Bool.eqb obind].
  unfold dict_item at 1. rewrite H2.
  cbn [obind Binary64.calculate_risk_factor].
  unfold dict_item at 1.
  cbn [Binary64.weights dict_get String.eqb Ascii.eqb Bool.eqb obind].
  unfold dict_item at 1. rewrite H3.
  cbn [obind Binary64.calculate_risk_factor].
  unfold dict_item at 1.
  cbn [Binary64.weights dict_get String.eqb Ascii.eqb Bool.eqb obind].
  unfold dict_item at 1. rewrite H4.
  cbn [obind Binary64.calculate_risk_factor].
  unfold dict_item at 1.
  cbn [Binary64.weights dict_get String.eqb Ascii.eqb Bool.eqb obind].
  unfold dict_item. rewrite Hid. reflexivity.
Qed.

(** X15.  In binary64, for every container with its four indicators
    as numbers and an identifier, the prediction is returned with a risk
    score between 0.09999999999999999 and 1 and a failure probability
    between 0.11999999999999998 and 0.95: the sum of the four weighted
    factors of 0.1 rounds to just below 0.1, so the two lower bounds are
    not 0.1 and 0.12. *)
Theorem prediction_bounds
  (container_data : dict Binary64.pyval) (v1 v2 v3 v4 : float)
  (id : Binary64.pyval) :
  dict_get container_data "insulation_efficiency"
    = Some (Binary64.PyNum v1) ->
  dict_get container_data "seal_integrity" = Some (Binary64.PyNum v2) ->
  dict_get container_data "structural_condition"
    = Some (Binary64.PyNum v3) ->
  dict_get container_data "usage_cycles" = Some (Binary64.PyNum v4) ->
  dict_get container_data "id" = Some id ->
  exists p,
    Binary64.predict_container_failure PredictiveMaintenance_init
      container_data = Return p /\
    Binary64.container_id p = id /\
    (0.09999999999999999 <=? Binary64.risk_score p) = true /\
    (Binary64.risk_score p <=? 1) = true /\
    (0.11999999999999998 <=? Binary64.failure_probability p) = true /\
    (Binary64.failure_probability p <=? 0.95) = true.
Proof.
  intros H1 H2 H3 H4 Hid.
  rewrite (predict_container_failure_binary64 container_data v1 v2 v3 v4 id
             H1 H2 H3 H4 Hid).
  eexists. split; [reflexivity |].
  cbn [Binary64.container_id Binary64.risk_score
       Binary64.failure_probability].
  split; [reflexivity |].
  destruct (risk_factor_of_cases v1) as [-> | [-> | [-> | ->]]];
    destruct (risk_factor_of_cases v2) as [-> | [-> | [-> | ->]]];
    destruct (risk_factor_of_cases v3) as [-> | [-> | [-> | ->]]];
    destruct (risk_factor_of_cases v4) as [-> | [-> | [-> | ->]]];
    vm_compute; repeat split.
Qed.

(** The two lower bounds are reached, on the container whose four
    indicators are all at 80 or above. *)
Lemma prediction_bounds_witness :
  exists p,
    Binary64.predict_container_failure PredictiveMaintenance_init
      Binary64.sound_container = Return p /\
    Binary64.container_id p = Binary64.PyStr "CTN-002" /\
    (0.09999999999999999 <=? Binary64.risk_score p) = true /\
    (Binary64.risk_score p <=? 1) = true /\
    (0.11999999999999998 <=? Binary64.failure_probability p) = true /\
    (Binary64.failure_probability p <=? 0.95) = true.
Proof.
  exact (prediction_bounds Binary64.sound_container 90 85 85 80
           (Binary64.PyStr "CTN-002")
           eq_refl eq_refl eq_refl eq_refl eq_refl).
Defined.

Example prediction_sound_container :
  exists p,
    Binary64.predict_container_failure PredictiveMaintenance_init
      Binary64.sound_container = Return p /\
    Binary64.risk_score p = 0.09999999999999999 /\
    Binary64.failure_probability p = 0.11999999999999998 /\
    (Binary64.risk_score p <? 0.1) = true /\
    (Binary64.failure_probability p <? 0.12) = true.
Proof. eexists. repeat split. Qed.

End MaintenanceBinary64.

(** X16.  Of two containers, the one whose four indicators are all at
    least as high has a risk score and a failure probability that are
    not higher and a remaining life that is not shorter. *)
Theorem better_indicators_lower_risk
  (worse better : dict pyval) (v1 v2 v3 v4 w1 w2 w3 w4 : float64)
  (id id' : pyval) :
  dict_get worse "insulation_efficiency" = Some (PyNum v1) ->
  dict_get worse "seal_integrity" = Some (PyNum v2) ->
  dict_get worse "structural_condition" = Some (PyNum v3) ->
  dict_get worse "usage_cycles" = Some (PyNum v4) ->
  dict_get worse "id" = Some id ->
  dict_get better "insulation_efficiency" = Some (PyNum w1) ->
  dict_get better "seal_integrity" = Some (PyNum w2) ->
  dict_get better "structural_condition" = Some (PyNum w3) ->
  dict_get better "usage_cycles" = Some (PyNum w4) ->
  dict_get better "id" = Some id' ->
  fle v1 w1 = true -> fle v2 w2 = true ->
  fle v3 w3 = true -> fle v4 w4 = true ->
  exists p p',
    predict_container_failure PredictiveMaintenance_init worse = Return p /\
    predict_container_failure PredictiveMaintenance_init better = Return p' /\
    risk_score p' <= risk_score p /\
    failure_probability p' <= failure_probability p /\
    (estimated_life_remaining p <= estimated_life_remaining p')%Z.
Proof.
  intros H1 H2 H3 H4 Hid G1 G2 G3 G4 Gid L1 L2 L3 L4.
  rewrite (predict_container_failure_complete worse v1 v2 v3 v4 id
             H1 H2 H3 H4 Hid).
  rewrite (predict_container_failure_complete better w1 w2 w3 w4 id'
             G1 G2 G3 G4 Gid).
  eexists. eexists. split; [reflexivity |]. split; [reflexivity |].
  cbn [risk_score failure_probability estimated_life_remaining].
  pose proof (risk_factor_of_antitone v1 w1 L1).
  pose proof (risk_factor_of_antitone v2 w2 L2).
  pose proof (risk_factor_of_antitone v3 w3 L3).
  pose proof (risk_factor_of_antitone v4 w4 L4).
  assert (Hr : 0 + risk_factor_of w1 * 0.3 + risk_factor_of w2 * 0.25
               + risk_factor_of w3 * 0.3 + risk_factor_of w4 * 0.15
               <= 0 + risk_factor_of v1 * 0.3 + risk_factor_of v2 * 0.25
                  + risk_factor_of v3 * 0.3 + risk_factor_of v4 * 0.15)
    by lra.
  split; [exact Hr |].
  split; [apply failure_probability_monotone; exact Hr
         | apply remaining_life_antitone; exact Hr].
Qed.

Lemma fle_of_int (a b : Z) : (a <= b)%Z -> fle (of_int a) (of_int b) = true.
Proof. intros H. apply fle_Fin. now apply IZR_le. Qed.

Lemma better_indicators_lower_risk_witness :
  exists p p',
    predict_container_failure PredictiveMaintenance_init mock_container
      = Return p /\
    predict_container_failure PredictiveMaintenance_init sound_container
      = Return p' /\
    risk_score p' <= risk_score p /\
    failure_probability p' <= failure_probability p /\
    (estimated_life_remaining p <= estimated_life_remaining p')%Z.
Proof.
  apply (better_indicators_lower_risk mock_container sound_container
           (of_int 75) (of_int 65) (of_int 85) (of_int 42)
           (of_int 90) (of_int 85) (of_int 85) (of_int 80)
           (PyStr "CTN-001") (PyStr "CTN-002")
           eq_refl eq_refl eq_refl eq_refl eq_refl
           eq_refl eq_refl eq_refl eq_refl eq_refl);
    apply fle_of_int; lia.
Defined.

(** X17.  A container without one of the four indicators makes the
    prediction raise [KeyError] for the first indicator, in the order
    of the configuration, that is missing; a container with all four
    but no identifier raises [KeyError] for ["id"], after the risk score
    is computed. *)
Theorem prediction_missing_key (container_data : dict pyval) :
  (dict_get container_data "insulation_efficiency" = None ->
   predict_container_failure PredictiveMaintenance_init container_data
     = Throw (KeyError "insulation_efficiency")) /\
  (forall v1,
     dict_get container_data "insulation_efficiency" = Some (PyNum v1) ->
     dict_get container_data "seal_integrity" = None ->
     predict_container_failure PredictiveMaintenance_init container_data
       = Throw (KeyError "seal_integrity")) /\
  (forall v1 v2,
     dict_get container_data "insulation_efficiency" = Some (PyNum v1) ->
     dict_get container_data "seal_integrity" = Some (PyNum v2) ->
     dict_get container_data "structural_condition" = None ->
     predict_container_failure PredictiveMaintenance_init container_data
       = Throw (KeyError "structural_condition")) /\
  (forall v1 v2 v3,
     dict_get container_data "insulation_efficiency" = Some (PyNum v1) ->
     dict_get container_data "seal_integrity" = Some (PyNum v2) ->
     dict_get container_data "structural_condition" = Some (PyNum v3) ->
     dict_get container_data "usage_cycles" = None ->
     predict_container_failure PredictiveMaintenance_init container_data
       = Throw (KeyError "usage_cycles")) /\
  (forall v1 v2 v3 v4,
     dict_get container_data "insulation_efficiency" = Some (PyNum v1) ->
     dict_get container_data "seal_integrity" = Some (PyNum v2) ->
     dict_get container_data "structural_condition" = Some (PyNum v3) ->
     dict_get container_data "usage_cycles" = Some (PyNum v4) ->
     dict_get container_data "id" = None ->
     predict_container_failure PredictiveMaintenance_init container_data
       = Throw (KeyError "id")).
Proof.
  unfold predict_container_failure, PredictiveMaintenance_init,
    INVENTORY_PARAMETERS.
  cbn [container_health_indicators CONTAINER_HEALTH_INDICATORS
       accumulate_risk].
  repeat split; intros;
    repeat (unfold dict_item at 1;
            match goal with
            | H : dict_get container_data ?k = _
              |- context [dict_get container_data ?k] => rewrite H
            | |- context [dict_get weights _] =>
                cbn [weights dict_get String.eqb Ascii.eqb Bool.eqb]
            end;
            cbn [obind calculate_risk_factor]);
    reflexivity.
Qed.

Lemma prediction_missing_key_witness :
  predict_container_failure PredictiveMaintenance_init unsealed_container
    = Throw (KeyError "seal_integrity").
Proof.
  exact (proj1 (proj2 (prediction_missing_key unsealed_container))
           (of_int 75) eq_refl eq_refl).
Defined.

(* ================================================================== *)
(** * External integrations *)

Lemma dict_get_set_same {V : Type} (d : dict V) (k : string) (v : V) :
  dict_get (dict_set d k v) k = Some v.
Proof.
  induction d as [| [k' v'] d IH]; simpl.
  - now rewrite String.eqb_refl.
  - destruct (String.eqb k k') eqn:E; simpl; rewrite E; auto.
Qed.

Lemma dict_get_set_other {V : Type} (d : dict V) (k k' : string) (v : V) :
  k' <> k -> dict_get (dict_set d k v) k' = dict_get d k'.
Proof.
  intros Hne. induction d as [| [k0 v0] d IH]; simpl.
  - apply String.eqb_neq in Hne. now rewrite Hne.
  - destruct (String.eqb k k0) eqn:E; simpl.
    + apply String.eqb_eq in E. subst k0.
      apply String.eqb_neq in Hne. now rewrite Hne.
    + destruct (String.eqb k' k0); auto.
Qed.

Section IntegrationFacts.

Variable Credentials : Type.

(** X18.  [setup_api_integration] never returns: building its result
    raises [NameError] for [datetime], which the module does not import.
    The integration is stored all the same, as ACTIVE, with the
    connection name and the credentials, no other integration is
    touched, and [sync_data] succeeds for it afterwards. *)
Theorem setup_api_integration_raises_after_storing
  (self : SystemIntegrations Credentials) (system_type : string)
  (creds : Credentials) :
  snd (setup_api_integration Credentials self system_type creds)
    = Throw (NameError "datetime") /\
  dict_get
    (active_integrations Credentials
       (fst (setup_api_integration Credentials self system_type creds)))
    system_type
  = Some {| connection := (system_type ++ "_connection")%string;
            credentials := creds;
            integration_status := "ACTIVE" |} /\
  (forall other : string,
     other <> system_type ->
     dict_get
       (active_integrations Credentials
          (fst (setup_api_integration Credentials self system_type creds)))
       other
     = dict_get (active_integrations Credentials self) other) /\
  sync_data Credentials
    (fst (setup_api_integration Credentials self system_type creds))
    system_type
  = SyncSuccess "success" 42.
Proof.
  unfold setup_api_integration, validate_credentials, create_connection,
    setup_sync_schedule, sync_data, dict_contains.
  cbn [negb fst snd obind active_integrations].
  split; [reflexivity |].
  split; [apply dict_get_set_same |].
  split; [intros other Hne; now apply dict_get_set_other |].
  now rewrite dict_get_set_same.
Qed.

Lemma setup_api_integration_contains
  (self : SystemIntegrations Credentials) (system_type : string)
  (creds : Credentials) (k : string) :
  dict_contains
    (active_integrations Credentials
       (fst (setup_api_integration Credentials self system_type creds))) k
  = dict_contains (active_integrations Credentials self) k
    || String.eqb k system_type.
Proof.
  unfold setup_api_integration, validate_credentials, dict_contains.
  cbn [negb fst active_integrations].
  destruct (String.eqb k system_type) eqn:E.
  - apply String.eqb_eq in E. subst k. rewrite dict_get_set_same.
    now rewrite orb_true_r.
  - apply String.eqb_neq in E. rewrite dict_get_set_other by exact E.
    now rewrite orb_false_r.
Qed.

Lemma setup_all_contains (calls : list (string * Credentials)) :
  forall (self : SystemIntegrations Credentials) (k : string),
    dict_contains (active_integrations Credentials (setup_all Credentials self calls)) k
    = dict_contains (active_integrations Credentials self) k
      || existsb (fun c => String.eqb k (fst c)) calls.
Proof.
  induction calls as [| [t c] calls IH]; intros self k.
  - cbn. now rewrite orb_false_r.
  - change (setup_all Credentials self ((t, c) :: calls))
      with (setup_all Credentials (fst (setup_api_integration Credentials self t c))
              calls).
    rewrite IH, setup_api_integration_contains. cbn [existsb fst].
    now rewrite orb_assoc.
Qed.

(** X19.  After any run of [setup_api_integration] calls on a new
    object, [sync_data] reports 42 synced records exactly for the system
    types that were set up, whether or not they are among the supported
    ones, and the error "Integration not set up" for every other type;
    on a new object every type gets the error. *)
Theorem sync_data_succeeds_iff_set_up
  (calls : list (string * Credentials)) (system_type : string) :
  (In system_type (map fst calls) ->
   sync_data Credentials (setup_all Credentials (SystemIntegrations_init Credentials) calls)
             system_type
   = SyncSuccess "success" 42) /\
  (~ In system_type (map fst calls) ->
   sync_data Credentials (setup_all Credentials (SystemIntegrations_init Credentials) calls)
             system_type
   = SyncError "error" "Integration not set up") /\
  sync_data Credentials (SystemIntegrations_init Credentials) system_type
  = SyncError "error" "Integration not set up".
Proof.
  unfold sync_data. rewrite setup_all_contains. cbn [orb].
  change (dict_contains
            (active_integrations Credentials
               (SystemIntegrations_init Credentials)) system_type)
    with false. cbn [orb negb].
  split; [| split; [| reflexivity]].
  - intros Hin.
    replace (existsb (fun c => String.eqb system_type (fst c)) calls)
      with true; [reflexivity |].
    symmetry. apply existsb_exists. apply in_map_iff in Hin.
    destruct Hin as (c & <- & Hc). exists c. split; [exact Hc |].
    apply String.eqb_refl.
  - intros Hnot.
    replace (existsb (fun c => String.eqb system_type (fst c)) calls)
      with false; [reflexivity |].
    symmetry. apply not_true_is_false. intros H.
    apply existsb_exists in H. destruct H as (c & Hc & He).
    apply String.eqb_eq in He. apply Hnot. subst. now apply in_map.
Qed.

End IntegrationFacts.

Lemma sync_data_succeeds_iff_set_up_witness :
  sync_data string
    (setup_all string (SystemIntegrations_init string)
       [("SAP", "key-1"); ("ORACLE", "key-2")]%string)
    "ORACLE"
  = SyncSuccess "success" 42.
Proof.
  apply (proj1 (sync_data_succeeds_iff_set_up string
                  [("SAP", "key-1"); ("ORACLE", "key-2")]%string "ORACLE")).
  cbn. right. left. reflexivity.
Defined.

(* ================================================================== *)
(** * Versioned report files *)

Section VersionedFileFacts.

Variable path_exists : string -> bool.
Variable splitext : string -> string * string.
Variable dirname : string -> string.
Variable makedirs : string -> outcome unit.

(** The loop stops at the first version, from the one it starts at,
    whose file name is free, as soon as it is given that many rounds. *)
Lemma find_free_version_least (name ext : string) (n : nat) :
  forall (start : Z) (fuel : nat),
    path_exists (versioned_name name ext (start + Z.of_nat n)) = false ->
    (forall u, (start <= u < start + Z.of_nat n)%Z ->
               path_exists (versioned_name name ext u) = true) ->
    (n < fuel)%nat ->
    find_free_version path_exists fuel name ext start =
    Some (versioned_name name ext (start + Z.of_nat n)).
Proof.
  induction n as [| n IH]; intros start fuel Hfree Hbusy Hfuel.
  - destruct fuel as [| fuel]; [lia |]. cbn [find_free_version].
    replace (start + Z.of_nat 0)%Z with start in * by lia.
    now rewrite Hfree.
  - destruct fuel as [| fuel]; [lia |]. cbn [find_free_version].
    rewrite (Hbusy start) by lia. cbn [negb].
    replace (start + Z.of_nat (S n))%Z with (start + 1 + Z.of_nat n)%Z
      in * by lia.
    apply IH; [exact Hfree | | lia].
    intros u Hu. apply Hbusy. lia.
Qed.

(** While every version is taken the loop does not stop. *)
Lemma find_free_version_all_taken (name ext : string) (fuel : nat) :
  forall start : Z,
    (forall u, (start <= u)%Z ->
               path_exists (versioned_name name ext u) = true) ->
    find_free_version path_exists fuel name ext start = None.
Proof.
  induction fuel as [| fuel IH]; intros start Hbusy; [reflexivity |].
  cbn [find_free_version]. rewrite (Hbusy start) by lia. cbn [negb].
  apply IH. intros u Hu. apply Hbusy. lia.
Qed.

(** X20.  [create_versioned_file] returns the base name when no file
    of that name exists.  When one exists it returns the name with the
    least version number, from 1 up, whose file does not exist, as soon
    as the loop is given that many rounds; and while every version
    exists the loop never ends.  The name it returns is always a free
    one.  (The file system does not change while the loop runs, and
    creating the directory of the name afterwards is taken to succeed.) *)
Theorem create_versioned_file_least_free
  (base_filename name ext : string) :
  splitext base_filename = (name, ext) ->
  (forall filename, dirname filename <> ""%string ->
                    makedirs (dirname filename) = Return tt) ->
  (path_exists base_filename = false ->
   forall fuel,
     create_versioned_file path_exists splitext dirname makedirs fuel
       base_filename = Some (Return base_filename)) /\
  (forall version : Z,
     path_exists base_filename = true ->
     (1 <= version)%Z ->
     path_exists (versioned_name name ext version) = false ->
     (forall u, (1 <= u < version)%Z ->
                path_exists (versioned_name name ext u) = true) ->
     forall fuel, (Z.to_nat version <= fuel)%nat ->
       create_versioned_file path_exists splitext dirname makedirs fuel
         base_filename = Some (Return (versioned_name name ext version))) /\
  (path_exists base_filename = true ->
   (forall u, (1 <= u)%Z ->
              path_exists (versioned_name name ext u) = true) ->
   forall fuel,
     create_versioned_file path_exists splitext dirname makedirs fuel
       base_filename = None) /\
  (forall fuel filename,
     create_versioned_file path_exists splitext dirname makedirs fuel
       base_filename = Some (Return filename) ->
     path_exists filename = false).
Proof.
  intros Hsplit Hmk.
  assert (Hdir : forall filename,
            (if String.eqb (dirname filename) ""
             then Return filename
             else (_ <~ makedirs (dirname filename) ;; Return filename))
            = Return filename).
  { intros filename. destruct (String.eqb (dirname filename) "") eqn:E;
      [reflexivity |].
    apply String.eqb_neq in E. now rewrite (Hmk filename E). }
  unfold create_versioned_file. rewrite Hsplit.
  split; [| split; [| split]].
  - intros Hfree fuel. rewrite Hfree. cbn [negb]. now rewrite Hdir.
  - intros version Hbase Hpos Hfree Hbusy fuel Hfuel.
    rewrite Hbase. cbn [negb].
    rewrite (find_free_version_least name ext (Z.to_nat (version - 1)) 1 fuel).
    + replace (1 + Z.of_nat (Z.to_nat (version - 1)))%Z with version by lia.
      now rewrite Hdir.
    + replace (1 + Z.of_nat (Z.to_nat (version - 1)))%Z with version by lia.
      exact Hfree.
    + intros u Hu. apply Hbusy. lia.
    + lia.
  - intros Hbase Hbusy fuel. rewrite Hbase. cbn [negb].
    now rewrite (find_free_version_all_taken name ext fuel 1 Hbusy).
  - intros fuel filename.
    destruct (path_exists base_filename) eqn:Hbase; cbn [negb].
    + destruct (find_free_version path_exists fuel name ext 1) as [f |] eqn:Hf;
        [| discriminate].
      rewrite Hdir. intros H. injection H as <-.
      clear - Hf. revert Hf. generalize 1%Z.
      induction fuel as [| fuel IH]; intros start Hf; [discriminate |].
      cbn [find_free_version] in Hf.
      destruct (path_exists (versioned_name name ext start)) eqn:E;
        cbn [negb] in Hf.
      * exact (IH _ Hf).
      * injection Hf as <-. exact E.
    + rewrite Hdir. intros H. injection H as <-. exact Hbase.
Qed.

End VersionedFileFacts.

Lemma create_versioned_file_least_free_witness :
  create_versioned_file report_exists report_splitext report_dirname
    report_makedirs 2 "reports/kpi.xlsx"
  = Some (Return (versioned_name "reports/kpi" ".xlsx" 2)).
Proof.
  apply (proj1 (proj2 (create_versioned_file_least_free
                         report_exists report_splitext report_dirname
                         report_makedirs "reports/kpi.xlsx" "reports/kpi"
                         ".xlsx" eq_refl (fun _ _ => eq_refl)))
           2%Z).
  - reflexivity.
  - lia.
  - reflexivity.
  - intros u Hu. assert (u = 1%Z) as -> by lia. reflexivity.
  - simpl. lia.
Defined.

(* ================================================================== *)
(** * The loader and the KPIs of a loaded frame *)

Lemma np_ceil_bounds (x : R) : x <= np_ceil x < x + 1.
Proof.
  unfold np_ceil. destruct (archimed x) as (Hgt & Hle).
  destruct (Req_dec_T (IZR (up x) - 1) x) as [E | E]; lra.
Qed.

Lemma Rsum_map_le {A : Type} (f g : A -> R) (l : list A) :
  (forall a, In a l -> g a <= f a) ->
  Rsum (map g l) <= Rsum (map f l).
Proof.
  induction l as [| a l IH]; intros H; simpl; [lra |].
  pose proof (H a (or_introl eq_refl)).
  assert (Rsum (map g l) <= Rsum (map f l))
    by (apply IH; intros b Hb; apply H; now right).
  lra.
Qed.

Lemma Rsum_map_scale {A : Type} (f g : A -> R) (c : R) (l : list A) :
  (forall a, In a l -> g a = f a * c) ->
  Rsum (map g l) = Rsum (map f l) * c.
Proof.
  induction l as [| a l IH]; intros H; simpl; [lra |].
  rewrite (H a (or_introl eq_refl)), IH; [lra |].
  intros b Hb. apply H. now right.
Qed.

(** The columns of a processed row. *)
Lemma process_orders_row (csv : list CsvRow) (r : Order) :
  In r (map loaded_order (process_orders csv)) ->
  (WINDOW_START <= Date r <= WINDOW_END)%Z /\
  Containers_Used r = np_ceil (Order_Quantity_kg r / 150) /\
  Total_Cost r = Order_Quantity_kg r * 146.55.
Proof.
  unfold process_orders. rewrite map_map. cbn [loaded_order].
  intros Hin. apply in_map_iff in Hin. destruct Hin as (c & <- & Hc).
  apply filter_In in Hc. destruct Hc as (_ & Hw).
  apply andb_true_iff in Hw. destruct Hw as (H1 & H2).
  apply Z.leb_le in H1. apply Z.leb_le in H2.
  cbn [Date Containers_Used Total_Cost Order_Quantity_kg].
  split; [lia |]. split; reflexivity.
Qed.

Lemma load_orders_stores_row (csv : list CsvRow) (d : DataFrame) (r : Order) :
  load_orders_stores csv d -> In r (rows d) ->
  (WINDOW_START <= Date r <= WINDOW_END)%Z /\
  Containers_Used r = np_ceil (Order_Quantity_kg r / 150) /\
  Total_Cost r = Order_Quantity_kg r * 146.55.
Proof.
  intros (Hperm & _) Hin. apply process_orders_row with (csv := csv).
  apply Permutation_sym in Hperm. exact (Permutation_in r Hperm Hin).
Qed.

Lemma date_bounds (d : DataFrame) (lo hi : Z) :
  (forall r, In r (rows d) -> (lo <= Date r <= hi)%Z) ->
  (lo <= date_min d)%Z /\ (date_max d <= hi)%Z.
Proof.
  intros H. unfold date_min, date_max, rows in *.
  assert (H0 : (lo <= Date (first_row d) <= hi)%Z)
    by (apply H; now left).
  assert (Hl : forall l, (forall r, In r l -> (lo <= Date r <= hi)%Z) ->
             (lo <= fold_right Z.min (Date (first_row d)) (map Date l))%Z /\
             (fold_right Z.max (Date (first_row d)) (map Date l) <= hi)%Z).
  { induction l as [| a l IH]; intros Hall; simpl; [lia |].
    pose proof (Hall a (or_introl eq_refl)).
    destruct IH as (I1 & I2); [intros r Hr; apply Hall; now right |]. lia. }
  apply Hl. intros r Hr. apply H. now right.
Qed.

(** X21.  Every row of a frame the loader stores lies inside the
    analysis window from 2024-07-01 to 2025-06-30, so the frame spans at
    most 364 days; and each row has the least whole number of 150 kg
    containers that holds its quantity and a total cost of 146.55 per
    kg. *)
Theorem loaded_frame_within_window (csv : list CsvRow) (d : DataFrame) :
  load_orders_stores csv d ->
  (forall r, In r (rows d) ->
     (WINDOW_START <= Date r <= WINDOW_END)%Z /\
     (exists n : Z, Containers_Used r = IZR n) /\
     (Containers_Used r - 1) * 150 < Order_Quantity_kg r
       <= Containers_Used r * 150 /\
     Total_Cost r = Order_Quantity_kg r * 146.55) /\
  (0 <= time_span_days d <= 364)%Z.
Proof.
  intros Hload. split.
  - intros r Hr.
    destruct (load_orders_stores_row csv d r Hload Hr) as (Hw & Hc & Ht).
    split; [exact Hw |]. split; [| split; [| exact Ht]].
    + rewrite Hc. unfold np_ceil.
      destruct (Req_dec_T _ _) as [E | E].
      * exists (up (Order_Quantity_kg r / 150) - 1)%Z.
        rewrite minus_IZR. lra.
      * eexists. reflexivity.
    + rewrite Hc.
      pose proof (np_ceil_bounds (Order_Quantity_kg r / 150)). lra.
  - destruct (date_bounds d WINDOW_START WINDOW_END) as (H1 & H2).
    + intros r Hr. apply (load_orders_stores_row csv d r Hload Hr).
    + pose proof (time_span_days_nonneg d).
      unfold time_span_days, WINDOW_START, WINDOW_END in *. lia.
Qed.

(** The container and cost figures [calculate_kpis] returns. *)
Lemma calculate_kpis_cost_fields (self : DryIceAnalyzer) :
  exists k, calculate_kpis self = Ok k /\
    container_utilization k =
      fdiv (Fin (Rsum (column Order_Quantity_kg (df (data_loader self)))))
           (Fin (Rsum (column Containers_Used (df (data_loader self)))
                 * IZR (CONTAINER_SIZE (constants self)))) /\
    total_cost k = Fin (Rsum (column Total_Cost (df (data_loader self)))) /\
    avg_cost_per_order k =
      Fin (Rmean (column Total_Cost (df (data_loader self)))).
Proof.
  unfold calculate_kpis.
  set (d := df (data_loader self)).
  destruct (0 <? time_span_days d)%Z eqn:Hspan.
  - apply Z.ltb_lt in Hspan. unfold py_truediv.
    destruct (time_span_days d =? 0)%Z eqn:Hz;
      [apply Z.eqb_eq in Hz; lia |].
    cbn [bind]. eexists. split; [reflexivity |].
    cbn [container_utilization total_cost avg_cost_per_order].
    repeat split.
  - cbn [bind]. eexists. split; [reflexivity |].
    cbn [container_utilization total_cost avg_cost_per_order].
    repeat split.
Qed.

(** X22.  On a frame the loader stores in which no quantity is
    negative and whose total volume is positive and below 2^53 kg, the
    container utilization [calculate_kpis] reports is a number above 0
    and at most 1: the containers counted always hold the quantity
    ordered.  (Below 2^53 the 64-bit sum of a column of whole numbers
    does not wrap, and whole numbers of kg and of containers are exact
    in binary64.) *)
Theorem loaded_frame_utilization (csv : list CsvRow) (dl : DataLoader) :
  load_orders_stores csv (df dl) ->
  (forall r, In r (rows (df dl)) -> 0 <= Order_Quantity_kg r) ->
  0 < Rsum (column Order_Quantity_kg (df dl)) < IZR (2 ^ 53) ->
  exists k u,
    calculate_kpis (DryIceAnalyzer_init dl) = Ok k /\
    container_utilization k = Fin u /\
    0 < u <= 1.
Proof.
  intros Hload _ (Hpos & _).
  destruct (calculate_kpis_cost_fields (DryIceAnalyzer_init dl))
    as (k & Hk & Hu & _).
  cbn [data_loader constants DryIceAnalyzer_init CONTAINER_SIZE
       INVENTORY_PARAMETERS] in Hu.
  assert (Hcap : Rsum (column Order_Quantity_kg (df dl))
                 <= Rsum (column Containers_Used (df dl)) * 150).
  { unfold column.
    rewrite <- (Rsum_map_scale Containers_Used
                  (fun r => Containers_Used r * 150) 150 (rows (df dl)))
      by reflexivity.
    apply Rsum_map_le. intros r Hr.
    destruct (load_orders_stores_row csv (df dl) r Hload Hr) as (_ & Hc & _).
    rewrite Hc. pose proof (np_ceil_bounds (Order_Quantity_kg r / 150)).
    lra. }
  exists k. eexists. split; [exact Hk |].
  rewrite Hu, fdiv_Fin by lra. split; [reflexivity |].
  set (q := Rsum (column Order_Quantity_kg (df dl))) in *.
  set (c := Rsum (column Containers_Used (df dl)) * 150) in *.
  assert (Hc : 0 < c) by lra.
  assert (Hi : 0 < / c) by (apply Rinv_0_lt_compat; exact Hc).
  split.
  - apply Rmult_lt_0_compat; assumption.
  - unfold Rdiv. replace 1 with (c * / c) by (field; lra).
    apply Rmult_le_compat_r; lra.
Qed.

Lemma sample_csv_loaded : load_orders_stores sample_csv sample_loaded_frame.
Proof.
  split.
  - apply Permutation_refl.
  - repeat constructor. cbn. lia.
Qed.

Lemma sample_loaded_quantities :
  forall r, In r (rows (df {| df := sample_loaded_frame |})) ->
            0 <= Order_Quantity_kg r.
Proof.
  intros r [<- | [<- | []]]; cbn; lra.
Qed.

Lemma sample_loaded_volume_in_range :
  0 < Rsum (column Order_Quantity_kg (df {| df := sample_loaded_frame |}))
    < IZR (2 ^ 53).
Proof.
  replace (Rsum (column Order_Quantity_kg (df {| df := sample_loaded_frame |})))
    with 350 by (cbn; lra).
  split; [lra |]. apply (IZR_lt 350). reflexivity.
Qed.

Lemma loaded_frame_within_window_witness :
  (0 <= time_span_days sample_loaded_frame <= 364)%Z.
Proof.
  exact (proj2 (loaded_frame_within_window sample_csv sample_loaded_frame
                  sample_csv_loaded)).
Defined.

Lemma loaded_frame_utilization_witness :
  exists k u,
    calculate_kpis (DryIceAnalyzer_init {| df := sample_loaded_frame |})
      = Ok k /\
    container_utilization k = Fin u /\
    0 < u <= 1.
Proof.
  exact (loaded_frame_utilization sample_csv {| df := sample_loaded_frame |}
           sample_csv_loaded sample_loaded_quantities
           sample_loaded_volume_in_range).
Defined.
